(** * ABI-Agent: the self-healing code-generation loops and the agent graph

    A shallow embedding of [src/tools.py], [src/utils/llm_factory.py],
    [src/agents/planner.py], [src/agents/executor.py] and
    [src/agents/graph.py].

    Python values are modelled as follows.
    - [str] is [string]; the text primitives the code calls ([str.strip],
      slicing, [str.join], [re.search] with the fixed tag patterns,
      [textwrap.dedent]) are written out below.
    - [int] is [Z].
    - A function that may raise returns [Res A].  The exceptions of the
      library calls are derived from [Exception], the ones
      [except Exception] catches; the program run by [exec] can also leave
      through an exception that is not ([Exec]), and asynchronous
      interrupts of the other calls are not modelled.
    - The language model, [exec], DuckDB and [json.loads] are external: they
      are fields of an environment record [Env], and every theorem
      quantifies over all environments.  The calls made to them are
      recorded in a log, and each external answer may depend on the log. *)

From Stdlib Require Import ZArith List String Ascii Lia Bool DecimalString.
From stdpp Require Import base gmap strings list.

Set Warnings "-register-all".

Open Scope string_scope.
Open Scope Z_scope.

(** ** Python text primitives *)

Module Py.

(** The line feed character and the string made of it. *)
Definition lf_char : ascii := ascii_of_nat 10.
Definition LF : string := String lf_char EmptyString.

(** [str(n)] for an [int]. *)
Definition str_of_int (n : Z) : string :=
  NilZero.string_of_int (Z.to_int n).

(** [c.isspace()] on the ASCII range: tab, line feed, vertical tab, form
    feed, carriage return, the four separators 0x1c..0x1f, and space. *)
Definition isspace (c : ascii) : bool :=
  let n := nat_of_ascii c in
  ((9 <=? n)%nat && (n <=? 13)%nat)
  || ((28 <=? n)%nat && (n <=? 32)%nat).

Fixpoint lstrip (s : string) : string :=
  match s with
  | EmptyString => EmptyString
  | String c s' => if isspace c then lstrip s' else s
  end.

Fixpoint rstrip (s : string) : string :=
  match s with
  | EmptyString => EmptyString
  | String c s' =>
      match rstrip s' with
      | EmptyString => if isspace c then EmptyString else String c EmptyString
      | r => String c r
      end
  end.

(** [s.strip()] for an ASCII text.  (A Python string can also hold
    whitespace outside ASCII, which [str.strip] removes and this function
    keeps; what is stated of stripped text is stated of ASCII text.) *)
Definition strip (s : string) : string := rstrip (lstrip s).

(** [s.startswith(p)] *)
Fixpoint startswith (s p : string) {struct p} : bool :=
  match p, s with
  | EmptyString, _ => true
  | String _ _, EmptyString => false
  | String a p', String b s' => Ascii.eqb a b && startswith s' p'
  end.

(** [s[n:]] for [0 <= n]. *)
Fixpoint drop (n : nat) (s : string) : string :=
  match n, s with
  | O, _ => s
  | S _, EmptyString => EmptyString
  | S n', String _ s' => drop n' s'
  end.

(** [s.replace(old, new)] for a non-empty [old]: [skip] counts the
    characters of a match that are still to be passed over. *)
Fixpoint replace_from (old new : string) (skip : nat) (s : string) : string :=
  match s with
  | EmptyString => EmptyString
  | String c s' =>
      match skip with
      | S k => replace_from old new k s'
      | O =>
          if startswith s old
          then new ++ replace_from old new (String.length old - 1) s'
          else String c (replace_from old new O s')
      end
  end.

Definition replace (old new s : string) : string := replace_from old new O s.

(** [s[:n]] for [0 <= n] and an ASCII text, where the characters counted
    here are those Python counts. *)
Fixpoint take (n : nat) (s : string) : string :=
  match n, s with
  | O, _ => EmptyString
  | S _, EmptyString => EmptyString
  | S n', String c s' => String c (take n' s')
  end.

(** [s.partition(p)] when [p] occurs in [s]: the text before the first
    occurrence of [p] and the text after it; [None] when [p] does not
    occur. *)
Fixpoint partition (p s : string) : option (string * string) :=
  if startswith s p then Some (EmptyString, drop (String.length p) s)
  else match s with
       | EmptyString => None
       | String c s' =>
           match partition p s' with
           | Some (before, after) => Some (String c before, after)
           | None => None
           end
       end.

(** [p in s] *)
Definition contains (p s : string) : bool :=
  match partition p s with Some _ => true | None => false end.

(** [sep.join(parts)] *)
Fixpoint join (sep : string) (parts : list string) : string :=
  match parts with
  | nil => EmptyString
  | x :: nil => x
  | x :: rest => x ++ sep ++ join sep rest
  end.

(** [s.split("\n")] *)
Fixpoint split_lines (s : string) : list string :=
  match s with
  | EmptyString => EmptyString :: nil
  | String c s' =>
      if Ascii.eqb c lf_char then EmptyString :: split_lines s'
      else match split_lines s' with
           | nil => String c EmptyString :: nil
           | l :: ls => String c l :: ls
           end
  end.

(** *** [textwrap.dedent]

    The regular-expression implementation of CPython (2.5 to 3.13):
    lines made only of spaces and tabs become empty, the margin is the
    longest run of spaces and tabs common to the remaining non-empty
    lines, and the margin is removed from the lines that start with
    it. *)

Definition is_blank (c : ascii) : bool :=
  Ascii.eqb c " "%char || Ascii.eqb c (ascii_of_nat 9).

Fixpoint all_blank (s : string) : bool :=
  match s with
  | EmptyString => true
  | String c s' => is_blank c && all_blank s'
  end.

(** [_whitespace_only_re.sub('', text)], one line at a time. *)
Definition normalize_line (l : string) : string :=
  if all_blank l then EmptyString else l.

(** The leading run of spaces and tabs that [_leading_whitespace_re]
    captures. *)
Fixpoint leading_blank (s : string) : string :=
  match s with
  | EmptyString => EmptyString
  | String c s' => if is_blank c then String c (leading_blank s') else EmptyString
  end.

(** [margin[:i]] for the first [i] at which [margin] and [indent]
    differ. *)
Fixpoint common_prefix (a b : string) : string :=
  match a, b with
  | String x a', String y b' =>
      if Ascii.eqb x y then String x (common_prefix a' b') else EmptyString
  | _, _ => EmptyString
  end.

(** One iteration of [for indent in indents]. *)
Definition margin_step (margin : option string) (indent : string)
  : option string :=
  match margin with
  | None => Some indent
  | Some m =>
      if startswith indent m then Some m
      else if startswith m indent then Some indent
      else Some (common_prefix m indent)
  end.

Definition has_text (l : string) : bool :=
  match l with EmptyString => false | _ => true end.

Definition find_margin (lines : list string) : option string :=
  fold_left margin_step (map leading_blank (List.filter has_text lines)) None.

(** [re.sub(r'(?m)^' + margin, '', text)], one line at a time. *)
Definition remove_margin (m l : string) : string :=
  if startswith l m then drop (String.length m) l else l.

Definition dedent (text : string) : string :=
  let lines := map normalize_line (split_lines text) in
  match find_margin lines with
  | Some (String c m) => join LF (map (remove_margin (String c m)) lines)
  | _ => join LF lines
  end.

End Py.

(** ** Values shared by every component *)

(** An exception object: [type(exc).__name__] and [str(exc)]. *)
Record Exn := mkExn { exn_type : string; exn_msg : string }.

(** [raise ValueError(msg)] *)
Definition ValueError (msg : string) : Exn := mkExn "ValueError" msg.

(** The result of a call that may raise. *)
Inductive Res (A : Type) : Type :=
| Ok (a : A)
| Raise (e : Exn).
Arguments Ok {A} a.
Arguments Raise {A} e.

(** A materialized table ([pl.DataFrame]).  The code only reads its schema
    and two renderings of its first rows:
    [df_sample] is the text of [df.head(3).to_dicts()] and [df_preview] the
    text of [df.head(10).to_pandas().to_string(index=False)]. *)
Record DataFrame := mkDataFrame {
  df_schema : list (string * string);
  df_sample : string;
  df_preview : string
}.

(** A lazy table ([pl.LazyFrame]): reading the schema and materializing the
    rows are two separate operations, and either may raise. *)
Record LazyFrame := mkLazyFrame {
  collect_schema : Res (list (string * string));
  collect : Res DataFrame
}.

(** The values a generated program can leave in its namespace. *)
Inductive PyVal :=
| PyNone
| PyModule (name : string)
| PyLazy (lf : LazyFrame)
| PyFrame (df : DataFrame)
| PyObject (type_name : string) (repr : string).

(** [type(v).__name__] *)
Definition type_name (v : PyVal) : string :=
  match v with
  | PyNone => "NoneType"
  | PyModule _ => "module"
  | PyLazy _ => "LazyFrame"
  | PyFrame _ => "DataFrame"
  | PyObject t _ => t
  end.

(** What [json.loads] returns: [None], [bool], [int], [float] (by its
    64-bit pattern), [str], [list] and [dict]. *)
Inductive Json :=
| JNull
| JBool (b : bool)
| JInt (n : Z)
| JFloat (bits : Z)
| JStr (s : string)
| JList (l : list Json)
| JDict (d : gmap string Json).

(** Python truthiness, [bool(v)]. *)
Definition truthy (v : Json) : bool :=
  match v with
  | JNull => false
  | JBool b => b
  | JInt n => negb (n =? 0)
  | JFloat bits => negb ((bits =? 0) || (bits =? 2 ^ 63))
  | JStr s => negb (String.eqb s "")
  | JList l => match l with nil => false | _ => true end
  | JDict d => negb (Nat.eqb (size d) 0)
  end.

(** [d.get(key, default)] *)
Definition dict_get (d : gmap string Json) (key : string) (default : Json) : Json :=
  match d !! key with
  | Some v => v
  | None => default
  end.

(** ** [src/config.py] and [src/utils/llm_factory.py] *)

Record ModelPairConfig := mkModelPair { primary : string; fallback : string }.

(** [LLMConfig]; [temperature] is kept as the text of the float. *)
Record LLMConfig := mkLLMConfig {
  provider : string;
  temperature : string;
  max_tokens : Z;
  max_retries : Z;
  models : gmap string ModelPairConfig
}.

(** A chat model client, as [build_llm] constructs it: the class and the
    arguments given to its constructor. *)
Record LLM := mkLLM {
  llm_class : string;
  llm_model : string;
  llm_temperature : string;
  llm_max_tokens : Z
}.

(** [settings.llm.models[settings.llm.provider]] *)
Definition active_pair (c : LLMConfig) : Res ModelPairConfig :=
  match models c !! provider c with
  | Some p => Ok p
  | None => Raise (mkExn "KeyError" ("'" ++ provider c ++ "'"))
  end.

(** [build_llm]: it raises when the provider has no model pair or is not one
    of the two it knows; the constructors of the two client classes are
    taken as they are written, as calls that return a client. *)
Definition build_llm (c : LLMConfig) (use_fallback : bool) : Res LLM :=
  match active_pair c with
  | Raise e => Raise e
  | Ok mp =>
      let model_name := if use_fallback then fallback mp else primary mp in
      let model_name := Py.replace "groq/" "" model_name in
      if String.eqb (provider c) "google" then
        Ok (mkLLM "ChatGoogleGenerativeAI" model_name (temperature c) (max_tokens c))
      else if String.eqb (provider c) "groq" then
        Ok (mkLLM "ChatGroq" model_name (temperature c) (max_tokens c))
      else
        Raise (ValueError ("Unsupported provider: '" ++ provider c
                           ++ "'. Valid options: google | groq"))
  end.

(** ** The environment *)

(** The five system instructions are module constants; only their identity
    matters here. *)
Inductive SystemPrompt :=
| POLARS_SYSTEM_PROMPT
| SQL_SYSTEM_PROMPT
| VIZ_SYSTEM_PROMPT
| PLANNER_PROMPT
| RESPONDER_PROMPT.

(** The calls made to the outside, in the order they are made. *)
Inductive Event :=
| EvInvoke (llm : LLM) (system : SystemPrompt) (user : string)
| EvExec (code : string)
| EvQuery (sql : string).

Definition Log := list Event.

(** What [exec(code, namespace)] can do.  The program is written by the
    model: it returns with a namespace, raises an exception derived from
    [Exception], or leaves through an exception that is not derived from
    [Exception] ([SystemExit] from [sys.exit()] or [exit()],
    [KeyboardInterrupt], [GeneratorExit], the [PanicException] of a panic
    inside Polars), which no [except Exception] clause catches. *)
Inductive Exec :=
| Finished (r : Res (gmap string PyVal))
| Exited (e : Exn).

(** The collaborators the code calls: the loaded settings, [llm.invoke]
    (answering with [str(response.content)]), [exec], DuckDB's
    [conn.execute(sql).pl()] over the registered table,
    [traceback.format_exc()], [json.loads], [json.dumps(plan, indent=2)]
    and [str] on a decoded value.  The library calls raise exceptions
    derived from [Exception]; only the generated program, run by [exec],
    is given the other way out. *)
Record Env := mkEnv {
  settings : LLMConfig;
  llm_invoke : Log -> LLM -> SystemPrompt -> string -> Res string;
  py_run : Log -> string -> gmap string PyVal -> Exec;
  duckdb_execute : Log -> string -> DataFrame -> Res DataFrame;
  format_exc : Exn -> string;
  json_loads : string -> Res Json;
  json_dumps : gmap string Json -> string;
  py_str : Json -> string
}.

(** [exec] as a call that returns or raises, whatever the class of the
    exception. *)
Definition py_exec (env : Env) (log : Log) (code : string)
           (namespace : gmap string PyVal) : Res (gmap string PyVal) :=
  match py_run env log code namespace with
  | Finished r => r
  | Exited e => Raise e
  end.

Definition is_invoke (e : Event) : bool :=
  match e with EvInvoke _ _ _ => true | _ => false end.

Definition is_query (e : Event) : bool :=
  match e with EvQuery _ => true | _ => false end.

(** The model calls and the queries of a log. *)
Definition invocations (log : Log) : Log := List.filter is_invoke log.
Definition queries (log : Log) : Log := List.filter is_query log.

(** ** [src/tools.py]: helpers *)

(** [re.search(rf"<{tag}>(.*?)</{tag}>", text, re.DOTALL)], giving
    [match.group(1)], for the tags the program uses ([code], [sql] and
    [plan]), which hold no character with a meaning in a pattern: the
    pattern is then the literal pair of tags.  With a lazy body that also
    matches line feeds, the leftmost match opens at the first opening tag
    and closes at the first closing tag after it; there is no match when
    either is missing. *)
Definition search_tag (text tag : string) : option string :=
  match Py.partition ("<" ++ tag ++ ">") text with
  | None => None
  | Some (_, rest) =>
      match Py.partition ("</" ++ tag ++ ">") rest with
      | None => None
      | Some (inner, _) => Some inner
      end
  end.

Definition _extract_tag (text tag : string) : string :=
  match search_tag text tag with
  | None => ""
  | Some inner => Py.strip inner
  end.

(** [f"  - {col}: {dtype}"] for every column of a schema. *)
Definition schema_lines (schema : list (string * string)) : list string :=
  map (fun cd => "  - " ++ fst cd ++ ": " ++ snd cd) schema.

Definition _get_schema_info (lf : LazyFrame) : Res string :=
  match collect_schema lf with
  | Raise e => Raise e
  | Ok schema => Ok ("Dataset columns:" ++ Py.LF ++ Py.join Py.LF (schema_lines schema))
  end.

(** The indentation of the template lines and of the closing quotes in the
    source of the two prompt builders. *)
Definition ind12 : string := "            ".
Definition ind8 : string := "        ".

(** ** The retry loops: shared bookkeeping *)

(** Which step of an attempt raised: the model call, the extraction of the
    code block, the execution of the code, or the check of its output. *)
Inductive ErrorKind := UpstreamError | ProtocolError | ExecutionError | ValidationError.

(** A guarded step: it passes, the [except Exception] clause catches what
    it raised, or it raised an exception that the clause does not catch. *)
Inductive Tried (A : Type) : Type :=
| Passed (a : A)
| Caught (kind : ErrorKind) (e : Exn)
| Uncaught (e : Exn).
Arguments Passed {A} a.
Arguments Caught {A} kind e.
Arguments Uncaught {A} e.

(** How one iteration of a retry loop ends: [Aborted] when an exception
    leaves the loop (it was raised before the [try] block), [Failed] when
    the [except] clause captured it, [Succeeded] with the code and the
    payload, [Escaped] when the generated program left through an
    exception that the [except] clause does not catch, which then leaves
    the loop. *)
Inductive Outcome (P : Type) : Type :=
| Aborted (e : Exn)
| Failed (kind : ErrorKind) (e : Exn)
| Succeeded (code : string) (payload : P)
| Escaped (e : Exn).
Arguments Aborted {P} e.
Arguments Failed {P} kind e.
Arguments Succeeded {P} code payload.
Arguments Escaped {P} e.

(** One iteration: the loop variable, the model selected, the value of
    [error_history] when it starts, the user message built from it, and
    how it ends. *)
Record Attempt (P : Type) : Type := mkAttempt {
  at_number : Z;
  at_use_fallback : bool;
  at_history : list string;
  at_prompt : string;
  at_outcome : Outcome P
}.
Arguments mkAttempt {P}.
Arguments at_number {P}.
Arguments at_use_fallback {P}.
Arguments at_history {P}.
Arguments at_prompt {P}.
Arguments at_outcome {P}.

(** The three [return] statements of a retry loop. *)
Inductive ReturnSite := InLoopSuccess | InLoopExhausted | AfterLoop.

(** A complete call: what it returns (and from where) or raises, the
    iterations it went through, and the log when it ends. *)
Record Run (R P : Type) : Type := mkRun {
  run_return : Res (ReturnSite * R);
  run_attempts : list (Attempt P);
  run_log : Log
}.
Arguments mkRun {R P}.
Arguments run_return {R P}.
Arguments run_attempts {R P}.
Arguments run_log {R P}.

(** What one iteration does to the loop: go on to the next value of the
    range with the new [error_history] and [last_code], or leave the
    function. *)
Inductive Step (R P : Type) : Type :=
| Continue (a : Attempt P) (error_history : list string) (last_code : string) (log : Log)
| Stop (a : Attempt P) (r : Res (ReturnSite * R)) (log : Log).
Arguments Continue {R P}.
Arguments Stop {R P}.

(** The attempt record of an iteration, and what the function returns if
    the iteration leaves it. *)
Definition step_attempt {R P : Type} (s : Step R P) : Attempt P :=
  match s with
  | Continue a _ _ _ => a
  | Stop a _ _ => a
  end.

Definition step_return {R P : Type} (s : Step R P) : option (Res (ReturnSite * R)) :=
  match s with
  | Continue _ _ _ _ => None
  | Stop _ r _ => Some r
  end.

(** [range(lo, hi)] *)
Definition py_range (lo hi : Z) : list Z :=
  map (fun i => lo + Z.of_nat i) (seq 0 (Z.to_nat (hi - lo))).

Definition is_failed {P} (a : Attempt P) : Prop :=
  exists kind e, at_outcome a = Failed kind e.

(** ** [PolarsAnalyst] *)

Module PolarsAnalyst.

Record t := mk { _max_retries : Z }.

Definition __init__ : t := mk 3.

(** The dict [analyze] returns. *)
Record result := mkResult {
  success : bool;
  result_df : option DataFrame;
  generated_code : string;
  error : option string;
  attempts : Z
}.

Definition base_prompt (question schema_info : string) : string :=
  Py.strip (Py.dedent (Py.join Py.LF (
    "" ::
    (ind12 ++ schema_info) ::
    "" ::
    (ind12 ++ "Question: " ++ question) ::
    "" ::
    (ind12 ++ "Write Polars code to answer this question.") ::
    (ind12 ++ "Remember:") ::
    (ind12 ++ "- Input is `lf` (LazyFrame). Do not redefine it.") ::
    (ind12 ++ "- End with: result = lf.[...].collect()") ::
    (ind12 ++ "- result must be a polars.DataFrame") ::
    ind8 :: nil))).

Definition _build_prompt (question schema_info : string)
           (error_history : list string) : string :=
  let base := base_prompt question schema_info in
  match error_history with
  | nil => base
  | _ =>
      let errors := Py.join (Py.LF ++ Py.LF ++ "---" ++ Py.LF) error_history in
      Py.strip (Py.dedent (Py.join Py.LF (
        "" ::
        (ind12 ++ base) ::
        "" ::
        (ind12 ++ "YOUR PREVIOUS CODE FAILED. Study these errors and fix them:") ::
        "" ::
        (ind12 ++ errors) ::
        "" ::
        (ind12 ++ "Write corrected code now. Pay attention to:") ::
        (ind12 ++ "- group_by() not groupby()") ::
        (ind12 ++ "- .alias() for renaming columns") ::
        (ind12 ++ "- .collect() at the end") ::
        (ind12 ++ "- Correct column names from the schema above") ::
        ind8 :: nil)))
  end.

Definition no_result_error : Exn :=
  ValueError ("Code did not define a `result` variable. "
              ++ "Make sure your code ends with: result = lf.[...].collect()").

Definition wrong_type_error (v : PyVal) : Exn :=
  ValueError ("`result` must be a polars.DataFrame, "
              ++ "got " ++ type_name v ++ ". "
              ++ "Did you forget .collect() at the end?").

(** [namespace.get("result")] followed by the two checks. *)
Definition check_result (namespace : gmap string PyVal) : Tried DataFrame :=
  match default PyNone (namespace !! "result") with
  | PyNone => Caught ValidationError no_result_error
  | PyFrame df => Passed df
  | v => Caught ValidationError (wrong_type_error v)
  end.

Definition _run_code (env : Env) (log : Log) (code : string) (lf : LazyFrame)
  : Tried DataFrame * Log :=
  let namespace : gmap string PyVal :=
    <["pl" := PyModule "polars"]> (<["lf" := PyLazy lf]> ∅) in
  match py_run env log code namespace with
  | Exited e => (Uncaught e, (log ++ EvExec code :: nil)%list)
  | Finished (Raise e) => (Caught ExecutionError e, (log ++ EvExec code :: nil)%list)
  | Finished (Ok namespace') =>
      (check_result namespace', (log ++ EvExec code :: nil)%list)
  end.

Definition no_code_error (response_text : string) : Exn :=
  ValueError ("LLM did not return a <code> block. "
              ++ "Raw response: " ++ Py.take 300 response_text).

(** The body of the [try] block: the new value of [last_code], and the
    code and table, or what was raised. *)
Definition try_block (env : Env) (log : Log) (llm : LLM) (user_message : string)
           (lf : LazyFrame) (last_code : string)
  : string * Tried (string * DataFrame) * Log :=
  let log1 := (log ++ EvInvoke llm POLARS_SYSTEM_PROMPT user_message :: nil)%list in
  match llm_invoke env log llm POLARS_SYSTEM_PROMPT user_message with
  | Raise e => (last_code, Caught UpstreamError e, log1)
  | Ok response_text =>
      let code := _extract_tag response_text "code" in
      if String.eqb code "" then
        (code, Caught ProtocolError (no_code_error response_text), log1)
      else
        match _run_code env log1 code lf with
        | (Caught k e, log2) => (code, Caught k e, log2)
        | (Uncaught e, log2) => (code, Uncaught e, log2)
        | (Passed result_df, log2) => (code, Passed (code, result_df), log2)
        end
  end.

(** The text appended to [error_history] by the [except] clause. *)
Definition error_msg (env : Env) (attempt : Z) (exc : Exn) : string :=
  "Attempt " ++ Py.str_of_int attempt ++ " failed." ++ Py.LF
  ++ "Error type: " ++ exn_type exc ++ Py.LF
  ++ "Error message: " ++ exn_msg exc ++ Py.LF
  ++ "Traceback:" ++ Py.LF ++ format_exc env exc.

(** One iteration of [for attempt in range(1, self._max_retries + 2)]. *)
Definition loop_body (env : Env) (self : t) (question schema_info : string)
           (lf : LazyFrame) (attempt : Z)
           (error_history : list string) (last_code : string) (log : Log)
  : Step result DataFrame :=
  let use_fallback := attempt >? _max_retries self in
  let user_message := _build_prompt question schema_info error_history in
  let record := mkAttempt attempt use_fallback error_history user_message in
  match build_llm (settings env) use_fallback with
  | Raise e => Stop (record (Aborted e)) (Raise e) log
  | Ok llm =>
      match try_block env log llm user_message lf last_code with
      | (_, Passed (code, result_df), log') =>
          Stop (record (Succeeded code result_df))
               (Ok (InLoopSuccess, mkResult true (Some result_df) code None attempt))
               log'
      | (last_code', Caught kind exc, log') =>
          let error_history' := (error_history ++ error_msg env attempt exc :: nil)%list in
          if attempt >? _max_retries self then
            Stop (record (Failed kind exc))
                 (Ok (InLoopExhausted,
                      mkResult false None last_code' (Some (exn_msg exc)) attempt))
                 log'
          else
            Continue (record (Failed kind exc)) error_history' last_code' log'
      | (_, Uncaught exc, log') => Stop (record (Escaped exc)) (Raise exc) log'
      end
  end.

(** The [for] loop over the values of the range that are left, and the
    [return] that follows it. *)
Fixpoint retry_loop (env : Env) (self : t) (question schema_info : string)
         (lf : LazyFrame) (range : list Z)
         (error_history : list string) (last_code : string) (log : Log)
  : Run result DataFrame :=
  match range with
  | nil =>
      mkRun (Ok (AfterLoop,
                 mkResult false None last_code
                          (Some "Unexpected exit from retry loop.")
                          (_max_retries self + 1)))
            nil log
  | attempt :: rest =>
      match loop_body env self question schema_info lf attempt
                      error_history last_code log with
      | Stop a r log' => mkRun r (a :: nil) log'
      | Continue a error_history' last_code' log' =>
          let run := retry_loop env self question schema_info lf rest
                                error_history' last_code' log' in
          mkRun (run_return run) (a :: run_attempts run) (run_log run)
      end
  end.

Definition analyze (env : Env) (self : t) (question : string) (lf : LazyFrame)
           (log : Log) : Run result DataFrame :=
  match _get_schema_info lf with
  | Raise e => mkRun (Raise e) nil log
  | Ok schema_info =>
      retry_loop env self question schema_info lf
                 (py_range 1 (_max_retries self + 2)) nil "" log
  end.

End PolarsAnalyst.

(** ** [SQLGenerator] *)

Module SQLGenerator.

(** The dict [generate] returns. *)
Record result := mkResult {
  success : bool;
  sql_query : string;
  result_df : option DataFrame;
  error : option string
}.

Definition user_prompt (question schema_info : string) : string :=
  Py.strip (Py.dedent (Py.join Py.LF (
    "" ::
    (ind12 ++ schema_info) ::
    "" ::
    (ind12 ++ "Table name in DuckDB: sc_data") ::
    "" ::
    (ind12 ++ "Question: " ++ question) ::
    "" ::
    (ind12 ++ "Write a DuckDB SQL query to answer this.") ::
    ind8 :: nil))).

(** The [except Exception] clause. *)
Definition failure (sql_query : string) (exc : Exn) : result :=
  mkResult false sql_query None (Some (exn_msg exc)).

Definition generate (env : Env) (question : string) (lf : LazyFrame) (log : Log)
  : Res result * Log :=
  match build_llm (settings env) false with
  | Raise e => (Raise e, log)
  | Ok llm =>
      match _get_schema_info lf with
      | Raise e => (Raise e, log)
      | Ok schema_info =>
          let user_message := user_prompt question schema_info in
          let sql_query := "" in
          let log1 := (log ++ EvInvoke llm SQL_SYSTEM_PROMPT user_message :: nil)%list in
          match llm_invoke env log llm SQL_SYSTEM_PROMPT user_message with
          | Raise exc => (Ok (failure sql_query exc), log1)
          | Ok response_text =>
              let sql_query := _extract_tag response_text "sql" in
              if String.eqb sql_query "" then
                (Ok (failure sql_query (ValueError "LLM did not return a <sql> block.")),
                 log1)
              else
                match collect lf with
                | Raise exc => (Ok (failure sql_query exc), log1)
                | Ok sc_data =>
                    let log2 := (log1 ++ EvQuery sql_query :: nil)%list in
                    match duckdb_execute env log1 sql_query sc_data with
                    | Raise exc => (Ok (failure sql_query exc), log2)
                    | Ok result_df =>
                        (Ok (mkResult true sql_query (Some result_df) None), log2)
                    end
                end
          end
      end
  end.

End SQLGenerator.

(** ** [VizGenerator] *)

Module VizGenerator.

Record t := mk { _max_retries : Z }.

Definition __init__ : t := mk 3.

(** The dict [generate] returns; [figure] is whatever the code bound to
    [fig], or [None]. *)
Record result := mkResult {
  success : bool;
  figure : PyVal;
  generated_code : string;
  error : option string;
  attempts : Z
}.

(** [", ".join(f"{c}({t})" for c, t in df.collect_schema().items())] *)
Definition col_info (df : DataFrame) : string :=
  Py.join ", " (map (fun ct => fst ct ++ "(" ++ snd ct ++ ")") (df_schema df)).

Definition base_prompt (question : string) (df : DataFrame) : string :=
  Py.strip (Py.dedent (Py.join Py.LF (
    "" ::
    (ind12 ++ "Columns: " ++ col_info df) ::
    (ind12 ++ "Sample rows: " ++ df_sample df) ::
    (ind12 ++ "Chart request: " ++ question) ::
    (ind12 ++ "Write Plotly code. DataFrame is `df`. ") ::
    (ind12 ++ "Assign result to `fig`.") ::
    ind8 :: nil))).

(** The [if error_history: ... else: ...] that sets [prompt]. *)
Definition build_prompt (base : string) (error_history : list string) : string :=
  match error_history with
  | nil => base
  | _ =>
      let errors := Py.join (Py.LF ++ Py.LF ++ "---" ++ Py.LF) error_history in
      base ++ Py.LF ++ Py.LF ++ "Fix these errors:" ++ Py.LF ++ errors
  end.

Definition no_code_error : Exn := ValueError "LLM returned no <code> block.".

Definition no_fig_error : Exn := ValueError "Code did not define a `fig` variable.".

(** [namespace.get("fig")] followed by the check. *)
Definition check_fig (namespace : gmap string PyVal) : Tried PyVal :=
  match default PyNone (namespace !! "fig") with
  | PyNone => Caught ValidationError no_fig_error
  | fig => Passed fig
  end.

(** The body of the [try] block. *)
Definition try_block (env : Env) (log : Log) (llm : LLM) (prompt : string)
           (df : DataFrame) (last_code : string)
  : string * Tried (string * PyVal) * Log :=
  let log1 := (log ++ EvInvoke llm VIZ_SYSTEM_PROMPT prompt :: nil)%list in
  match llm_invoke env log llm VIZ_SYSTEM_PROMPT prompt with
  | Raise e => (last_code, Caught UpstreamError e, log1)
  | Ok response_text =>
      let code := _extract_tag response_text "code" in
      if String.eqb code "" then
        (code, Caught ProtocolError no_code_error, log1)
      else
        let namespace : gmap string PyVal :=
          <["df" := PyFrame df]> (<["go" := PyModule "plotly.graph_objects"]>
          (<["px" := PyModule "plotly.express"]> (<["pl" := PyModule "polars"]> ∅))) in
        let log2 := (log1 ++ EvExec code :: nil)%list in
        match py_run env log1 code namespace with
        | Exited e => (code, Uncaught e, log2)
        | Finished (Raise e) => (code, Caught ExecutionError e, log2)
        | Finished (Ok namespace') =>
            match check_fig namespace' with
            | Caught k e => (code, Caught k e, log2)
            | Uncaught e => (code, Uncaught e, log2)
            | Passed fig => (code, Passed (code, fig), log2)
            end
        end
  end.

(** The text appended to [error_history] by the [except] clause. *)
Definition error_msg (env : Env) (attempt : Z) (exc : Exn) : string :=
  "Attempt " ++ Py.str_of_int attempt ++ ": " ++ exn_type exc ++ ": "
  ++ exn_msg exc ++ Py.LF ++ format_exc env exc.

(** One iteration of [for attempt in range(1, self._max_retries + 2)]. *)
Definition loop_body (env : Env) (self : t) (base : string) (df : DataFrame)
           (attempt : Z)
           (error_history : list string) (last_code : string) (log : Log)
  : Step result PyVal :=
  let use_fallback := attempt >? _max_retries self in
  let prompt := build_prompt base error_history in
  let record := mkAttempt attempt use_fallback error_history prompt in
  match build_llm (settings env) use_fallback with
  | Raise e => Stop (record (Aborted e)) (Raise e) log
  | Ok llm =>
      match try_block env log llm prompt df last_code with
      | (_, Passed (code, fig), log') =>
          Stop (record (Succeeded code fig))
               (Ok (InLoopSuccess, mkResult true fig code None attempt))
               log'
      | (last_code', Caught kind exc, log') =>
          let error_history' := (error_history ++ error_msg env attempt exc :: nil)%list in
          if attempt >? _max_retries self then
            Stop (record (Failed kind exc))
                 (Ok (InLoopExhausted,
                      mkResult false PyNone last_code' (Some (exn_msg exc)) attempt))
                 log'
          else
            Continue (record (Failed kind exc)) error_history' last_code' log'
      | (_, Uncaught exc, log') => Stop (record (Escaped exc)) (Raise exc) log'
      end
  end.

Fixpoint retry_loop (env : Env) (self : t) (base : string) (df : DataFrame)
         (range : list Z)
         (error_history : list string) (last_code : string) (log : Log)
  : Run result PyVal :=
  match range with
  | nil =>
      mkRun (Ok (AfterLoop,
                 mkResult false PyNone last_code (Some "Unexpected exit.")
                          (_max_retries self + 1)))
            nil log
  | attempt :: rest =>
      match loop_body env self base df attempt error_history last_code log with
      | Stop a r log' => mkRun r (a :: nil) log'
      | Continue a error_history' last_code' log' =>
          let run := retry_loop env self base df rest
                                error_history' last_code' log' in
          mkRun (run_return run) (a :: run_attempts run) (run_log run)
      end
  end.

Definition generate (env : Env) (self : t) (question : string) (df : DataFrame)
           (log : Log) : Run result PyVal :=
  retry_loop env self (base_prompt question df) df
             (py_range 1 (_max_retries self + 2)) nil "" log.

End VizGenerator.

(** ** The common shape of the two loops

    [PolarsAnalyst.retry_loop] and [VizGenerator.retry_loop] are the same
    loop around two different bodies.  [for_loop] is that loop over any
    body, and [body_ok] says what both bodies do with the loop state; the
    facts proved about [for_loop] then hold for the two loops of the
    source. *)

Section ForLoop.
Context {R P : Type}.
Variable body : Z -> list string -> string -> Log -> Step R P.
Variable after : string -> R.

Fixpoint for_loop (range : list Z) (error_history : list string)
         (last_code : string) (log : Log) : Run R P :=
  match range with
  | nil => mkRun (Ok (AfterLoop, after last_code)) nil log
  | attempt :: rest =>
      match body attempt error_history last_code log with
      | Stop a r log' => mkRun r (a :: nil) log'
      | Continue a error_history' last_code' log' =>
          let run := for_loop rest error_history' last_code' log' in
          mkRun (run_return run) (a :: run_attempts run) (run_log run)
      end
  end.
End ForLoop.

(** What distinguishes one loop from the other: the retry budget, the
    configuration the clients are built from, the system instruction, the
    user message for a given history, the history entry for a captured
    exception, and the two records returned from inside the loop. *)
Record Shape (R P : Type) : Type := mkShape {
  sh_max_retries : Z;
  sh_config : LLMConfig;
  sh_system : SystemPrompt;
  sh_prompt : list string -> string;
  sh_entry : Z -> Exn -> string;
  sh_success : string -> P -> Z -> R;
  sh_exhausted : string -> Exn -> Z -> R
}.
Arguments mkShape {R P}.
Arguments sh_max_retries {R P}.
Arguments sh_config {R P}.
Arguments sh_system {R P}.
Arguments sh_prompt {R P}.
Arguments sh_entry {R P}.
Arguments sh_success {R P}.
Arguments sh_exhausted {R P}.

(** The five ways through the body of an iteration.  In each of them the
    attempt record carries the loop variable, the model selection
    [attempt > max_retries], the history it started from and the message
    built from that history.  Unless the client could not be built, the
    log grows by one model call followed by events that are not model
    calls. *)
Inductive body_ok {R P : Type} (sh : Shape R P)
          (attempt : Z) (error_history : list string) (log : Log)
  : Step R P -> Prop :=
| body_aborts (e : Exn) :
    build_llm (sh_config sh) (attempt >? sh_max_retries sh) = Raise e ->
    body_ok sh attempt error_history log
      (Stop (mkAttempt attempt (attempt >? sh_max_retries sh) error_history
                       (sh_prompt sh error_history) (Aborted e))
            (Raise e) log)
| body_succeeds (llm : LLM) (code : string) (payload : P) (more : Log) :
    build_llm (sh_config sh) (attempt >? sh_max_retries sh) = Ok llm ->
    invocations more = nil ->
    body_ok sh attempt error_history log
      (Stop (mkAttempt attempt (attempt >? sh_max_retries sh) error_history
                       (sh_prompt sh error_history) (Succeeded code payload))
            (Ok (InLoopSuccess, sh_success sh code payload attempt))
            (log ++ EvInvoke llm (sh_system sh) (sh_prompt sh error_history) :: more)%list)
| body_exhausts (llm : LLM) (kind : ErrorKind) (e : Exn) (last_code : string)
                (more : Log) :
    build_llm (sh_config sh) (attempt >? sh_max_retries sh) = Ok llm ->
    invocations more = nil ->
    attempt > sh_max_retries sh ->
    body_ok sh attempt error_history log
      (Stop (mkAttempt attempt (attempt >? sh_max_retries sh) error_history
                       (sh_prompt sh error_history) (Failed kind e))
            (Ok (InLoopExhausted, sh_exhausted sh last_code e attempt))
            (log ++ EvInvoke llm (sh_system sh) (sh_prompt sh error_history) :: more)%list)
| body_retries (llm : LLM) (kind : ErrorKind) (e : Exn) (last_code : string)
               (more : Log) :
    build_llm (sh_config sh) (attempt >? sh_max_retries sh) = Ok llm ->
    invocations more = nil ->
    attempt <= sh_max_retries sh ->
    body_ok sh attempt error_history log
      (Continue (mkAttempt attempt (attempt >? sh_max_retries sh) error_history
                           (sh_prompt sh error_history) (Failed kind e))
                (error_history ++ sh_entry sh attempt e :: nil)%list
                last_code
                (log ++ EvInvoke llm (sh_system sh) (sh_prompt sh error_history) :: more)%list)
| body_escapes (llm : LLM) (e : Exn) (more : Log) :
    build_llm (sh_config sh) (attempt >? sh_max_retries sh) = Ok llm ->
    invocations more = nil ->
    body_ok sh attempt error_history log
      (Stop (mkAttempt attempt (attempt >? sh_max_retries sh) error_history
                       (sh_prompt sh error_history) (Escaped e))
            (Raise e)
            (log ++ EvInvoke llm (sh_system sh) (sh_prompt sh error_history) :: more)%list).

(** The model call of an iteration that got as far as its [try] block. *)
Definition call_of {P : Type} (c : LLMConfig) (system : SystemPrompt)
           (a : Attempt P) : list Event :=
  match at_outcome a, build_llm c (at_use_fallback a) with
  | Aborted _, _ => nil
  | _, Raise _ => nil
  | _, Ok llm => EvInvoke llm system (at_prompt a) :: nil
  end.

Definition calls_of {P : Type} (c : LLMConfig) (system : SystemPrompt)
           (attempts : list (Attempt P)) : list Event :=
  flat_map (call_of c system) attempts.

(** [made_by c system a ev]: [ev] is the model call of iteration [a], made
    with the client that [build_llm] returns for the model selection of
    [a], on the message of [a]. *)
Definition made_by {P : Type} (c : LLMConfig) (system : SystemPrompt)
           (a : Attempt P) (ev : Event) : Prop :=
  exists llm,
    build_llm c (at_use_fallback a) = Ok llm
    /\ ev = EvInvoke llm system (at_prompt a).


(** A run that stopped at iteration [k]: there are [k] iterations, the
    first [k - 1] failed, and the model calls added to the log are those of
    the [k] iterations, one each and in order, so none follows the call of
    iteration [k]. *)
Definition stopped_at {R P : Type} (c : LLMConfig) (system : SystemPrompt)
           (k : Z) (log : Log) (run : Run R P) : Prop :=
  List.length (run_attempts run) = Z.to_nat k
  /\ Forall is_failed (removelast (run_attempts run))
  /\ exists calls,
      invocations (run_log run) = (invocations log ++ calls)%list
      /\ List.length calls = Z.to_nat k
      /\ Forall2 (made_by c system) (run_attempts run) calls.

(** The history entry an iteration leaves behind when it fails. *)
Definition entry_of {P : Type} (entry : Z -> Exn -> string) (a : Attempt P) : string :=
  match at_outcome a with
  | Failed _ e => entry (at_number a) e
  | _ => ""
  end.

Definition analyst_shape (env : Env) (self : PolarsAnalyst.t)
           (question schema_info : string)
  : Shape PolarsAnalyst.result DataFrame :=
  mkShape (PolarsAnalyst._max_retries self) (settings env) POLARS_SYSTEM_PROMPT
          (PolarsAnalyst._build_prompt question schema_info)
          (PolarsAnalyst.error_msg env)
          (fun code df attempt =>
             PolarsAnalyst.mkResult true (Some df) code None attempt)
          (fun last_code exc attempt =>
             PolarsAnalyst.mkResult false None last_code (Some (exn_msg exc)) attempt).

Definition viz_shape (env : Env) (self : VizGenerator.t) (base : string)
  : Shape VizGenerator.result PyVal :=
  mkShape (VizGenerator._max_retries self) (settings env) VIZ_SYSTEM_PROMPT
          (VizGenerator.build_prompt base)
          (VizGenerator.error_msg env)
          (fun code fig attempt =>
             VizGenerator.mkResult true fig code None attempt)
          (fun last_code exc attempt =>
             VizGenerator.mkResult false PyNone last_code (Some (exn_msg exc)) attempt).

(** ** [src/agents/state.py] *)

(** [AgentState], with every key present as in the initial state the
    application builds.  [next_node] holds whatever the planner found under
    the plan's ["routing"] key, [messages] the contents of the messages. *)
Record AgentState := mkState {
  messages : list string;
  user_question : string;
  raw_dataframe : option LazyFrame;
  plan : gmap string Json;
  next_node : Json;
  analysis_result : option DataFrame;
  generated_code : string;
  sql_query : string;
  sql_result : option DataFrame;
  figure : PyVal;
  error : option string;
  retry_count : Z;
  final_answer : string
}.

(** The dict a node returns: the keys it sets, [None] for a key it leaves
    out. *)
Record Update := mkUpdate {
  u_messages : list string;
  u_plan : option (gmap string Json);
  u_next_node : option Json;
  u_analysis_result : option (option DataFrame);
  u_generated_code : option string;
  u_sql_query : option string;
  u_sql_result : option (option DataFrame);
  u_figure : option PyVal;
  u_error : option (option string);
  u_final_answer : option string
}.

Definition no_update : Update :=
  mkUpdate nil None None None None None None None None None.

(** The merge of a returned dict into the state: [messages] has the
    [add_messages] reducer, every other key is overwritten. *)
Definition apply_update (s : AgentState) (u : Update) : AgentState :=
  mkState (messages s ++ u_messages u)%list
          (user_question s)
          (raw_dataframe s)
          (default (plan s) (u_plan u))
          (default (next_node s) (u_next_node u))
          (default (analysis_result s) (u_analysis_result u))
          (default (generated_code s) (u_generated_code u))
          (default (sql_query s) (u_sql_query u))
          (default (sql_result s) (u_sql_result u))
          (default (figure s) (u_figure u))
          (default (error s) (u_error u))
          (retry_count s)
          (default (final_answer s) (u_final_answer u)).

(** ** [src/agents/planner.py] *)

(** The plan substituted when the model's answer is not JSON. *)
Definition default_plan (question : string) : gmap string Json :=
  <["intent" := JStr "analysis"]>
  (<["primary_task" := JStr question]>
  (<["requires_sql" := JBool false]>
  (<["requires_viz" := JBool false]>
  (<["chart_type" := JNull]>
  (<["complexity" := JStr "low"]>
  (<["routing" := JStr "executor"]> ∅)))))).

Definition json_type_name (v : Json) : string :=
  match v with
  | JNull => "NoneType"
  | JBool _ => "bool"
  | JInt _ => "int"
  | JFloat _ => "float"
  | JStr _ => "str"
  | JList _ => "list"
  | JDict _ => "dict"
  end.

(** [v == s] for a string [s]. *)
Definition eq_str (v : Json) (s : string) : bool :=
  match v with
  | JStr t => String.eqb t s
  | _ => false
  end.

(** The schema text of the planner's prompt. *)
Definition planner_schema_info (lf : option LazyFrame) : Res string :=
  match lf with
  | None => Ok ""
  | Some lf =>
      match collect_schema lf with
      | Raise e => Raise e
      | Ok schema =>
          Ok (Py.LF ++ "Dataset columns:" ++ Py.LF ++ Py.join Py.LF (schema_lines schema))
      end
  end.

(** [match.group(1).strip() if match else response_text.strip()] *)
Definition raw_json (response_text : string) : string :=
  match search_tag response_text "plan" with
  | Some inner => Py.strip inner
  | None => Py.strip response_text
  end.

(** The [try: json.loads ... except json.JSONDecodeError] statement: only
    that exception is caught. *)
Definition parse_plan (env : Env) (question response_text : string) : Res Json :=
  match json_loads env (raw_json response_text) with
  | Ok v => Ok v
  | Raise e =>
      if String.eqb (exn_type e) "JSONDecodeError"
      then Ok (JDict (default_plan question))
      else Raise e
  end.

Definition planner_node (env : Env) (state : AgentState) (log : Log)
  : Res Update * Log :=
  match build_llm (settings env) false with
  | Raise e => (Raise e, log)
  | Ok llm =>
      let question := user_question state in
      match planner_schema_info (raw_dataframe state) with
      | Raise e => (Raise e, log)
      | Ok schema_info =>
          let user_prompt := "User Question: " ++ question ++ schema_info in
          let log1 := (log ++ EvInvoke llm PLANNER_PROMPT user_prompt :: nil)%list in
          match llm_invoke env log llm PLANNER_PROMPT user_prompt with
          | Raise e => (Raise e, log1)
          | Ok response_text =>
              match parse_plan env question response_text with
              | Raise e => (Raise e, log1)
              | Ok (JDict d) =>
                  let next_node := dict_get d "routing" (JStr "executor") in
                  let next_node :=
                    if eq_str next_node "multi" then JStr "executor" else next_node in
                  (Ok (mkUpdate (("Plan created: " ++ json_dumps env d) :: nil)
                                (Some d) (Some next_node)
                                None None None None None None None),
                   log1)
              | Ok v =>
                  (Raise (mkExn "AttributeError"
                                ("'" ++ json_type_name v
                                 ++ "' object has no attribute 'get'")),
                   log1)
              end
          end
      end
  end.

(** ** [src/agents/executor.py] *)

Definition analysis_executor_node (env : Env) (state : AgentState) (log : Log)
  : Res Update * Log :=
  let question := user_question state in
  match raw_dataframe state with
  | None =>
      (Ok (mkUpdate nil None (Some (JStr "responder")) None None None None None
                    (Some (Some "No dataset loaded. Please upload a CSV file first."))
                    None),
       log)
  | Some lf =>
      let run := PolarsAnalyst.analyze env PolarsAnalyst.__init__ question lf log in
      match run_return run with
      | Raise e => (Raise e, run_log run)
      | Ok (_, result) =>
          if PolarsAnalyst.success result then
            let next_node :=
              if truthy (dict_get (plan state) "requires_viz" JNull)
              then "viz_node" else "responder" in
            (Ok (mkUpdate
                   (("Analysis complete after "
                     ++ Py.str_of_int (PolarsAnalyst.attempts result)
                     ++ " attempt(s)." ++ Py.LF
                     ++ "Code used:" ++ Py.LF
                     ++ PolarsAnalyst.generated_code result) :: nil)
                   None (Some (JStr next_node))
                   (Some (PolarsAnalyst.result_df result))
                   (Some (PolarsAnalyst.generated_code result))
                   None None None (Some None) None),
             run_log run)
          else
            (Ok (mkUpdate nil None (Some (JStr "responder")) None
                          (Some (PolarsAnalyst.generated_code result))
                          None None None
                          (Some (PolarsAnalyst.error result)) None),
             run_log run)
      end
  end.

Definition sql_executor_node (env : Env) (state : AgentState) (log : Log)
  : Res Update * Log :=
  let question := user_question state in
  match raw_dataframe state with
  | None =>
      (Ok (mkUpdate nil None (Some (JStr "responder")) None None None None None
                    (Some (Some "No dataset loaded.")) None),
       log)
  | Some lf =>
      match SQLGenerator.generate env question lf log with
      | (Raise e, log') => (Raise e, log')
      | (Ok result, log') =>
          if SQLGenerator.success result then
            (Ok (mkUpdate
                   (("SQL generated:" ++ Py.LF ++ "```sql" ++ Py.LF
                     ++ SQLGenerator.sql_query result ++ Py.LF ++ "```") :: nil)
                   None (Some (JStr "responder")) None None
                   (Some (SQLGenerator.sql_query result))
                   (Some (SQLGenerator.result_df result))
                   None (Some None) None),
             log')
          else
            (Ok (mkUpdate nil None (Some (JStr "responder")) None None
                          (Some (SQLGenerator.sql_query result))
                          None None
                          (Some (SQLGenerator.error result)) None),
             log')
      end
  end.

(** [f"{chart_type}"]: a string is inserted as it is, any other value
    through [str]. *)
Definition format_json (env : Env) (v : Json) : string :=
  match v with
  | JStr s => s
  | _ => py_str env v
  end.

Definition viz_executor_node (env : Env) (state : AgentState) (log : Log)
  : Res Update * Log :=
  let question := user_question state in
  let no_data :=
    (Ok (mkUpdate nil None (Some (JStr "responder")) None None None None None
                  (Some (Some "No data available for visualization.")) None),
     log) in
  let with_df (df : DataFrame) :=
    let chart_type := dict_get (plan state) "chart_type" (JStr "") in
    let viz_question :=
      if truthy chart_type
      then format_json env chart_type ++ " chart: " ++ question
      else question in
    let run := VizGenerator.generate env VizGenerator.__init__ viz_question df log in
    match run_return run with
    | Raise e => (Raise e, run_log run)
    | Ok (_, result) =>
        if VizGenerator.success result then
          (Ok (mkUpdate
                 (("Chart created after "
                   ++ Py.str_of_int (VizGenerator.attempts result)
                   ++ " attempt(s).") :: nil)
                 None (Some (JStr "responder")) None None None None
                 (Some (VizGenerator.figure result)) (Some None) None),
           run_log run)
        else
          (Ok (mkUpdate nil None (Some (JStr "responder")) None None None None None
                        (Some (VizGenerator.error result)) None),
           run_log run)
    end in
  match analysis_result state with
  | Some df => with_df df
  | None =>
      match raw_dataframe state with
      | None => no_data
      | Some lf =>
          match collect lf with
          | Raise e => (Raise e, log)
          | Ok df => with_df df
          end
      end
  end.

(** The parts of the responder's context, in order. *)
Definition context_parts (state : AgentState) : list string :=
  (("User Question: " ++ user_question state) :: nil)
  ++ match error state with
     | Some e => if String.eqb e "" then nil else ("Error: " ++ e) :: nil
     | None => nil
     end
  ++ match analysis_result state with
     | Some df => ("Analysis Result:" ++ Py.LF ++ df_preview df) :: nil
     | None => nil
     end
  ++ (if String.eqb (sql_query state) "" then nil
      else ("SQL Query:" ++ Py.LF ++ sql_query state) :: nil)
  ++ match sql_result state with
     | Some df => ("SQL Result:" ++ Py.LF ++ df_preview df) :: nil
     | None => nil
     end
  ++ match figure state with
     | PyNone => nil
     | _ => "A chart has been generated and displayed." :: nil
     end.

Definition responder_node (env : Env) (state : AgentState) (log : Log)
  : Res Update * Log :=
  match build_llm (settings env) false with
  | Raise e => (Raise e, log)
  | Ok llm =>
      let context := Py.join (Py.LF ++ Py.LF) (context_parts state) in
      let log1 := (log ++ EvInvoke llm RESPONDER_PROMPT context :: nil)%list in
      match llm_invoke env log llm RESPONDER_PROMPT context with
      | Raise e => (Raise e, log1)
      | Ok final_answer =>
          (Ok (mkUpdate (final_answer :: nil) None (Some (JStr "end"))
                        None None None None None None (Some final_answer)),
           log1)
      end
  end.

(** ** [src/agents/graph.py] *)

Inductive Node := START | planner | executor | sql_node | viz_node | responder | END.

(** [route not in valid] hashes [route]: a list or a dict raises. *)
Definition _route_after_planner (state : AgentState) : Res string :=
  match next_node state with
  | JStr route =>
      if String.eqb route "executor" || String.eqb route "sql_node"
         || String.eqb route "viz_node" || String.eqb route "responder"
      then Ok route
      else Ok "executor"
  | JList _ => Raise (mkExn "TypeError" "unhashable type: 'list'")
  | JDict _ => Raise (mkExn "TypeError" "unhashable type: 'dict'")
  | _ => Ok "executor"
  end.

Definition _route_after_executor (state : AgentState) : string :=
  if eq_str (next_node state) "viz_node" then "viz_node" else "responder".

(** The path maps given to [add_conditional_edges]. *)
Definition after_planner_map (route : string) : Res Node :=
  if String.eqb route "executor" then Ok executor
  else if String.eqb route "sql_node" then Ok sql_node
  else if String.eqb route "viz_node" then Ok viz_node
  else if String.eqb route "responder" then Ok responder
  else Raise (mkExn "KeyError" ("'" ++ route ++ "'")).

Definition after_executor_map (route : string) : Res Node :=
  if String.eqb route "viz_node" then Ok viz_node
  else if String.eqb route "responder" then Ok responder
  else Raise (mkExn "KeyError" ("'" ++ route ++ "'")).

(** The edges of [build_graph]. *)
Definition next_of (n : Node) (state : AgentState) : Res Node :=
  match n with
  | START => Ok planner
  | planner =>
      match _route_after_planner state with
      | Raise e => Raise e
      | Ok route => after_planner_map route
      end
  | executor => after_executor_map (_route_after_executor state)
  | sql_node => Ok responder
  | viz_node => Ok responder
  | responder => Ok END
  | END => Ok END
  end.

(** The functions registered with [add_node]. *)
Definition node_fn (env : Env) (n : Node) (state : AgentState) (log : Log)
  : Res Update * Log :=
  match n with
  | planner => planner_node env state log
  | executor => analysis_executor_node env state log
  | sql_node => sql_executor_node env state log
  | viz_node => viz_executor_node env state log
  | responder => responder_node env state log
  | START | END => (Ok no_update, log)
  end.

(** A run of the compiled graph: the final state or the exception that
    left it, the nodes entered in order, and the log. *)
Record GraphRun := mkGraphRun {
  gr_state : Res AgentState;
  gr_trace : list Node;
  gr_log : Log
}.

(** The graph is walked from a node: its function runs, the returned dict
    is merged, the outgoing edge is followed.  [steps] is the number of
    steps LangGraph allows before it gives up. *)
Fixpoint walk (steps : nat) (env : Env) (n : Node) (state : AgentState) (log : Log)
  : GraphRun :=
  match n with
  | END => mkGraphRun (Ok state) nil log
  | _ =>
      match steps with
      | O => mkGraphRun (Raise (mkExn "GraphRecursionError" "Recursion limit reached"))
                        nil log
      | S steps' =>
          match node_fn env n state log with
          | (Raise e, log') => mkGraphRun (Raise e) (n :: nil) log'
          | (Ok u, log') =>
              let state' := apply_update state u in
              match next_of n state' with
              | Raise e => mkGraphRun (Raise e) (n :: nil) log'
              | Ok n' =>
                  let run := walk steps' env n' state' log' in
                  mkGraphRun (gr_state run) (n :: gr_trace run) (gr_log run)
              end
          end
      end
  end.

Definition recursion_limit : nat := 25.

(** [abi_graph.invoke(initial_state)] *)
Definition invoke (env : Env) (initial_state : AgentState) (log : Log) : GraphRun :=
  walk (S recursion_limit) env START initial_state log.

(** The initial state of a question, as the application builds it. *)
Definition initial_state (question : string) (lf : option LazyFrame) : AgentState :=
  mkState nil question lf ∅ (JStr "") None "" "" None PyNone None 0 "".






(** Whether the analysis of the executor node, run on this state, returns a
    successful record. *)
Definition analysis_succeeds (env : Env) (state : AgentState) (log : Log) : bool :=
  match raw_dataframe state with
  | None => false
  | Some lf =>
      match run_return (PolarsAnalyst.analyze env PolarsAnalyst.__init__
                                              (user_question state) lf log) with
      | Ok (_, result) => PolarsAnalyst.success result
      | Raise _ => false
      end
  end.

(** ** Concrete environments

    Scripted collaborators on which the definitions above can be run. *)

Module Demo.

(** A decoder for the JSON texts used below: [null], [true], [false],
    integers, strings without escapes, arrays and objects. *)

Definition dquote : ascii := ascii_of_nat 34.

(** A JSON string literal. *)
Definition q (s : string) : string :=
  String dquote EmptyString ++ s ++ String dquote EmptyString.

Definition is_json_ws (c : ascii) : bool :=
  let n := nat_of_ascii c in
  (n =? 32)%nat || (n =? 9)%nat || (n =? 10)%nat || (n =? 13)%nat.

Fixpoint skip_ws (s : string) : string :=
  match s with
  | String c s' => if is_json_ws c then skip_ws s' else s
  | EmptyString => EmptyString
  end.

Definition digit_of (c : ascii) : option Z :=
  let n := nat_of_ascii c in
  if (48 <=? n)%nat && (n <=? 57)%nat then Some (Z.of_nat (n - 48)) else None.

Fixpoint read_digits (acc : Z) (s : string) : Z * string :=
  match s with
  | String c s' =>
      match digit_of c with
      | Some d => read_digits (10 * acc + d) s'
      | None => (acc, s)
      end
  | EmptyString => (acc, s)
  end.

Definition read_int (s : string) : option (Z * string) :=
  match s with
  | String c s' =>
      match digit_of c with
      | Some _ => Some (read_digits 0 s)
      | None => None
      end
  | EmptyString => None
  end.

(** The text up to the closing quote. *)
Fixpoint read_string (s : string) : option (string * string) :=
  match s with
  | EmptyString => None
  | String c s' =>
      if Ascii.eqb c dquote then Some (EmptyString, s')
      else if Ascii.eqb c "\"%char then None
      else match read_string s' with
           | Some (t, rest) => Some (String c t, rest)
           | None => None
           end
  end.

(** The elements of an array after the first, up to the bracket. *)
Fixpoint read_items (fuel : nat) (value : string -> option (Json * string))
         (acc : list Json) (s : string) : option (list Json * string) :=
  match fuel with
  | O => None
  | S fuel' =>
      match skip_ws s with
      | String "]" rest => Some (rev acc, rest)
      | String "," rest =>
          match value rest with
          | Some (v, rest') => read_items fuel' value (v :: acc) rest'
          | None => None
          end
      | _ => None
      end
  end.

Definition read_member (value : string -> option (Json * string)) (s : string)
  : option (string * Json * string) :=
  match skip_ws s with
  | String c rest =>
      if Ascii.eqb c dquote then
        match read_string rest with
        | Some (key, rest') =>
            match skip_ws rest' with
            | String ":" rest'' =>
                match value rest'' with
                | Some (v, rest''') => Some (key, v, rest''')
                | None => None
                end
            | _ => None
            end
        | None => None
        end
      else None
  | EmptyString => None
  end.

(** The members of an object after the first, up to the brace. *)
Fixpoint read_members (fuel : nat) (value : string -> option (Json * string))
         (acc : gmap string Json) (s : string)
  : option (gmap string Json * string) :=
  match fuel with
  | O => None
  | S fuel' =>
      match skip_ws s with
      | String "}" rest => Some (acc, rest)
      | String "," rest =>
          match read_member value rest with
          | Some (key, v, rest') => read_members fuel' value (<[key := v]> acc) rest'
          | None => None
          end
      | _ => None
      end
  end.

Fixpoint read_value (fuel : nat) (s : string) : option (Json * string) :=
  match fuel with
  | O => None
  | S fuel' =>
      let s := skip_ws s in
      if Py.startswith s "null" then Some (JNull, Py.drop 4 s)
      else if Py.startswith s "true" then Some (JBool true, Py.drop 4 s)
      else if Py.startswith s "false" then Some (JBool false, Py.drop 5 s)
      else
        match s with
        | String "-" rest =>
            match read_int rest with
            | Some (n, rest') => Some (JInt (- n), rest')
            | None => None
            end
        | String "[" rest =>
            match skip_ws rest with
            | String "]" rest' => Some (JList nil, rest')
            | _ =>
                match read_value fuel' rest with
                | Some (v, rest') =>
                    match read_items fuel' (read_value fuel') (v :: nil) rest' with
                    | Some (l, rest'') => Some (JList l, rest'')
                    | None => None
                    end
                | None => None
                end
            end
        | String "{" rest =>
            match skip_ws rest with
            | String "}" rest' => Some (JDict ∅, rest')
            | _ =>
                match read_member (read_value fuel') rest with
                | Some (key, v, rest') =>
                    match read_members fuel' (read_value fuel') (<[key := v]> ∅) rest' with
                    | Some (d, rest'') => Some (JDict d, rest'')
                    | None => None
                    end
                | None => None
                end
            end
        | String c rest =>
            if Ascii.eqb c dquote then
              match read_string rest with
              | Some (t, rest') => Some (JStr t, rest')
              | None => None
              end
            else
              match read_int s with
              | Some (n, rest') => Some (JInt n, rest')
              | None => None
              end
        | EmptyString => None
        end
  end.

Definition decode_error : Exn := mkExn "JSONDecodeError" "Expecting value".

Definition loads (s : string) : Res Json :=
  match read_value (S (String.length s)) s with
  | Some (v, rest) =>
      match skip_ws rest with
      | EmptyString => Ok v
      | _ => Raise decode_error
      end
  | None => Raise decode_error
  end.

(** The configuration: provider, and the model pair of each provider. *)
Definition config : LLMConfig :=
  mkLLMConfig "google" "0.0" 4096 3
    (<["google" := mkModelPair "gemini-2.0-flash" "gemini-1.5-flash"]>
     (<["groq" := mkModelPair "groq/llama-3.3-70b" "groq/llama-3.1-8b"]> ∅)).

(** A configuration naming a provider [build_llm] does not know. *)
Definition bad_config : LLMConfig :=
  mkLLMConfig "openai" "0.0" 4096 3
    (<["openai" := mkModelPair "gpt-4o" "gpt-4o-mini"]> ∅).

Definition primary_llm : LLM := mkLLM "ChatGoogleGenerativeAI" "gemini-2.0-flash" "0.0" 4096.

Definition table : DataFrame :=
  mkDataFrame (("category", "String") :: ("revenue", "Float64") :: nil)
              "[{'category': 'A', 'revenue': 10.0}]"
              ("category  revenue" ++ Py.LF ++ "       A     10.0").

Definition dataset : LazyFrame :=
  mkLazyFrame (Ok (("category", "String") :: ("revenue", "Float64") :: nil))
              (Ok table).

(** A model that answers its n-th call with the n-th entry of a script,
    and fails once the script is over. *)
Definition scripted (answers : list (Res string))
  : Log -> LLM -> SystemPrompt -> string -> Res string :=
  fun log _ _ _ =>
    nth (List.length (invocations log)) answers
        (Raise (mkExn "TimeoutError" "model did not answer")).

(** A model with one script per system instruction; each script is
    indexed by the number of calls made so far with that instruction. *)
Definition same_system (p : SystemPrompt) (e : Event) : bool :=
  match e, p with
  | EvInvoke _ POLARS_SYSTEM_PROMPT _, POLARS_SYSTEM_PROMPT => true
  | EvInvoke _ SQL_SYSTEM_PROMPT _, SQL_SYSTEM_PROMPT => true
  | EvInvoke _ VIZ_SYSTEM_PROMPT _, VIZ_SYSTEM_PROMPT => true
  | EvInvoke _ PLANNER_PROMPT _, PLANNER_PROMPT => true
  | EvInvoke _ RESPONDER_PROMPT _, RESPONDER_PROMPT => true
  | _, _ => false
  end.

Definition by_role (script : SystemPrompt -> list (Res string))
  : Log -> LLM -> SystemPrompt -> string -> Res string :=
  fun log _ p _ =>
    nth (List.length (List.filter (same_system p) log)) (script p)
        (Raise (mkExn "TimeoutError" "model did not answer")).

(** What the interpreter does with the programs used below; any other
    program raises a [SyntaxError]. *)
Definition exec (_ : Log) (code : string) (namespace : gmap string PyVal)
  : Res (gmap string PyVal) :=
  if String.eqb code "result = lf.collect()" then
    Ok (<["result" := PyFrame table]> namespace)
  else if String.eqb code "result = lf" then
    Ok (<["result" := default PyNone (namespace !! "lf")]> namespace)
  else if String.eqb code "result = None" then
    Ok (<["result" := PyNone]> namespace)
  else if String.eqb code "fig = px.bar(df.to_pandas(), x='category', y='revenue')" then
    Ok (<["fig" := PyObject "Figure" "Figure({})"]> namespace)
  else if String.eqb code "fig = 42" then
    Ok (<["fig" := PyObject "int" "42"]> namespace)
  else if String.eqb code "x = 1" then
    Ok (<["x" := PyObject "int" "1"]> namespace)
  else if String.eqb code "result = lf.groupby('category')" then
    Raise (mkExn "AttributeError" "'LazyFrame' object has no attribute 'groupby'")
  else
    Raise (mkExn "SyntaxError" "invalid syntax (<string>, line 1)").

(** DuckDB over the registered table: one query is known. *)
Definition execute (_ : Log) (sql : string) (sc_data : DataFrame) : Res DataFrame :=
  if String.eqb sql "SELECT * FROM sc_data" then Ok sc_data
  else Raise (mkExn "ParserException" "Parser Error: syntax error").

Definition traceback (e : Exn) : string :=
  "Traceback (most recent call last):" ++ Py.LF
  ++ exn_type e ++ ": " ++ exn_msg e ++ Py.LF.

Definition dumps (d : gmap string Json) : string :=
  "{" ++ Py.join ", " (map fst (map_to_list d)) ++ "}".

Definition str (v : Json) : string := json_type_name v.

(** An interpreter for which one more program is known, which leaves
    through [SystemExit]; the others return or raise as above. *)
Definition run (log : Log) (code : string) (namespace : gmap string PyVal) : Exec :=
  if String.eqb code "raise SystemExit(1)" then Exited (mkExn "SystemExit" "1")
  else Finished (exec log code namespace).

(** The environments below, but for [quitter], use the interpreter
    [exec], which returns or raises an exception that is caught. *)
Definition env_with (c : LLMConfig)
           (model : Log -> LLM -> SystemPrompt -> string -> Res string) : Env :=
  mkEnv c model (fun log code namespace => Finished (exec log code namespace))
        execute traceback loads dumps str.

Definition tag (name body : string) : string :=
  "<" ++ name ++ ">" ++ body ++ "</" ++ name ++ ">".

(** An answer without the code block, whose second line is made of four
    spaces. *)
Definition indented_answer : string :=
  "Here is the code:" ++ Py.LF ++ "    " ++ Py.LF ++ "result = lf.collect()".

(** The model gives that answer, then stops answering. *)
Definition indented : Env := env_with config (scripted (Ok indented_answer :: nil)).

(** The model writes programs that run but leave the wrong kind of value:
    the lazy table itself for the analysis, a number for the chart. *)
Definition careless : Env :=
  env_with config
    (by_role (fun p =>
       match p with
       | POLARS_SYSTEM_PROMPT => Ok (tag "code" "result = lf") :: nil
       | VIZ_SYSTEM_PROMPT => Ok (tag "code" "fig = 42") :: nil
       | _ => nil
       end)).

(** The planner's model does not answer in JSON. *)
Definition rambling : Env :=
  env_with config
    (by_role (fun p =>
       match p with
       | PLANNER_PROMPT => Ok "I think this is an analysis question." :: nil
       | _ => nil
       end)).




(** The model writes a query DuckDB accepts. *)
Definition good_sql : Env :=
  env_with config (scripted (Ok (tag "sql" "SELECT * FROM sc_data") :: nil)).

(** The same model, behind a configuration [build_llm] rejects. *)
Definition misconfigured : Env :=
  env_with bad_config (scripted (Ok (tag "sql" "SELECT * FROM sc_data") :: nil)).

(** A plan asking for an analysis followed by a chart, and the state the
    planner leaves for it. *)
Definition chart_plan : gmap string Json :=
  <["routing" := JStr "multi"]> (<["requires_viz" := JBool true]> ∅).

Definition planned (lf : option LazyFrame) : AgentState :=
  mkState nil "Bar chart of revenue by category" lf chart_plan (JStr "executor")
          None "" "" None PyNone None 0 "".

(** Every model call made for the generators fails, while the planner's
    and the responder's calls are answered. *)
Definition tools_down : Env :=
  env_with config
    (fun log llm p user =>
       match p with
       | PLANNER_PROMPT =>
           Ok (tag "plan" ("{" ++ q "routing" ++ ": " ++ q "multi" ++ ", "
                               ++ q "requires_viz" ++ ": true}"))
       | RESPONDER_PROMPT => Ok "Sorry, the analysis could not be completed."
       | _ => Raise (mkExn "TimeoutError" "model did not answer")
       end).

(** The model never answers. *)
Definition silent : Env := env_with config (scripted nil).

(** The model forgets the code block once, then writes a program that
    works: one script for each of the two generators. *)
Definition second_time : Env :=
  env_with config
    (by_role (fun p =>
       match p with
       | POLARS_SYSTEM_PROMPT =>
           Ok "Let me think about it." :: Ok (tag "code" "result = lf.collect()") :: nil
       | VIZ_SYSTEM_PROMPT =>
           Ok "Let me think about it."
           :: Ok (tag "code" "fig = px.bar(df.to_pandas(), x='category', y='revenue')")
           :: nil
       | _ => nil
       end)).

(** The planner and the responder answer, and the program written for
    the analysis ends the interpreter. *)
Definition quitter : Env :=
  mkEnv config
        (fun log llm p user =>
           match p with
           | PLANNER_PROMPT =>
               Ok (tag "plan" ("{" ++ q "routing" ++ ": " ++ q "executor" ++ "}"))
           | RESPONDER_PROMPT => Ok "Sorry, the analysis could not be completed."
           | _ => Ok (tag "code" "raise SystemExit(1)")
           end)
        run execute traceback loads dumps str.





End Demo.

(** ** Reading runs and logs *)

Definition is_exec (e : Event) : bool :=
  match e with EvExec _ => true | _ => false end.

(** The program executions of a log. *)
Definition executions (log : Log) : Log := List.filter is_exec log.

(** The log an iteration leaves. *)
Definition step_log {R P : Type} (s : Step R P) : Log :=
  match s with
  | Continue _ _ _ log => log
  | Stop _ _ log => log
  end.

(** What a retry loop may add to the log: model calls with its own system
    instruction, and executions of code that is not empty and has no
    surrounding whitespace. *)
Definition loop_event (system : SystemPrompt) (ev : Event) : Prop :=
  match ev with
  | EvInvoke _ s _ => s = system
  | EvExec code => code <> ""%string /\ Py.strip code = code
  | EvQuery _ => False
  end.

(** What each node of the graph may add to the log: the planner and the
    responder call the model with their own instruction; the analysis and
    chart nodes do what their loops do; the SQL node calls the model with
    the SQL instruction and runs queries whose text is not empty. *)
Definition node_event (n : Node) (ev : Event) : Prop :=
  match n with
  | planner => exists llm user, ev = EvInvoke llm PLANNER_PROMPT user
  | executor => loop_event POLARS_SYSTEM_PROMPT ev
  | sql_node =>
      match ev with
      | EvInvoke _ s _ => s = SQL_SYSTEM_PROMPT
      | EvExec _ => False
      | EvQuery sql => sql <> ""%string /\ Py.strip sql = sql
      end
  | viz_node => loop_event VIZ_SYSTEM_PROMPT ev
  | responder => exists llm context, ev = EvInvoke llm RESPONDER_PROMPT context
  | START | END => False
  end.

(** Model calls of the planner and of the responder. *)
Definition framing_event (ev : Event) : Prop :=
  node_event planner ev \/ node_event responder ev.

(** The sequences of nodes that the edges of [build_graph] allow from a
    node to [END]. *)
Definition paths_from (n : Node) : list (list Node) :=
  match n with
  | responder => (responder :: nil) :: nil
  | viz_node => (viz_node :: responder :: nil) :: nil
  | sql_node => (sql_node :: responder :: nil) :: nil
  | executor =>
      (executor :: viz_node :: responder :: nil)
      :: (executor :: responder :: nil) :: nil
  | planner =>
      (planner :: executor :: viz_node :: responder :: nil)
      :: (planner :: executor :: responder :: nil)
      :: (planner :: sql_node :: responder :: nil)
      :: (planner :: viz_node :: responder :: nil)
      :: (planner :: responder :: nil) :: nil
  | START =>
      (START :: planner :: executor :: viz_node :: responder :: nil)
      :: (START :: planner :: executor :: responder :: nil)
      :: (START :: planner :: sql_node :: responder :: nil)
      :: (START :: planner :: viz_node :: responder :: nil)
      :: (START :: planner :: responder :: nil) :: nil
  | END => nil :: nil
  end.

(** The number of nodes on the longest of these paths. *)
Definition hops (n : Node) : nat :=
  match n with
  | START => 5
  | planner => 4
  | executor => 3
  | sql_node => 2
  | viz_node => 2
  | responder => 1
  | END => 0
  end.

(** The state with another dataset handle. *)
Definition with_raw_dataframe (s : AgentState) (lf : option LazyFrame) : AgentState :=
  mkState (messages s) (user_question s) lf (plan s) (next_node s)
          (analysis_result s) (generated_code s) (sql_query s) (sql_result s)
          (figure s) (error s) (retry_count s) (final_answer s).

(** [c.isspace()] for every character of a text. *)
Fixpoint all_space (s : string) : bool :=
  match s with
  | EmptyString => true
  | String c s' => Py.isspace c && all_space s'
  end.

(** [s.isascii()]: on such a text the characters of the model are the
    characters of the Python string, and the whitespace [str.strip] and
    [str.isspace] know is the ASCII whitespace. *)
Fixpoint isascii (s : string) : bool :=
  match s with
  | EmptyString => true
  | String c s' => (nat_of_ascii c <? 128)%nat && isascii s'
  end.

(** The tags [_extract_tag] is called with. *)
Definition program_tags : list string := "code" :: "sql" :: nil.

(** * Facts *)

Open Scope list_scope.

(** ** Ranges *)

Lemma py_range_length (lo hi : Z) :
  List.length (py_range lo hi) = Z.to_nat (hi - lo).
Proof. unfold py_range. now rewrite length_map, length_seq. Qed.

Lemma py_range_nth (lo hi : Z) (i : nat) (x : Z) :
  nth_error (py_range lo hi) i = Some x -> x = lo + Z.of_nat i /\ x < hi.
Proof.
  unfold py_range. intros H.
  rewrite nth_error_map, nth_error_seq in H.
  destruct (Nat.ltb_spec i (Z.to_nat (hi - lo))) as [Hi | Hi]; simpl in H;
    [| discriminate].
  inversion H. lia.
Qed.

Lemma py_range_snoc (lo hi : Z) :
  lo <= hi -> py_range lo (hi + 1) = (py_range lo hi ++ hi :: nil)%list.
Proof.
  intros H. unfold py_range.
  replace (Z.to_nat (hi + 1 - lo)) with (Z.to_nat (hi - lo) + 1)%nat by lia.
  rewrite seq_app, map_app. simpl. do 2 f_equal. lia.
Qed.


Lemma firstn_seq_min (n a m : nat) : firstn n (seq a m) = seq a (Nat.min n m).
Proof.
  revert a m. induction n as [| n IH]; intros a m; [reflexivity |].
  destruct m as [| m]; [reflexivity |]. simpl. f_equal. apply IH.
Qed.


(** ** Filtering a log *)

Lemma invocations_app (l1 l2 : Log) :
  invocations (l1 ++ l2) = (invocations l1 ++ invocations l2)%list.
Proof. unfold invocations. apply List.filter_app. Qed.

Lemma queries_app (l1 l2 : Log) :
  queries (l1 ++ l2) = (queries l1 ++ queries l2)%list.
Proof. unfold queries. apply List.filter_app. Qed.

Lemma invocations_call (log more : Log) (llm : LLM) (system : SystemPrompt)
      (user : string) :
  invocations more = nil ->
  invocations (log ++ EvInvoke llm system user :: more)
  = invocations log ++ EvInvoke llm system user :: nil.
Proof.
  intros H. rewrite invocations_app. simpl. now rewrite H.
Qed.

(** ** The loop over any body that satisfies [body_ok] *)

Section LoopFacts.
Context {R P : Type}.
Variable sh : Shape R P.
Variable body : Z -> list string -> string -> Log -> Step R P.
Variable after : string -> R.
Hypothesis body_spec :
  forall a h lc log, body_ok sh a h log (body a h lc log).

Local Abbreviation loop := (for_loop body after).
Local Abbreviation entry := (entry_of (sh_entry sh)).

(** Case analysis on the body of the first iteration. *)
Ltac body_cases a h lc log :=
  let Hb := fresh "Hb" in
  let E := fresh "E" in
  pose proof (body_spec a h lc log) as Hb;
  destruct (body a h lc log) eqn:E; inversion Hb; subst; clear Hb; simpl in *.

(** Every iteration before a given one failed; the given one starts from
    the initial history extended with one entry per earlier iteration, in
    order; its number is the element of the range at its position. *)
Lemma loop_attempt_shape (range : list Z) :
  forall hist lc log pre a post,
    run_attempts (loop range hist lc log) = (pre ++ a :: post)%list ->
    Forall is_failed pre
    /\ at_history a = (hist ++ map entry pre)%list
    /\ at_prompt a = sh_prompt sh (at_history a)
    /\ at_use_fallback a = (at_number a >? sh_max_retries sh)
    /\ nth_error range (List.length pre) = Some (at_number a)
    /\ map at_number pre = firstn (List.length pre) range.
Proof.
  induction range as [| x rest IH]; intros hist lc log pre a post H; simpl in H.
  - destruct pre; discriminate.
  - body_cases x hist lc log;
      (destruct pre as [| p0 pre]; simpl in H; inversion H; subst;
       [ simpl; rewrite List.app_nil_r; repeat split; auto
       | try (destruct pre; discriminate) ]).
    destruct (IH _ _ _ _ _ _ H2) as (Hf & Hh & Hp & Hu & Hn & Hm).
    repeat split; auto.
    + constructor; [| exact Hf]. unfold is_failed. simpl. eauto.
    + rewrite Hh. simpl. unfold entry_of at 2. simpl.
      now rewrite <- List.app_assoc.
    + simpl. now rewrite Hm.
Qed.

(** The loop makes one model call per iteration that reaches its [try]
    block, with the client selected for that iteration and the message
    built for it, and no other model call. *)
Lemma loop_invocations (range : list Z) :
  forall hist lc log,
    invocations (run_log (loop range hist lc log))
    = invocations log
      ++ calls_of (sh_config sh) (sh_system sh)
                  (run_attempts (loop range hist lc log)).
Proof.
  induction range as [| x rest IH]; intros hist lc log; simpl.
  - now rewrite List.app_nil_r.
  - body_cases x hist lc log; unfold call_of; simpl;
      repeat match goal with
             | H : build_llm _ _ = _ |- _ => rewrite H
             end;
      try (erewrite invocations_call by eassumption).
    + rewrite IH. erewrite invocations_call by eassumption.
      now rewrite <- List.app_assoc.
    + now rewrite List.app_nil_r.
    + reflexivity.
    + reflexivity.
    + reflexivity.
Qed.

(** When the range ends with a value above the budget, the [return]
    after the loop is never the one taken. *)
Lemma loop_never_after (init : list Z) (last : Z) :
  last > sh_max_retries sh ->
  forall hist lc log r,
    run_return (loop (init ++ last :: nil) hist lc log) <> Ok (AfterLoop, r).
Proof.
  intros Hlast.
  induction init as [| x init IH]; intros hist lc log r; simpl.
  - body_cases last hist lc log; try discriminate. lia.
  - body_cases x hist lc log; try discriminate. apply IH.
Qed.


(** An iteration that succeeds is the last one, every iteration before it
    failed, and the loop returns the success record made from it. *)
Lemma loop_success (range : list Z) :
  forall hist lc log a code payload,
    In a (run_attempts (loop range hist lc log)) ->
    at_outcome a = Succeeded code payload ->
    exists pre,
      run_attempts (loop range hist lc log) = pre ++ a :: nil
      /\ Forall is_failed pre
      /\ run_return (loop range hist lc log)
         = Ok (InLoopSuccess, sh_success sh code payload (at_number a)).
Proof.
  induction range as [| x rest IH]; intros hist lc log a code payload Hin Ha;
    simpl in *.
  - contradiction.
  - body_cases x hist lc log.
    + destruct Hin as [<- | Hin]; [discriminate |].
      destruct (IH _ _ _ _ _ _ Hin Ha) as (pre & Hp & Hf & Hr).
      eexists (_ :: pre). rewrite Hp. repeat split; auto.
      constructor; [| exact Hf]. unfold is_failed. simpl. eauto.
    + destruct Hin as [<- | []]. discriminate.
    + destruct Hin as [<- | []]. simpl in Ha. inversion Ha; subst.
      exists nil. repeat split; auto.
    + destruct Hin as [<- | []]. discriminate.
    + destruct Hin as [<- | []]. discriminate.
Qed.



(** An iteration that was not aborted had its client built. *)
Lemma loop_built (range : list Z) :
  forall hist lc log a,
    In a (run_attempts (loop range hist lc log)) ->
    (forall e, at_outcome a <> Aborted e) ->
    exists llm, build_llm (sh_config sh) (at_use_fallback a) = Ok llm.
Proof.
  induction range as [| x rest IH]; intros hist lc log a Hin Hna; simpl in *.
  - contradiction.
  - body_cases x hist lc log.
    + destruct Hin as [<- | Hin]; [simpl; eauto | eapply IH; eauto].
    + destruct Hin as [<- | []]. exfalso. eapply Hna. reflexivity.
    + destruct Hin as [<- | []]. simpl. eauto.
    + destruct Hin as [<- | []]. simpl. eauto.
    + destruct Hin as [<- | []]. simpl. eauto.
Qed.

(** The model calls of a run in which no iteration was aborted: one per
    iteration, in order, each made by its iteration. *)
Lemma loop_calls (range : list Z) :
  forall hist lc log,
    Forall (fun a => forall e, at_outcome a <> Aborted e)
           (run_attempts (loop range hist lc log)) ->
    Forall2 (made_by (sh_config sh) (sh_system sh))
            (run_attempts (loop range hist lc log))
            (calls_of (sh_config sh) (sh_system sh)
                      (run_attempts (loop range hist lc log))).
Proof.
  intros hist lc log Hall.
  assert (Hb : forall a, In a (run_attempts (loop range hist lc log)) ->
                         exists llm, build_llm (sh_config sh) (at_use_fallback a) = Ok llm).
  { intros a Hin. eapply loop_built; eauto.
    rewrite List.Forall_forall in Hall. now apply Hall. }
  revert Hall Hb. generalize (run_attempts (loop range hist lc log)) as l.
  induction l as [| a l IH]; intros Hall Hb; simpl.
  - constructor.
  - inversion Hall as [| ? ? Ha Hl]; subst.
    destruct (Hb a (or_introl eq_refl)) as [llm Hllm].
    unfold call_of at 1. rewrite Hllm.
    destruct (at_outcome a) eqn:Ho;
      [exfalso; eapply Ha; reflexivity | | |];
      (simpl; constructor;
       [ exists llm; split; auto
       | apply IH; [assumption | intros b Hin; apply Hb; now right] ]).
Qed.


(** The loop as the source starts it, when some iteration succeeds. *)
Lemma loop_first_success (hist : list string) (lc : string) (log : Log)
      (a : Attempt P) (code : string) (payload : P) :
  In a (run_attempts (loop (py_range 1 (sh_max_retries sh + 2)) hist lc log)) ->
  at_outcome a = Succeeded code payload ->
  let run := loop (py_range 1 (sh_max_retries sh + 2)) hist lc log in
  run_return run = Ok (InLoopSuccess, sh_success sh code payload (at_number a))
  /\ 1 <= at_number a <= sh_max_retries sh + 1
  /\ List.last (run_attempts run) a = a
  /\ stopped_at (sh_config sh) (sh_system sh) (at_number a) log run.
Proof.
  intros Hin Ha run. subst run.
  destruct (loop_success _ _ _ _ _ _ _ Hin Ha) as (pre & Hp & Hf & Hr).
  destruct (loop_attempt_shape _ _ _ _ _ _ _ Hp) as (_ & _ & _ & _ & Hn & _).
  apply py_range_nth in Hn. destruct Hn as [Hk Hlt].
  assert (Hlen : List.length (pre ++ a :: nil) = Z.to_nat (at_number a)).
  { rewrite length_app. simpl. lia. }
  unfold stopped_at.
  split; [exact Hr |]. split; [lia |].
  split; [rewrite Hp; apply List.last_last |].
  split; [rewrite Hp; exact Hlen |].
  split; [rewrite Hp, List.removelast_last; exact Hf |].
  eexists. split; [apply loop_invocations |].
  assert (Hc : Forall2 (made_by (sh_config sh) (sh_system sh))
                 (run_attempts (loop (py_range 1 (sh_max_retries sh + 2)) hist lc log))
                 (calls_of (sh_config sh) (sh_system sh)
                    (run_attempts (loop (py_range 1 (sh_max_retries sh + 2)) hist lc log)))).
  { apply loop_calls. rewrite Hp. apply List.Forall_app. split.
    - eapply List.Forall_impl; [| exact Hf].
      intros b (k & e & Hb) e'. simpl. congruence.
    - constructor; [| constructor]. intros e'. congruence. }
  split; [| exact Hc].
  apply Forall2_length in Hc. rewrite <- Hc, Hp. exact Hlen.
Qed.

(** The [return] after the loop is not reached when the budget is not
    negative. *)
Lemma loop_not_after (hist : list string) (lc : string) (log : Log) (r : R) :
  0 <= sh_max_retries sh ->
  run_return (loop (py_range 1 (sh_max_retries sh + 2)) hist lc log)
  <> Ok (AfterLoop, r).
Proof.
  intros Hm.
  replace (sh_max_retries sh + 2) with (sh_max_retries sh + 1 + 1) by lia.
  rewrite py_range_snoc by lia.
  apply loop_never_after. lia.
Qed.

(** The loop as the source starts it, with an empty history: when an
    iteration starts, the history has one entry per earlier iteration, in
    order, each made from the number of that iteration and the exception
    it captured; so its length is the number of the iteration minus
    one. *)
Lemma loop_history (lc : string) (log : Log)
      (pre : list (Attempt P)) (a : Attempt P) (post : list (Attempt P)) :
  run_attempts (loop (py_range 1 (sh_max_retries sh + 2)) nil lc log)
  = pre ++ a :: post ->
  Forall is_failed pre
  /\ at_history a = map entry pre
  /\ map at_number pre = py_range 1 (at_number a)
  /\ Z.of_nat (List.length (at_history a)) = at_number a - 1
  /\ at_prompt a = sh_prompt sh (at_history a).
Proof.
  intros H.
  destruct (loop_attempt_shape _ _ _ _ _ _ _ H) as (Hf & Hh & Hp & _ & Hn & Hm).
  simpl in Hh. apply py_range_nth in Hn. destruct Hn as [Hk Hlt].
  repeat split; auto.
  - rewrite Hm, Hk. unfold py_range.
    rewrite firstn_map, firstn_seq_min. do 2 f_equal. lia.
  - rewrite Hh, length_map. lia.
Qed.
End LoopFacts.

(** ** The two loops of the source are instances *)

Lemma log_two (log : Log) (e1 e2 : Event) :
  (log ++ e1 :: nil) ++ e2 :: nil = log ++ e1 :: e2 :: nil.
Proof. now rewrite <- List.app_assoc. Qed.

Lemma Zgtb_true (a b : Z) : (a >? b) = true -> a > b.
Proof. rewrite Z.gtb_ltb. intros H. apply Z.ltb_lt in H. lia. Qed.

Lemma Zgtb_false (a b : Z) : (a >? b) = false -> a <= b.
Proof. rewrite Z.gtb_ltb. intros H. apply Z.ltb_ge in H. lia. Qed.

Lemma body_ok_if {R P : Type} (sh : Shape R P) (a : Z) (h : list string)
      (log : Log) (s1 s2 : Step R P) :
  (a > sh_max_retries sh -> body_ok sh a h log s1) ->
  (a <= sh_max_retries sh -> body_ok sh a h log s2) ->
  body_ok sh a h log (if a >? sh_max_retries sh then s1 else s2).
Proof.
  intros H1 H2. destruct (a >? sh_max_retries sh) eqn:E.
  - apply H1. now apply Zgtb_true.
  - apply H2. now apply Zgtb_false.
Qed.

(** Closes a goal [body_ok sh a h log step] for a body that got past
    [build_llm]: the constructor is chosen from the shape of [step]. *)
Ltac close_body_ok :=
  rewrite ?log_two;
  lazymatch goal with
  | Hllm : build_llm _ _ = Ok ?llm
    |- body_ok ?sh ?a ?h ?log
         (Stop (mkAttempt _ _ _ _ (Succeeded ?code ?p)) _ (_ ++ _ :: ?more)) =>
      exact (body_succeeds sh a h log llm code p more Hllm eq_refl)
  | Hllm : build_llm _ _ = Ok ?llm
    |- body_ok ?sh ?a ?h ?log
         (Stop (mkAttempt _ _ _ _ (Escaped ?e)) _ (_ ++ _ :: ?more)) =>
      exact (body_escapes sh a h log llm e more Hllm eq_refl)
  | Hllm : build_llm _ _ = Ok ?llm
    |- body_ok ?sh ?a ?h ?log
         (if _ then _
          else Continue (mkAttempt _ _ _ _ (Failed ?k ?e)) _ ?lc (_ ++ _ :: ?more)) =>
      let Hgt := fresh "Hgt" in
      apply body_ok_if; intros Hgt;
      [ exact (body_exhausts sh a h log llm k e lc more Hllm eq_refl Hgt)
      | exact (body_retries sh a h log llm k e lc more Hllm eq_refl Hgt) ]
  end.

Lemma analyst_body_ok (env : Env) (self : PolarsAnalyst.t)
      (question schema_info : string) (lf : LazyFrame)
      (a : Z) (h : list string) (lc : string) (log : Log) :
  body_ok (analyst_shape env self question schema_info) a h log
          (PolarsAnalyst.loop_body env self question schema_info lf a h lc log).
Proof.
  unfold PolarsAnalyst.loop_body.
  destruct (build_llm (settings env) (a >? PolarsAnalyst._max_retries self))
    as [llm | e] eqn:Hllm; [| now apply body_aborts].
  unfold PolarsAnalyst.try_block, PolarsAnalyst._run_code.
  destruct (llm_invoke env log llm POLARS_SYSTEM_PROMPT _) as [text | e].
  - destruct (String.eqb (_extract_tag text "code") "").
    + close_body_ok.
    + destruct (py_run env _ _ _) as [[ns | e] | e].
      * destruct (PolarsAnalyst.check_result ns) as [df | k e | e];
          close_body_ok.
      * close_body_ok.
      * close_body_ok.
  - close_body_ok.
Qed.

Lemma analyst_loop_eq (env : Env) (self : PolarsAnalyst.t)
      (question schema_info : string) (lf : LazyFrame) (range : list Z) :
  forall h lc log,
    PolarsAnalyst.retry_loop env self question schema_info lf range h lc log
    = for_loop (PolarsAnalyst.loop_body env self question schema_info lf)
               (fun last_code =>
                  PolarsAnalyst.mkResult false None last_code
                    (Some "Unexpected exit from retry loop.")
                    (PolarsAnalyst._max_retries self + 1))
               range h lc log.
Proof.
  induction range as [| x rest IH]; intros h lc log; simpl; [reflexivity |].
  destruct (PolarsAnalyst.loop_body env self question schema_info lf x h lc log);
    [now rewrite IH | reflexivity].
Qed.

Lemma viz_body_ok (env : Env) (self : VizGenerator.t) (base : string)
      (df : DataFrame) (a : Z) (h : list string) (lc : string) (log : Log) :
  body_ok (viz_shape env self base) a h log
          (VizGenerator.loop_body env self base df a h lc log).
Proof.
  unfold VizGenerator.loop_body.
  destruct (build_llm (settings env) (a >? VizGenerator._max_retries self))
    as [llm | e] eqn:Hllm; [| now apply body_aborts].
  unfold VizGenerator.try_block.
  destruct (llm_invoke env log llm VIZ_SYSTEM_PROMPT _) as [text | e].
  - destruct (String.eqb (_extract_tag text "code") "").
    + close_body_ok.
    + destruct (py_run env _ _ _) as [[ns | e] | e].
      * destruct (VizGenerator.check_fig ns) as [fig | k e | e];
          close_body_ok.
      * close_body_ok.
      * close_body_ok.
  - close_body_ok.
Qed.

Lemma viz_loop_eq (env : Env) (self : VizGenerator.t) (base : string)
      (df : DataFrame) (range : list Z) :
  forall h lc log,
    VizGenerator.retry_loop env self base df range h lc log
    = for_loop (VizGenerator.loop_body env self base df)
               (fun last_code =>
                  VizGenerator.mkResult false PyNone last_code
                    (Some "Unexpected exit.")
                    (VizGenerator._max_retries self + 1))
               range h lc log.
Proof.
  induction range as [| x rest IH]; intros h lc log; simpl; [reflexivity |].
  destruct (VizGenerator.loop_body env self base df x h lc log);
    [now rewrite IH | reflexivity].
Qed.

(** * Properties of the specification *)

(** ** C1: a loop that fails every time makes exactly R+1 attempts *)



(** ** C3: the first success ends the loop *)

(** C3.  In a run of either loop in which iteration [k] passes extraction,
    execution and validation (it is then the first to do so, every
    iteration before it having failed): [1 <= k <= R+1]; the record
    returned has [success] true, the payload and the code of iteration
    [k], no error and [attempts] = [k]; iteration [k] is the last one; and
    the model calls of the run are the [k] calls of iterations 1 to [k], so
    no model call follows iteration [k]. *)
Theorem first_success_ends_loop (env : Env) (log : Log) (k : Z) :
  (forall (self : PolarsAnalyst.t) (question : string) (lf : LazyFrame)
          (a : Attempt DataFrame) (code : string) (payload : DataFrame),
      In a (run_attempts (PolarsAnalyst.analyze env self question lf log)) ->
      at_number a = k ->
      at_outcome a = Succeeded code payload ->
      run_return (PolarsAnalyst.analyze env self question lf log)
      = Ok (InLoopSuccess, PolarsAnalyst.mkResult true (Some payload) code None k)
      /\ 1 <= k <= PolarsAnalyst._max_retries self + 1
      /\ List.last (run_attempts (PolarsAnalyst.analyze env self question lf log)) a = a
      /\ stopped_at (settings env) POLARS_SYSTEM_PROMPT k log
                    (PolarsAnalyst.analyze env self question lf log))
  /\ (forall (self : VizGenerator.t) (question : string) (df : DataFrame)
             (a : Attempt PyVal) (code : string) (payload : PyVal),
      In a (run_attempts (VizGenerator.generate env self question df log)) ->
      at_number a = k ->
      at_outcome a = Succeeded code payload ->
      run_return (VizGenerator.generate env self question df log)
      = Ok (InLoopSuccess, VizGenerator.mkResult true payload code None k)
      /\ 1 <= k <= VizGenerator._max_retries self + 1
      /\ List.last (run_attempts (VizGenerator.generate env self question df log)) a = a
      /\ stopped_at (settings env) VIZ_SYSTEM_PROMPT k log
                    (VizGenerator.generate env self question df log)).
Proof.
  split.
  - intros self question lf a code payload. unfold PolarsAnalyst.analyze.
    destruct (_get_schema_info lf) as [schema_info | e]; [| intros []].
    rewrite analyst_loop_eq. intros Hin <- Ha.
    exact (loop_first_success (analyst_shape env self question schema_info)
             _ _ (analyst_body_ok env self question schema_info lf)
             nil "" log a code payload Hin Ha).
  - intros self question df a code payload. unfold VizGenerator.generate.
    rewrite viz_loop_eq. intros Hin <- Ha.
    exact (loop_first_success (viz_shape env self (VizGenerator.base_prompt question df))
             _ _ (viz_body_ok env self _ df)
             nil "" log a code payload Hin Ha).
Qed.

(** The theorem applies: with a model that forgets the code block once, the
    second iteration of each loop succeeds and [attempts] is 2. *)
Lemma first_success_ends_loop_witness :
  run_return (PolarsAnalyst.analyze Demo.second_time PolarsAnalyst.__init__
                                    "Top 5 suppliers?" Demo.dataset nil)
  = Ok (InLoopSuccess,
        PolarsAnalyst.mkResult true (Some Demo.table) "result = lf.collect()" None 2)
  /\ run_return (VizGenerator.generate Demo.second_time VizGenerator.__init__
                                       "Bar chart" Demo.table nil)
     = Ok (InLoopSuccess,
           VizGenerator.mkResult true (PyObject "Figure" "Figure({})")
                                 "fig = px.bar(df.to_pandas(), x='category', y='revenue')" None 2).
Proof.
  destruct (first_success_ends_loop Demo.second_time nil 2) as [HA HV].
  split.
  - refine (proj1 (HA PolarsAnalyst.__init__ "Top 5 suppliers?"%string Demo.dataset
                      (nth 1 (run_attempts
                                (PolarsAnalyst.analyze Demo.second_time
                                   PolarsAnalyst.__init__ "Top 5 suppliers?"
                                   Demo.dataset nil))
                           (mkAttempt 0 false nil "" (Aborted (mkExn "" ""))))
                      "result = lf.collect()"%string Demo.table _ _ _)).
    + vm_compute. right. left. reflexivity.
    + vm_compute. reflexivity.
    + vm_compute. reflexivity.
  - refine (proj1 (HV VizGenerator.__init__ "Bar chart"%string Demo.table
                      (nth 1 (run_attempts
                                (VizGenerator.generate Demo.second_time
                                   VizGenerator.__init__ "Bar chart"
                                   Demo.table nil))
                           (mkAttempt 0 false nil "" (Aborted (mkExn "" ""))))
                      "fig = px.bar(df.to_pandas(), x='category', y='revenue')"%string
                      (PyObject "Figure" "Figure({})") _ _ _)).
    + vm_compute. right. left. reflexivity.
    + vm_compute. reflexivity.
    + vm_compute. reflexivity.
Defined.

(** ** C9: the return after the loop is dead code *)

(** C9.  With a budget [R >= 0] (the constructors set 3), no run of either
    loop ends at the [return] that follows the [for] statement, whatever
    the model, the interpreter and the data do: each run returns from
    inside the loop or raises. *)
Theorem post_loop_return_unreachable (env : Env) (log : Log) :
  (forall (self : PolarsAnalyst.t) (question : string) (lf : LazyFrame)
          (r : PolarsAnalyst.result),
      0 <= PolarsAnalyst._max_retries self ->
      run_return (PolarsAnalyst.analyze env self question lf log)
      <> Ok (AfterLoop, r))
  /\ (forall (self : VizGenerator.t) (question : string) (df : DataFrame)
             (r : VizGenerator.result),
      0 <= VizGenerator._max_retries self ->
      run_return (VizGenerator.generate env self question df log)
      <> Ok (AfterLoop, r)).
Proof.
  split.
  - intros self question lf r HR. unfold PolarsAnalyst.analyze.
    destruct (_get_schema_info lf) as [schema_info | e]; [| discriminate].
    rewrite analyst_loop_eq.
    exact (loop_not_after (analyst_shape env self question schema_info)
             _ _ (analyst_body_ok env self question schema_info lf)
             nil "" log r HR).
  - intros self question df r HR. unfold VizGenerator.generate.
    rewrite viz_loop_eq.
    exact (loop_not_after (viz_shape env self (VizGenerator.base_prompt question df))
             _ _ (viz_body_ok env self _ df) nil "" log r HR).
Qed.

(** The theorem applies to the budget the constructors set. *)
Lemma post_loop_return_unreachable_witness :
  (forall r, run_return (PolarsAnalyst.analyze Demo.silent PolarsAnalyst.__init__
                                               "Top 5 suppliers?" Demo.dataset nil)
             <> Ok (AfterLoop, r))
  /\ (forall r, run_return (VizGenerator.generate Demo.silent VizGenerator.__init__
                                                  "Bar chart" Demo.table nil)
                <> Ok (AfterLoop, r)).
Proof.
  destruct (post_loop_return_unreachable Demo.silent nil) as [HA HV].
  split; intros r.
  - apply (HA PolarsAnalyst.__init__). simpl. lia.
  - apply (HV VizGenerator.__init__). simpl. lia.
Defined.

(** With a negative budget the range is empty and the [return] after the
    loop is the one taken. *)
Lemma post_loop_return_negative_budget :
  run_return (PolarsAnalyst.analyze Demo.silent (PolarsAnalyst.mk (-1))
                                    "Top 5 suppliers?" Demo.dataset nil)
  = Ok (AfterLoop,
        PolarsAnalyst.mkResult false None "" (Some "Unexpected exit from retry loop.") 0).
Proof. vm_compute. reflexivity. Qed.

(** ** Text *)

Lemma str_app_cons (x : ascii) (a b : string) :
  (String x a ++ b)%string = String x (a ++ b)%string.
Proof. reflexivity. Qed.

Lemma str_app_nil (b : string) : (EmptyString ++ b)%string = b.
Proof. reflexivity. Qed.

Lemma str_app_nil_r (a : string) : (a ++ EmptyString)%string = a.
Proof.
  induction a as [| x a IH]; [reflexivity |].
  rewrite str_app_cons. now f_equal.
Qed.

Lemma str_app_assoc (a b c : string) : ((a ++ b) ++ c = a ++ (b ++ c))%string.
Proof.
  induction a as [| x a IH]; [reflexivity |].
  rewrite !str_app_cons. now f_equal.
Qed.

Lemma startswith_app (p b : string) : Py.startswith (p ++ b)%string p = true.
Proof.
  induction p as [| x p IH]; [reflexivity |].
  rewrite str_app_cons. simpl. now rewrite Ascii.eqb_refl, IH.
Qed.

Lemma startswith_drop (p s : string) :
  Py.startswith s p = true -> s = (p ++ Py.drop (String.length p) s)%string.
Proof.
  revert s. induction p as [| x p IH]; intros s H; [reflexivity |].
  destruct s as [| y s]; [discriminate |]. simpl in H.
  apply andb_true_iff in H. destruct H as [Hxy Hp].
  apply Ascii.eqb_eq in Hxy. subst y.
  rewrite str_app_cons. simpl. f_equal. now apply IH.
Qed.

Lemma partition_unfold (p s : string) :
  Py.partition p s
  = if Py.startswith s p then Some (EmptyString, Py.drop (String.length p) s)
    else match s with
         | EmptyString => None
         | String c s' =>
             match Py.partition p s' with
             | Some (before, after) => Some (String c before, after)
             | None => None
             end
         end.
Proof. destruct s; reflexivity. Qed.

(** [Py.partition] splits at an occurrence. *)
Lemma partition_some (p s before after : string) :
  Py.partition p s = Some (before, after) -> s = (before ++ p ++ after)%string.
Proof.
  revert before after. induction s as [| c s IH]; intros before after H;
    rewrite partition_unfold in H.
  - destruct (Py.startswith "" p) eqn:E; [| discriminate].
    inversion H; subst. rewrite str_app_nil. now apply startswith_drop.
  - destruct (Py.startswith (String c s) p) eqn:E.
    + inversion H; subst. rewrite str_app_nil. now apply startswith_drop.
    + destruct (Py.partition p s) as [[b a] |]; [| discriminate].
      inversion H; subst. rewrite str_app_cons. f_equal. now apply IH.
Qed.

(** [Py.partition] finds an occurrence when there is one. *)
Lemma partition_finds (p a b : string) :
  Py.partition p (a ++ p ++ b)%string <> None.
Proof.
  induction a as [| c a IH]; rewrite partition_unfold.
  - rewrite str_app_nil. now rewrite startswith_app.
  - destruct (Py.startswith _ p); [discriminate |].
    rewrite str_app_cons.
    destruct (Py.partition p (a ++ p ++ b)%string) as [[x y] |];
      [discriminate | contradiction].
Qed.

(** [Py.contains p s] holds exactly when [p] is a run of consecutive
    characters of [s]. *)
Lemma contains_spec (p s : string) :
  Py.contains p s = true <-> exists a b, s = (a ++ p ++ b)%string.
Proof.
  unfold Py.contains. split.
  - destruct (Py.partition p s) as [[a b] |] eqn:E; [| discriminate].
    intros _. exists a, b. now apply partition_some.
  - intros (a & b & ->). pose proof (partition_finds p a b) as H.
    destruct (Py.partition p (a ++ p ++ b)%string); [reflexivity | contradiction].
Qed.

Lemma contains_join (sep entry : string) (parts : list string) :
  In entry parts -> Py.contains entry (Py.join sep parts) = true.
Proof.
  intros Hin. apply contains_spec.
  induction parts as [| x parts IH]; [contradiction |].
  destruct Hin as [-> | Hin].
  - destruct parts as [| y parts].
    + exists EmptyString, EmptyString.
      rewrite str_app_nil_r. reflexivity.
    + exists EmptyString, (sep ++ Py.join sep (y :: parts))%string.
      reflexivity.
  - destruct (IH Hin) as (a & b & Hab).
    destruct parts as [| y parts]; [contradiction |].
    change (Py.join sep (x :: y :: parts))
      with (x ++ sep ++ Py.join sep (y :: parts))%string.
    rewrite Hab. exists (x ++ sep ++ a)%string, b.
    now rewrite !str_app_assoc.
Qed.

Lemma contains_app_r (p a s : string) :
  Py.contains p s = true -> Py.contains p (a ++ s)%string = true.
Proof.
  rewrite !contains_spec. intros (x & y & ->).
  exists (a ++ x)%string, y. now rewrite str_app_assoc.
Qed.

(** ** C2: the error history *)

(** What holds of the history in both loops: when iteration [n] builds its
    message, [error_history] has [n - 1] entries; they are, in order, the
    texts [error_msg i exc_i] made from the exceptions captured by
    iterations [1 .. n - 1]; the message is built from exactly that list;
    and (the list of one iteration being a prefix of the list of the next)
    entries are only ever added at the end. *)
Lemma error_history_invariant (env : Env) (log : Log) :
  (forall (self : PolarsAnalyst.t) (question : string) (lf : LazyFrame)
          (schema_info : string) pre a post,
      _get_schema_info lf = Ok schema_info ->
      run_attempts (PolarsAnalyst.analyze env self question lf log)
      = pre ++ a :: post ->
      Forall is_failed pre
      /\ at_history a = map (entry_of (PolarsAnalyst.error_msg env)) pre
      /\ map at_number pre = py_range 1 (at_number a)
      /\ Z.of_nat (List.length (at_history a)) = at_number a - 1
      /\ at_prompt a = PolarsAnalyst._build_prompt question schema_info (at_history a))
  /\ (forall (self : VizGenerator.t) (question : string) (df : DataFrame)
             pre a post,
      run_attempts (VizGenerator.generate env self question df log)
      = pre ++ a :: post ->
      Forall is_failed pre
      /\ at_history a = map (entry_of (VizGenerator.error_msg env)) pre
      /\ map at_number pre = py_range 1 (at_number a)
      /\ Z.of_nat (List.length (at_history a)) = at_number a - 1
      /\ at_prompt a
         = VizGenerator.build_prompt (VizGenerator.base_prompt question df)
                                     (at_history a)).
Proof.
  split.
  - intros self question lf schema_info pre a post Hs.
    unfold PolarsAnalyst.analyze. rewrite Hs, analyst_loop_eq. intros H.
    exact (loop_history (analyst_shape env self question schema_info)
             _ _ (analyst_body_ok env self question schema_info lf)
             "" log pre a post H).
  - intros self question df pre a post.
    unfold VizGenerator.generate. rewrite viz_loop_eq. intros H.
    exact (loop_history (viz_shape env self (VizGenerator.base_prompt question df))
             _ _ (viz_body_ok env self _ df) "" log pre a post H).
Qed.

(** The chart loop appends the joined history to its message as it is:
    every entry of the history is a run of consecutive characters of the
    message. *)
Lemma viz_prompt_keeps_entries (base entry : string) (error_history : list string) :
  In entry error_history ->
  Py.contains entry (VizGenerator.build_prompt base error_history) = true.
Proof.
  intros Hin. unfold VizGenerator.build_prompt.
  destruct error_history as [| x l]; [contradiction |].
  do 5 apply contains_app_r. now apply contains_join.
Qed.

(** C2.  The analysis loop does not always put the history entries in its
    message as they are.  Its model answers the first call without a code
    block, in a text that has a line of four spaces.  The entry recorded
    for iteration 1 quotes that text; iteration 2 starts with that one
    entry, and the message it sends to the model, built by
    [_build_prompt], does not contain the entry: [textwrap.dedent] has
    emptied the line of spaces. *)
Theorem analyst_prompt_rewrites_entry :
  exists (a1 a2 : Attempt DataFrame) (rest : list (Attempt DataFrame))
         (e : Exn) (entry : string),
    run_attempts (PolarsAnalyst.analyze Demo.indented PolarsAnalyst.__init__
                                        "Top 5 suppliers?" Demo.dataset nil)
    = a1 :: a2 :: rest
    /\ at_outcome a1 = Failed ProtocolError e
    /\ e = PolarsAnalyst.no_code_error Demo.indented_answer
    /\ entry = PolarsAnalyst.error_msg Demo.indented 1 e
    /\ at_number a2 = 2
    /\ at_history a2 = entry :: nil
    /\ Py.contains entry (at_prompt a2) = false
    /\ In (EvInvoke Demo.primary_llm POLARS_SYSTEM_PROMPT (at_prompt a2))
          (run_log (PolarsAnalyst.analyze Demo.indented PolarsAnalyst.__init__
                                          "Top 5 suppliers?" Demo.dataset nil)).
Proof.
  eexists _, _, _, _, _.
  split; [vm_compute; reflexivity |].
  split; [reflexivity |].
  split; [reflexivity |].
  split; [reflexivity |].
  split; [reflexivity |].
  split; [vm_compute; reflexivity |].
  split; [vm_compute; reflexivity |].
  vm_compute. right. left. reflexivity.
Qed.

(** A program that returned did not leave through an exception. *)
Lemma py_exec_returns (env : Env) (log : Log) (code : string)
      (namespace namespace' : gmap string PyVal) :
  py_exec env log code namespace = Ok namespace' ->
  py_run env log code namespace = Finished (Ok namespace').
Proof.
  unfold py_exec. destruct (py_run env log code namespace) as [r | e];
    [now intros -> | discriminate].
Qed.

(** ** C4: output of the wrong type *)

(** The chart loop returns a number as its figure: the program [fig = 42]
    runs without raising, and the first iteration succeeds with the number
    as payload. *)
Lemma viz_accepts_any_value :
  run_return (VizGenerator.generate Demo.careless VizGenerator.__init__
                                    "Bar chart" Demo.table nil)
  = Ok (InLoopSuccess,
        VizGenerator.mkResult true (PyObject "int" "42") "fig = 42" None 1).
Proof. vm_compute. reflexivity. Qed.

(** C4, amended.  In an iteration whose model answer holds a code block
    and whose code runs without raising:
    - analysis: a [DataFrame] left in [result] is the payload of a success
      record; [None] (or no binding) fails at validation with "Code did not
      define a `result` variable..."; any other value fails at validation
      with the [ValueError] that names the type of the value, and no
      success record is returned;
    - chart: the only check is that [fig] is not [None]; any other value,
      of any type, is the payload of a success record, and [None] (or no
      binding) fails at validation with "Code did not define a `fig`
      variable.". *)
Theorem output_validation (env : Env) (log : Log) (attempt : Z)
        (error_history : list string) (last_code : string) (llm : LLM)
        (response : string) (namespace : gmap string PyVal) :
  (forall (self : PolarsAnalyst.t) (question schema_info : string)
          (lf : LazyFrame),
      let user_message :=
        PolarsAnalyst._build_prompt question schema_info error_history in
      let step :=
        PolarsAnalyst.loop_body env self question schema_info lf attempt
                                error_history last_code log in
      build_llm (settings env) (attempt >? PolarsAnalyst._max_retries self) = Ok llm ->
      llm_invoke env log llm POLARS_SYSTEM_PROMPT user_message = Ok response ->
      _extract_tag response "code" <> ""%string ->
      py_exec env (log ++ EvInvoke llm POLARS_SYSTEM_PROMPT user_message :: nil)
              (_extract_tag response "code")
              (<["pl" := PyModule "polars"]> (<["lf" := PyLazy lf]> ∅))
      = Ok namespace ->
      match default PyNone (namespace !! "result"%string) with
      | PyNone =>
          at_outcome (step_attempt step)
          = Failed ValidationError
                   (ValueError ("Code did not define a `result` variable. "
                                ++ "Make sure your code ends with: "
                                ++ "result = lf.[...].collect()")%string)
      | PyFrame df =>
          step_return step
          = Some (Ok (InLoopSuccess,
                      PolarsAnalyst.mkResult true (Some df)
                                             (_extract_tag response "code")
                                             None attempt))
      | v =>
          at_outcome (step_attempt step)
          = Failed ValidationError
                   (ValueError ("`result` must be a polars.DataFrame, got "
                                ++ type_name v
                                ++ ". Did you forget .collect() at the end?")%string)
          /\ forall r, step_return step <> Some (Ok (InLoopSuccess, r))
      end)
  /\ (forall (self : VizGenerator.t) (base : string) (df : DataFrame),
      let prompt := VizGenerator.build_prompt base error_history in
      let step :=
        VizGenerator.loop_body env self base df attempt
                               error_history last_code log in
      build_llm (settings env) (attempt >? VizGenerator._max_retries self) = Ok llm ->
      llm_invoke env log llm VIZ_SYSTEM_PROMPT prompt = Ok response ->
      _extract_tag response "code" <> ""%string ->
      py_exec env (log ++ EvInvoke llm VIZ_SYSTEM_PROMPT prompt :: nil)
              (_extract_tag response "code")
              (<["df" := PyFrame df]> (<["go" := PyModule "plotly.graph_objects"]>
               (<["px" := PyModule "plotly.express"]> (<["pl" := PyModule "polars"]> ∅))))
      = Ok namespace ->
      match default PyNone (namespace !! "fig"%string) with
      | PyNone =>
          at_outcome (step_attempt step)
          = Failed ValidationError
                   (ValueError "Code did not define a `fig` variable.")
      | fig =>
          step_return step
          = Some (Ok (InLoopSuccess,
                      VizGenerator.mkResult true fig (_extract_tag response "code")
                                            None attempt))
      end).
Proof.
  split.
  - intros self question schema_info lf user_message step Hllm Hinv Hcode Hexec.
    subst step user_message.
    unfold PolarsAnalyst.loop_body, PolarsAnalyst.try_block, PolarsAnalyst._run_code.
    rewrite Hllm, Hinv.
    destruct (String.eqb_spec (_extract_tag response "code") "") as [E | _];
      [contradiction |].
    rewrite (py_exec_returns _ _ _ _ _ Hexec). unfold PolarsAnalyst.check_result.
    destruct (default PyNone (namespace !! "result"%string)); simpl;
      try reflexivity;
      destruct (attempt >? PolarsAnalyst._max_retries self);
      try reflexivity; (split; [reflexivity | intros r; discriminate]).
  - intros self base df prompt step Hllm Hinv Hcode Hexec.
    subst step prompt.
    unfold VizGenerator.loop_body, VizGenerator.try_block.
    rewrite Hllm, Hinv.
    destruct (String.eqb_spec (_extract_tag response "code") "") as [E | _];
      [contradiction |].
    rewrite (py_exec_returns _ _ _ _ _ Hexec). unfold VizGenerator.check_fig.
    destruct (default PyNone (namespace !! "fig"%string)); simpl; try reflexivity.
    now destruct (attempt >? VizGenerator._max_retries self).
Qed.

(** The theorem applies: the analysis loop rejects a lazy table left in
    [result], naming its type, and the chart loop returns the number left
    in [fig]. *)
Lemma output_validation_witness :
  at_outcome
    (step_attempt
       (PolarsAnalyst.loop_body Demo.careless PolarsAnalyst.__init__
          "Top 5 suppliers?" "Dataset columns:" Demo.dataset 1 nil "" nil))
  = Failed ValidationError
           (ValueError
              "`result` must be a polars.DataFrame, got LazyFrame. Did you forget .collect() at the end?")
  /\ step_return
       (VizGenerator.loop_body Demo.careless VizGenerator.__init__
          "Chart request: Bar chart" Demo.table 1 nil "" nil)
     = Some (Ok (InLoopSuccess,
                 VizGenerator.mkResult true (PyObject "int" "42") "fig = 42" None 1)).
Proof.
  split.
  - pose proof (proj1 (output_validation Demo.careless nil 1 nil "" Demo.primary_llm
                         (Demo.tag "code" "result = lf")
                         (<["result" := PyLazy Demo.dataset]>
                            (<["pl" := PyModule "polars"]>
                               (<["lf" := PyLazy Demo.dataset]> ∅))))
                      PolarsAnalyst.__init__ "Top 5 suppliers?"%string
                      "Dataset columns:"%string Demo.dataset)
      as H.
    cbv zeta in H.
    assert (H1 : build_llm (settings Demo.careless)
                           (1 >? PolarsAnalyst._max_retries PolarsAnalyst.__init__)
                 = Ok Demo.primary_llm) by (vm_compute; reflexivity).
    assert (H2 : llm_invoke Demo.careless nil Demo.primary_llm POLARS_SYSTEM_PROMPT
                   (PolarsAnalyst._build_prompt "Top 5 suppliers?" "Dataset columns:" nil)
                 = Ok (Demo.tag "code" "result = lf")) by (vm_compute; reflexivity).
    assert (H3 : _extract_tag (Demo.tag "code" "result = lf") "code" <> ""%string)
      by (vm_compute; discriminate).
    specialize (H H1 H2 H3).
    apply H. vm_compute. reflexivity.
  - pose proof (proj2 (output_validation Demo.careless nil 1 nil "" Demo.primary_llm
                         (Demo.tag "code" "fig = 42")
                         (<["fig" := PyObject "int" "42"]>
                            (<["df" := PyFrame Demo.table]>
                               (<["go" := PyModule "plotly.graph_objects"]>
                                  (<["px" := PyModule "plotly.express"]>
                                     (<["pl" := PyModule "polars"]> ∅))))))
                      VizGenerator.__init__ "Chart request: Bar chart"%string Demo.table)
      as H.
    cbv zeta in H.
    assert (H1 : build_llm (settings Demo.careless)
                           (1 >? VizGenerator._max_retries VizGenerator.__init__)
                 = Ok Demo.primary_llm) by (vm_compute; reflexivity).
    assert (H2 : llm_invoke Demo.careless nil Demo.primary_llm VIZ_SYSTEM_PROMPT
                   (VizGenerator.build_prompt "Chart request: Bar chart" nil)
                 = Ok (Demo.tag "code" "fig = 42")) by (vm_compute; reflexivity).
    assert (H3 : _extract_tag (Demo.tag "code" "fig = 42") "code" <> ""%string)
      by (vm_compute; discriminate).
    specialize (H H1 H2 H3).
    apply H. vm_compute. reflexivity.
Defined.

(** ** C6: the planner's default plan *)




(** ** C10: an answer without plan tags *)




(** ** C7: the SQL generator makes one attempt *)

(** Not every call of [SQLGenerator.generate] makes a model call or returns
    a record: the client is built before the [try] block, and with a
    provider [build_llm] does not know the call raises, having called no
    model. *)
Lemma sql_generate_raises :
  SQLGenerator.generate Demo.misconfigured "All delayed orders" Demo.dataset nil
  = (Raise (ValueError "Unsupported provider: 'openai'. Valid options: google | groq"),
     nil).
Proof. vm_compute. reflexivity. Qed.

(** C7, amended.  In a call of [SQLGenerator.generate] whose client is built
    and whose schema is read (the two steps before the [try] block): a
    record is returned; the model is called exactly once; at most one query
    is executed; the record's [sql_query] is the text extracted from the
    answer, or the empty string when the model raised; and each failure
    inside the [try] block (model error, missing block, materialization
    error, query error) gives the record with [success] false,
    [result_df] null and the error message, with that query text. *)
Theorem sql_single_attempt (env : Env) (question : string) (lf : LazyFrame)
        (log : Log) (llm : LLM) (schema_info : string) :
  build_llm (settings env) false = Ok llm ->
  _get_schema_info lf = Ok schema_info ->
  let user_message := SQLGenerator.user_prompt question schema_info in
  let answer := llm_invoke env log llm SQL_SYSTEM_PROMPT user_message in
  let query := match answer with
               | Ok text => _extract_tag text "sql"
               | Raise _ => ""%string
               end in
  exists r log',
    SQLGenerator.generate env question lf log = (Ok r, log')
    /\ invocations log'
       = invocations log ++ EvInvoke llm SQL_SYSTEM_PROMPT user_message :: nil
    /\ (queries log' = queries log
        \/ queries log' = queries log ++ EvQuery query :: nil)
    /\ SQLGenerator.sql_query r = query
    /\ (SQLGenerator.success r = false ->
        SQLGenerator.result_df r = None
        /\ exists msg, SQLGenerator.error r = Some msg)
    /\ (forall e, answer = Raise e -> r = SQLGenerator.failure "" e)
    /\ (query = ""%string -> SQLGenerator.success r = false)
    /\ (forall e, collect lf = Raise e -> SQLGenerator.success r = false)
    /\ (forall sc_data e,
           collect lf = Ok sc_data ->
           duckdb_execute env
             (log ++ EvInvoke llm SQL_SYSTEM_PROMPT user_message :: nil)
             query sc_data = Raise e ->
           SQLGenerator.success r = false).
Proof.
  intros Hllm Hs user_message answer query. subst query answer user_message.
  unfold SQLGenerator.generate. rewrite Hllm, Hs.
  destruct (llm_invoke env log llm SQL_SYSTEM_PROMPT _) as [text | e0].
  - destruct (String.eqb_spec (_extract_tag text "sql") "") as [E | NE].
    + eexists _, _. split; [reflexivity |].
      rewrite invocations_app, queries_app. simpl. rewrite List.app_nil_r.
      split; [reflexivity |]. split; [now left |]. split; [now rewrite E |].
      split; [intros _; split; [reflexivity | eauto] |].
      split; [intros e He; discriminate |].
      repeat split; reflexivity.
    + destruct (collect lf) as [sc_data | e1].
      * destruct (duckdb_execute env _ _ sc_data) as [df | e2] eqn:Hd.
        -- eexists _, _. split; [reflexivity |].
           rewrite !invocations_app, !queries_app. simpl. rewrite !List.app_nil_r.
           split; [reflexivity |]. split; [now right |]. split; [reflexivity |].
           split; [discriminate |].
           split; [intros e He; discriminate |].
           split; [intros E; contradiction |].
           split; [intros e He; discriminate |].
           intros sc e Hc He. inversion Hc; subst. congruence.
        -- eexists _, _. split; [reflexivity |].
           rewrite !invocations_app, !queries_app. simpl. rewrite !List.app_nil_r.
           split; [reflexivity |]. split; [now right |]. split; [reflexivity |].
           split; [intros _; split; [reflexivity | eauto] |].
           split; [intros e He; discriminate |].
           repeat split; reflexivity.
      * eexists _, _. split; [reflexivity |].
        rewrite invocations_app, queries_app. simpl. rewrite List.app_nil_r.
        split; [reflexivity |]. split; [now left |]. split; [reflexivity |].
        split; [intros _; split; [reflexivity | eauto] |].
        split; [intros e He; discriminate |].
        repeat split; reflexivity.
  - eexists _, _. split; [reflexivity |].
    rewrite invocations_app, queries_app. simpl. rewrite List.app_nil_r.
    split; [reflexivity |]. split; [now left |]. split; [reflexivity |].
    split; [intros _; split; [reflexivity | eauto] |].
    split; [intros e He; inversion He; reflexivity |].
    repeat split; reflexivity.
Qed.

(** The theorem applies: one model call, one query, and the query text in
    the record. *)
Lemma sql_single_attempt_witness :
  exists r log',
    SQLGenerator.generate Demo.good_sql "All delayed orders" Demo.dataset nil
    = (Ok r, log')
    /\ List.length (invocations log') = 1%nat
    /\ SQLGenerator.sql_query r = "SELECT * FROM sc_data"%string.
Proof.
  destruct (sql_single_attempt Demo.good_sql "All delayed orders" Demo.dataset nil
              Demo.primary_llm
              ("Dataset columns:" ++ Py.LF ++ "  - category: String" ++ Py.LF
               ++ "  - revenue: Float64")%string)
    as (r & log' & H & Hi & _ & Hq & _).
  - vm_compute. reflexivity.
  - vm_compute. reflexivity.
  - exists r, log'. split; [exact H |]. split.
    + rewrite Hi. reflexivity.
    + rewrite Hq. vm_compute. reflexivity.
Defined.

(** ** C8: the edge that leaves the executor *)

(** The plan asks for a chart, the analysis fails on all four attempts, and
    the node that follows the executor is the responder. *)
Lemma failed_analysis_goes_to_responder :
  plan (Demo.planned (Some Demo.dataset)) !! "requires_viz"%string = Some (JBool true)
  /\ exists u log',
      analysis_executor_node Demo.silent (Demo.planned (Some Demo.dataset)) nil
      = (Ok u, log')
      /\ plan (apply_update (Demo.planned (Some Demo.dataset)) u)
           !! "requires_viz"%string = Some (JBool true)
      /\ next_of executor (apply_update (Demo.planned (Some Demo.dataset)) u)
         = Ok responder.
Proof.
  split; [vm_compute; reflexivity |].
  eexists _, _. split; [vm_compute; reflexivity |].
  split; vm_compute; reflexivity.
Qed.

(** C8, amended.  After the executor node has returned its update, the
    plan is unchanged and the next node is [viz_node] when the analysis
    succeeded and the plan's [requires_viz] is truthy, and [responder]
    otherwise: in particular when no dataset is loaded or when the analysis
    failed, whatever the plan says. *)
Theorem route_after_executor (env : Env) (state : AgentState) (log : Log)
        (u : Update) (log' : Log) :
  analysis_executor_node env state log = (Ok u, log') ->
  plan (apply_update state u) = plan state
  /\ next_of executor (apply_update state u)
     = Ok (if analysis_succeeds env state log
              && truthy (dict_get (plan state) "requires_viz" JNull)
           then viz_node else responder).
Proof.
  unfold analysis_executor_node, analysis_succeeds.
  destruct (raw_dataframe state) as [lf |].
  - destruct (run_return (PolarsAnalyst.analyze env PolarsAnalyst.__init__
                            (user_question state) lf log)) as [[site r] | e];
      [| discriminate].
    destruct (PolarsAnalyst.success r).
    + destruct (truthy (dict_get (plan state) "requires_viz" JNull));
        intros H; inversion H; subst; split; reflexivity.
    + intros H; inversion H; subst; split; reflexivity.
  - intros H; inversion H; subst; split; reflexivity.
Qed.

(** The theorem applies: the analysis succeeds on its second attempt, the
    plan asks for a chart, and the next node is [viz_node]. *)
Lemma route_after_executor_witness :
  exists u log',
    analysis_executor_node Demo.second_time (Demo.planned (Some Demo.dataset)) nil
    = (Ok u, log')
    /\ next_of executor (apply_update (Demo.planned (Some Demo.dataset)) u)
       = Ok viz_node.
Proof.
  eexists _, _. split; [vm_compute; reflexivity |].
  refine (eq_trans
            (proj2 (route_after_executor Demo.second_time
                      (Demo.planned (Some Demo.dataset)) nil _ _ _)) _).
  - vm_compute. reflexivity.
  - vm_compute. reflexivity.
Defined.

(** ** One step of the graph *)

Lemma walk_step (k : nat) (env : Env) (n : Node) (state : AgentState) (log : Log) :
  n <> END ->
  walk (S k) env n state log
  = match node_fn env n state log with
    | (Raise e, log') => mkGraphRun (Raise e) (n :: nil) log'
    | (Ok u, log') =>
        match next_of n (apply_update state u) with
        | Raise e => mkGraphRun (Raise e) (n :: nil) log'
        | Ok n' =>
            mkGraphRun (gr_state (walk k env n' (apply_update state u) log'))
                       (n :: gr_trace (walk k env n' (apply_update state u) log'))
                       (gr_log (walk k env n' (apply_update state u) log'))
        end
    end.
Proof. destruct n; intros H; try reflexivity. contradiction. Qed.


(** * Further properties of the code *)

(** ** Text helpers *)

Lemma drop_app (p b : string) : Py.drop (String.length p) (p ++ b)%string = b.
Proof.
  induction p as [| x p IH]; [reflexivity |].
  rewrite str_app_cons. simpl. exact IH.
Qed.

Lemma contains_cons_false (p : string) (c : ascii) (s : string) :
  Py.contains p (String c s) = false ->
  Py.startswith (String c s) p = false /\ Py.contains p s = false.
Proof.
  unfold Py.contains. rewrite partition_unfold.
  destruct (Py.startswith (String c s) p); [discriminate |].
  destruct (Py.partition p s) as [[b a] |]; [discriminate | auto].
Qed.

Lemma contains_nil_false (p : string) :
  Py.contains p EmptyString = false -> Py.startswith EmptyString p = false.
Proof.
  unfold Py.contains. rewrite partition_unfold.
  destruct (Py.startswith "" p); [discriminate | auto].
Qed.

(** A pattern whose first character does not occur in [a] is first found
    right after [a]. *)
Lemma partition_at (c0 : ascii) (p' a b : string) :
  Py.contains (String c0 EmptyString) a = false ->
  Py.partition (String c0 p') (a ++ String c0 p' ++ b)%string = Some (a, b).
Proof.
  induction a as [| x a IH]; intros H; rewrite partition_unfold.
  - rewrite str_app_nil, startswith_app. now rewrite drop_app.
  - apply contains_cons_false in H. destruct H as [Hx Ha].
    rewrite str_app_cons.
    assert (E : Py.startswith (String x (a ++ String c0 p' ++ b)) (String c0 p') = false).
    { simpl in Hx |- *. apply andb_false_iff in Hx.
      destruct Hx as [Hx | Hx]; [now rewrite Hx | discriminate]. }
    rewrite E, (IH Ha). reflexivity.
Qed.

Lemma contains_suffix (p a s : string) :
  Py.contains p (a ++ s)%string = false -> Py.contains p s = false.
Proof.
  intros H. destruct (Py.contains p s) eqn:E; [| reflexivity].
  rewrite (contains_app_r p a s E) in H. discriminate.
Qed.

Lemma lstrip_shape (s : string) :
  Py.lstrip s = EmptyString
  \/ exists c r, Py.lstrip s = String c r /\ Py.isspace c = false.
Proof.
  induction s as [| c s IH]; simpl; [now left |].
  destruct (Py.isspace c) eqn:E; [exact IH | right; eauto].
Qed.

Lemma rstrip_idem (s : string) : Py.rstrip (Py.rstrip s) = Py.rstrip s.
Proof.
  induction s as [| c s IH]; simpl; [reflexivity |].
  destruct (Py.rstrip s) as [| d r] eqn:E.
  - destruct (Py.isspace c) eqn:Ec; simpl; [reflexivity | now rewrite Ec].
  - simpl. simpl in IH. now rewrite IH.
Qed.

Lemma rstrip_head (c : ascii) (r : string) :
  Py.isspace c = false -> exists r', Py.rstrip (String c r) = String c r'.
Proof.
  intros H. simpl. destruct (Py.rstrip r); [rewrite H |]; eauto.
Qed.

Lemma strip_idem (s : string) : Py.strip (Py.strip s) = Py.strip s.
Proof.
  unfold Py.strip.
  destruct (lstrip_shape s) as [E | (c & r & E & Hc)]; rewrite E.
  - reflexivity.
  - destruct (rstrip_head c r Hc) as [r' Hr]. rewrite Hr.
    simpl Py.lstrip. rewrite Hc. rewrite <- Hr. apply rstrip_idem.
Qed.

Lemma strip_all_space (s : string) : all_space s = true -> Py.strip s = EmptyString.
Proof.
  unfold Py.strip. induction s as [| c s IH]; simpl; [reflexivity |].
  intros H. apply andb_true_iff in H. destruct H as [Hc Hs].
  rewrite Hc. now apply IH.
Qed.

(** ** [_extract_tag] *)

(** X1.  For the two tags the program passes ([code] and [sql], for which
    the pattern built from the tag is the literal pair of tags),
    [_extract_tag] returns the empty string when the text has no opening
    tag, and when it has no closing tag. *)
Theorem extract_tag_missing (text tag : string) :
  In tag program_tags ->
  Py.contains ("<" ++ tag ++ ">")%string text = false
  \/ Py.contains ("</" ++ tag ++ ">")%string text = false ->
  _extract_tag text tag = ""%string.
Proof.
  intros _. unfold _extract_tag, search_tag.
  destruct (Py.partition ("<" ++ tag ++ ">")%string text) as [[pre rest] |] eqn:E.
  - intros [H | H].
    + unfold Py.contains in H. rewrite E in H. discriminate.
    + apply partition_some in E. subst text.
      apply contains_suffix, contains_suffix in H.
      unfold Py.contains in H.
      destruct (Py.partition ("</" ++ tag ++ ">")%string rest) as [[inner post] |];
        [discriminate | reflexivity].
  - intros _. reflexivity.
Qed.

Lemma extract_tag_missing_witness :
  _extract_tag "SELECT 1 </sql>" "sql" = ""%string
  /\ _extract_tag "<sql> SELECT 1" "sql" = ""%string.
Proof.
  split; apply extract_tag_missing; try (right; left; reflexivity);
    [left | right]; vm_compute; reflexivity.
Defined.

(** X2.  For the two tags the program passes, [_extract_tag] returns the
    content of the first block, stripped, whatever follows it: when no
    ["<"] occurs before the opening tag or inside the block, and the block
    is ASCII text (so that its whitespace is the ASCII whitespace), the
    text after the closing tag (further blocks included) has no
    influence. *)
Theorem extract_tag_first_block (tag pre body post : string) :
  In tag program_tags ->
  isascii body = true ->
  Py.contains "<" pre = false ->
  Py.contains "<" body = false ->
  _extract_tag (pre ++ ("<" ++ tag ++ ">") ++ body ++ ("</" ++ tag ++ ">") ++ post)%string
               tag
  = Py.strip body.
Proof.
  intros _ _ Hpre Hbody. unfold _extract_tag, search_tag.
  change ("<" ++ tag ++ ">")%string with (String "<" (tag ++ ">")).
  rewrite (partition_at "<" (tag ++ ">") pre _ Hpre).
  change ("</" ++ tag ++ ">")%string with (String "<" ("/" ++ tag ++ ">")).
  rewrite (partition_at "<" ("/" ++ tag ++ ">") body post Hbody).
  reflexivity.
Qed.

Lemma extract_tag_first_block_witness :
  _extract_tag ("Sure. " ++ ("<" ++ "code" ++ ">") ++ " result = lf.collect() "
                ++ ("</" ++ "code" ++ ">") ++ " <code>other</code>")%string "code"
  = "result = lf.collect()"%string.
Proof.
  rewrite extract_tag_first_block;
    try (left; reflexivity); vm_compute; reflexivity.
Defined.

(** ** [build_llm] *)

(** X4.  Whether a client can be built does not depend on [use_fallback]:
    the primary and the fallback client are both built, differing at most
    in the model name, or both calls raise the same exception. *)
Theorem build_llm_same_outcome (c : LLMConfig) (b b' : bool) :
  match build_llm c b, build_llm c b' with
  | Ok l, Ok l' =>
      llm_class l = llm_class l'
      /\ llm_temperature l = llm_temperature l'
      /\ llm_max_tokens l = llm_max_tokens l'
  | Raise e, Raise e' => e = e'
  | _, _ => False
  end.
Proof.
  unfold build_llm. destruct (active_pair c) as [mp | e]; [| reflexivity].
  destruct (String.eqb (provider c) "google"); [simpl; auto |].
  destruct (String.eqb (provider c) "groq"); simpl; auto.
Qed.

(** ** More about the loop over any body that satisfies [body_ok] *)


Lemma firstn_py_range (lo hi : Z) (n : nat) :
  (n <= List.length (py_range lo hi))%nat ->
  firstn n (py_range lo hi) = py_range lo (lo + Z.of_nat n).
Proof.
  rewrite py_range_length. intros H. unfold py_range.
  rewrite firstn_map, firstn_seq_min. do 2 f_equal. lia.
Qed.

Section LoopMore.
Context {R P : Type}.
Variable sh : Shape R P.
Variable body : Z -> list string -> string -> Log -> Step R P.
Variable after : string -> R.
Hypothesis body_spec :
  forall a h lc log, body_ok sh a h log (body a h lc log).

Local Abbreviation loop := (for_loop body after).

Ltac first_body a h lc log :=
  let Hb := fresh "Hb" in
  let E := fresh "E" in
  pose proof (body_spec a h lc log) as Hb;
  destruct (body a h lc log) eqn:E; inversion Hb; subst; clear Hb; simpl in *.

(** The iterations of a run follow the range from its start. *)
Lemma loop_numbers (range : list Z) :
  forall hist lc log,
    map at_number (run_attempts (loop range hist lc log))
    = firstn (List.length (run_attempts (loop range hist lc log))) range.
Proof.
  induction range as [| x rest IH]; intros hist lc log; simpl; [reflexivity |].
  first_body x hist lc log; try reflexivity. now rewrite <- IH.
Qed.

Lemma loop_length (range : list Z) :
  forall hist lc log,
    (List.length (run_attempts (loop range hist lc log)) <= List.length range)%nat.
Proof.
  induction range as [| x rest IH]; intros hist lc log; simpl; [lia |].
  first_body x hist lc log; try lia.
  match goal with |- (S ?n <= _)%nat => assert (n <= List.length rest)%nat by apply IH end.
  lia.
Qed.

(** How a run ends, read from its last iteration. *)
Lemma loop_classify (range : list Z) :
  forall hist lc log,
    match run_return (loop range hist lc log) with
    | Raise e =>
        exists pre a,
          run_attempts (loop range hist lc log) = pre ++ a :: nil
          /\ Forall is_failed pre
          /\ (at_outcome a = Aborted e \/ at_outcome a = Escaped e)
    | Ok (InLoopSuccess, r) =>
        exists pre a code payload,
          run_attempts (loop range hist lc log) = pre ++ a :: nil
          /\ Forall is_failed pre
          /\ at_outcome a = Succeeded code payload
          /\ r = sh_success sh code payload (at_number a)
    | Ok (InLoopExhausted, r) =>
        exists pre a kind e last_code,
          run_attempts (loop range hist lc log) = pre ++ a :: nil
          /\ Forall is_failed pre
          /\ at_outcome a = Failed kind e
          /\ at_number a > sh_max_retries sh
          /\ r = sh_exhausted sh last_code e (at_number a)
    | Ok (AfterLoop, r) =>
        Forall is_failed (run_attempts (loop range hist lc log))
        /\ map at_number (run_attempts (loop range hist lc log)) = range
        /\ Forall (fun x => x <= sh_max_retries sh) range
        /\ exists last_code, r = after last_code
    end.
Proof.
  induction range as [| x rest IH]; intros hist lc log; simpl.
  - repeat split; eauto.
  - first_body x hist lc log.
    + specialize (IH (hist ++ sh_entry sh x e :: nil) last_code
                     (log ++ EvInvoke llm (sh_system sh) (sh_prompt sh hist) :: more)).
      set (a0 := mkAttempt x (x >? sh_max_retries sh) hist (sh_prompt sh hist)
                           (Failed kind e : Outcome P)) in *.
      assert (Ha0 : is_failed a0) by (unfold is_failed; simpl; eauto).
      destruct (run_return (loop rest _ _ _)) as [[[| |] r] | e'].
      * destruct IH as (pre & a & code & payload & Hp & Hf & Ho & Hr).
        exists (a0 :: pre), a, code, payload. rewrite Hp. repeat split; auto.
      * destruct IH as (pre & a & k & e' & lc' & Hp & Hf & Ho & Hn & Hr).
        exists (a0 :: pre), a, k, e', lc'. rewrite Hp. repeat split; auto.
      * destruct IH as (Hf & Hn & Hle & Hr).
        repeat split; auto. now rewrite Hn.
      * destruct IH as (pre & a & Hp & Hf & Ho).
        exists (a0 :: pre), a. rewrite Hp. repeat split; auto.
    + exists nil. eexists. repeat split; try reflexivity; [constructor | now left].
    + exists nil. eexists _, _, _. repeat split; try reflexivity. constructor.
    + exists nil. eexists _, _, _, _. repeat split; try reflexivity; auto.
    + exists nil. eexists. repeat split; try reflexivity; [constructor | now right].
Qed.



(** The loop as the source starts it: the number of the last iteration is
    the number of iterations made. *)
Lemma loop_last_number (lc : string) (log : Log)
      (pre : list (Attempt P)) (a : Attempt P) :
  run_attempts (loop (py_range 1 (sh_max_retries sh + 2)) nil lc log)
  = pre ++ a :: nil ->
  at_number a
  = Z.of_nat (List.length
                (run_attempts (loop (py_range 1 (sh_max_retries sh + 2)) nil lc log)))
  /\ 1 <= at_number a <= sh_max_retries sh + 1.
Proof.
  intros H.
  destruct (loop_attempt_shape sh body after body_spec _ _ _ _ _ _ _ H)
    as (_ & _ & _ & _ & Hn & _).
  apply py_range_nth in Hn. rewrite H, length_app. simpl. lia.
Qed.

(** The loop as the source starts it, when it returns a record. *)
Lemma loop_returned (lc : string) (log : Log) (site : ReturnSite) (r : R) :
  0 <= sh_max_retries sh ->
  run_return (loop (py_range 1 (sh_max_retries sh + 2)) nil lc log) = Ok (site, r) ->
  let run := loop (py_range 1 (sh_max_retries sh + 2)) nil lc log in
  let n := Z.of_nat (List.length (run_attempts run)) in
  1 <= n <= sh_max_retries sh + 1
  /\ ((site = InLoopSuccess
       /\ exists a code payload,
           List.last (run_attempts run) a = a
           /\ at_outcome a = Succeeded code payload
           /\ r = sh_success sh code payload n)
      \/ (site = InLoopExhausted
          /\ n = sh_max_retries sh + 1
          /\ Forall is_failed (run_attempts run)
          /\ exists a kind e last_code,
              List.last (run_attempts run) a = a
              /\ at_outcome a = Failed kind e
              /\ r = sh_exhausted sh last_code e n)).
Proof.
  intros Hm Hret run n. subst n run.
  pose proof (loop_classify (py_range 1 (sh_max_retries sh + 2)) nil lc log) as Hc.
  rewrite Hret in Hc. destruct site.
  - destruct Hc as (pre & a & code & payload & Hp & Hf & Ho & Hr).
    destruct (loop_last_number _ _ _ _ Hp) as [Hn Hb].
    rewrite <- Hn. split; [exact Hb |]. left. split; [reflexivity |].
    exists a, code, payload. rewrite Hp, List.last_last. auto.
  - destruct Hc as (pre & a & kind & e & lc' & Hp & Hf & Ho & Hgt & Hr).
    destruct (loop_last_number _ _ _ _ Hp) as [Hn Hb].
    rewrite <- Hn. split; [exact Hb |]. right.
    split; [reflexivity |]. split; [lia |]. split.
    + rewrite Hp. apply List.Forall_app. split; [exact Hf |].
      constructor; [| constructor]. unfold is_failed. eauto.
    + exists a, kind, e, lc'. rewrite Hp, List.last_last. auto.
  - exfalso.
    exact (loop_not_after sh body after body_spec nil lc log r Hm Hret).
Qed.
End LoopMore.

(** What a loop adds to the log, from what its body adds. *)
Section LoopLog.
Context {R P : Type}.
Variable body : Z -> list string -> string -> Log -> Step R P.
Variable after : string -> R.
Variable ok : Event -> Prop.
Hypothesis body_log :
  forall a h lc log,
    exists new, step_log (body a h lc log) = log ++ new /\ Forall ok new.

Lemma loop_log (range : list Z) :
  forall hist lc log,
    exists new,
      run_log (for_loop body after range hist lc log) = log ++ new
      /\ Forall ok new.
Proof.
  induction range as [| x rest IH]; intros hist lc log; simpl.
  - exists nil. rewrite List.app_nil_r. auto.
  - destruct (body_log x hist lc log) as (new & Hn & Hok).
    destruct (body x hist lc log) as [a h' lc' log' | a r log']; simpl in *.
    + destruct (IH h' lc' log') as (new' & Hn' & Hok').
      exists (new ++ new'). rewrite Hn', Hn, <- List.app_assoc.
      split; [reflexivity |]. apply List.Forall_app. auto.
    + eauto.
Qed.
End LoopLog.

(** ** The two retry loops *)

Lemma extracted_is_stripped (text tag : string) :
  Py.strip (_extract_tag text tag) = _extract_tag text tag.
Proof.
  unfold _extract_tag. destruct (search_tag text tag); [apply strip_idem | reflexivity].
Qed.

Lemma eqb_empty_false (s : string) : String.eqb s "" = false -> s <> ""%string.
Proof. intros H ->. discriminate. Qed.

(** What one iteration adds to the log. *)
Lemma analyst_body_log (env : Env) (self : PolarsAnalyst.t)
      (question schema_info : string) (lf : LazyFrame)
      (x : Z) (h : list string) (lc : string) (log : Log) :
  exists new,
    step_log (PolarsAnalyst.loop_body env self question schema_info lf x h lc log)
    = log ++ new
    /\ Forall (loop_event POLARS_SYSTEM_PROMPT) new.
Proof.
  unfold PolarsAnalyst.loop_body.
  destruct (build_llm (settings env) (x >? PolarsAnalyst._max_retries self))
    as [llm | e]; [| exists nil; simpl; rewrite List.app_nil_r; auto].
  unfold PolarsAnalyst.try_block, PolarsAnalyst._run_code.
  destruct (llm_invoke env log llm POLARS_SYSTEM_PROMPT _) as [text | e].
  - destruct (String.eqb (_extract_tag text "code") "") eqn:Hc.
    + destruct (x >? _); simpl; eexists; split; try reflexivity;
        repeat constructor.
    + assert (Hev : loop_event POLARS_SYSTEM_PROMPT (EvExec (_extract_tag text "code"))).
      { split; [now apply eqb_empty_false | apply extracted_is_stripped]. }
      destruct (py_run env _ _ _) as [[ns | e] | e];
        [destruct (PolarsAnalyst.check_result ns) as [df | k e | e] | |];
        try destruct (x >? _); simpl; rewrite <- List.app_assoc; simpl;
        eexists; (split; [reflexivity |]); repeat constructor; apply Hev.
  - destruct (x >? _); simpl; eexists; split; try reflexivity; repeat constructor.
Qed.

Lemma viz_body_log (env : Env) (self : VizGenerator.t) (base : string)
      (df : DataFrame) (x : Z) (h : list string) (lc : string) (log : Log) :
  exists new,
    step_log (VizGenerator.loop_body env self base df x h lc log) = log ++ new
    /\ Forall (loop_event VIZ_SYSTEM_PROMPT) new.
Proof.
  unfold VizGenerator.loop_body.
  destruct (build_llm (settings env) (x >? VizGenerator._max_retries self))
    as [llm | e]; [| exists nil; simpl; rewrite List.app_nil_r; auto].
  unfold VizGenerator.try_block.
  destruct (llm_invoke env log llm VIZ_SYSTEM_PROMPT _) as [text | e].
  - destruct (String.eqb (_extract_tag text "code") "") eqn:Hc.
    + destruct (x >? _); simpl; eexists; split; try reflexivity;
        repeat constructor.
    + assert (Hev : loop_event VIZ_SYSTEM_PROMPT (EvExec (_extract_tag text "code"))).
      { split; [now apply eqb_empty_false | apply extracted_is_stripped]. }
      destruct (py_run env _ _ _) as [[ns | e] | e];
        [destruct (VizGenerator.check_fig ns) as [fig | k e | e] | |];
        try destruct (x >? _); simpl; rewrite <- List.app_assoc; simpl;
        eexists; (split; [reflexivity |]); repeat constructor; apply Hev.
  - destruct (x >? _); simpl; eexists; split; try reflexivity; repeat constructor.
Qed.

(** What a whole run adds to the log. *)
Lemma analyze_log (env : Env) (self : PolarsAnalyst.t) (question : string)
      (lf : LazyFrame) (log : Log) :
  exists new,
    run_log (PolarsAnalyst.analyze env self question lf log) = log ++ new
    /\ Forall (loop_event POLARS_SYSTEM_PROMPT) new.
Proof.
  unfold PolarsAnalyst.analyze.
  destruct (_get_schema_info lf) as [schema_info | e].
  - rewrite analyst_loop_eq. apply loop_log. apply analyst_body_log.
  - exists nil. simpl. rewrite List.app_nil_r. auto.
Qed.

Lemma viz_generate_log (env : Env) (self : VizGenerator.t) (question : string)
      (df : DataFrame) (log : Log) :
  exists new,
    run_log (VizGenerator.generate env self question df log) = log ++ new
    /\ Forall (loop_event VIZ_SYSTEM_PROMPT) new.
Proof.
  unfold VizGenerator.generate.
  rewrite viz_loop_eq. apply loop_log. apply viz_body_log.
Qed.

(** Every recorded iteration is the record of the body run on some element
    of the range, and the log of a run is the log its last iteration
    leaves. *)
Section LoopSteps.
Context {R P : Type}.
Variable body : Z -> list string -> string -> Log -> Step R P.
Variable after : string -> R.
Hypothesis body_grows :
  forall a h lc log, exists new, step_log (body a h lc log) = log ++ new.

Lemma loop_attempt_step (range : list Z) :
  forall hist lc log a,
    In a (run_attempts (for_loop body after range hist lc log)) ->
    exists x h' lc' log',
      In x range /\ step_attempt (body x h' lc' log') = a.
Proof.
  induction range as [| x rest IH]; intros hist lc log a Hin; simpl in Hin.
  - contradiction.
  - destruct (body x hist lc log) as [a0 h' lc' log' | a0 r log'] eqn:E; simpl in Hin.
    + destruct Hin as [<- | Hin].
      * exists x, hist, lc, log. rewrite E. split; [now left | reflexivity].
      * destruct (IH _ _ _ _ Hin) as (y & h2 & lc2 & log2 & Hy & Hs).
        exists y, h2, lc2, log2. split; [now right | exact Hs].
    + destruct Hin as [<- | []].
      exists x, hist, lc, log. rewrite E. split; [now left | reflexivity].
Qed.


End LoopSteps.


Lemma viz_step_success (env : Env) (self : VizGenerator.t) (base : string)
      (df : DataFrame)
      (x : Z) (h : list string) (lc : string) (log : Log)
      (code : string) (fig : PyVal) :
  at_outcome (step_attempt (VizGenerator.loop_body env self base df x h lc log))
  = Succeeded code fig ->
  exists llm response namespace,
    build_llm (settings env) (x >? VizGenerator._max_retries self) = Ok llm
    /\ step_log (VizGenerator.loop_body env self base df x h lc log)
       = log ++ EvInvoke llm VIZ_SYSTEM_PROMPT (VizGenerator.build_prompt base h)
                :: EvExec code :: nil
    /\ llm_invoke env log llm VIZ_SYSTEM_PROMPT (VizGenerator.build_prompt base h)
       = Ok response
    /\ code = _extract_tag response "code"
    /\ code <> ""%string
    /\ py_exec env
               (log ++ EvInvoke llm VIZ_SYSTEM_PROMPT
                                (VizGenerator.build_prompt base h) :: nil)
               code
               (<["df" := PyFrame df]> (<["go" := PyModule "plotly.graph_objects"]>
                (<["px" := PyModule "plotly.express"]> (<["pl" := PyModule "polars"]> ∅))))
       = Ok namespace
    /\ namespace !! "fig"%string = Some fig
    /\ fig <> PyNone.
Proof.
  unfold VizGenerator.loop_body.
  destruct (build_llm (settings env) (x >? VizGenerator._max_retries self))
    as [llm | e]; [| discriminate].
  unfold VizGenerator.try_block, py_exec.
  destruct (llm_invoke env log llm VIZ_SYSTEM_PROMPT _) as [text | e] eqn:Hinv.
  - destruct (String.eqb (_extract_tag text "code") "") eqn:Hc.
    + destruct (x >? _); discriminate.
    + destruct (py_run env _ _ _) as [[ns | e] | e] eqn:Hex.
      * unfold VizGenerator.check_fig.
        destruct (ns !! "fig"%string) as [v |] eqn:Hr; simpl;
          [destruct v |]; try (destruct (x >? _); discriminate);
          simpl; intros H; inversion H; subst;
          exists llm, text, ns; rewrite <- List.app_assoc;
          repeat split; auto;
          solve [now apply eqb_empty_false | now rewrite Hex | discriminate].
      * destruct (x >? _); discriminate.
      * discriminate.
  - destruct (x >? _); discriminate.
Qed.







(** X7.  Whatever the model, the interpreter and the data do, a run of
    either loop makes at most R+1 iterations, numbered 1, 2, ... without a
    gap, and adds at most R+1 model calls to the log (none when R+1 is not
    positive). *)
Theorem retry_loops_bounded (env : Env) (log : Log) :
  (forall (self : PolarsAnalyst.t) (question : string) (lf : LazyFrame),
      let run := PolarsAnalyst.analyze env self question lf log in
      map at_number (run_attempts run)
      = py_range 1 (1 + Z.of_nat (List.length (run_attempts run)))
      /\ (List.length (run_attempts run)
          <= Z.to_nat (PolarsAnalyst._max_retries self + 1))%nat
      /\ (List.length (invocations (run_log run))
          <= List.length (invocations log)
             + Z.to_nat (PolarsAnalyst._max_retries self + 1))%nat)
  /\ (forall (self : VizGenerator.t) (question : string) (df : DataFrame),
      let run := VizGenerator.generate env self question df log in
      map at_number (run_attempts run)
      = py_range 1 (1 + Z.of_nat (List.length (run_attempts run)))
      /\ (List.length (run_attempts run)
          <= Z.to_nat (VizGenerator._max_retries self + 1))%nat
      /\ (List.length (invocations (run_log run))
          <= List.length (invocations log)
             + Z.to_nat (VizGenerator._max_retries self + 1))%nat).
Proof.
  assert (Hcalls : forall (P : Type) c sys (l : list (Attempt P)),
             (List.length (calls_of c sys l) <= List.length l)%nat).
  { intros P c sys l. induction l as [| a l IH]; simpl; [lia |].
    rewrite length_app. unfold call_of at 1.
    destruct (at_outcome a), (build_llm c (at_use_fallback a)); simpl; lia. }
  assert (Hgen : forall (R P : Type) (sh : Shape R P) body after,
             (forall a h lc lg, body_ok sh a h lg (body a h lc lg)) ->
             forall lc lg,
               let run := for_loop body after (py_range 1 (sh_max_retries sh + 2)) nil lc lg in
               map at_number (run_attempts run)
               = py_range 1 (1 + Z.of_nat (List.length (run_attempts run)))
               /\ (List.length (run_attempts run) <= Z.to_nat (sh_max_retries sh + 1))%nat
               /\ (List.length (invocations (run_log run))
                   <= List.length (invocations lg) + Z.to_nat (sh_max_retries sh + 1))%nat).
  { intros R P sh body after Hb lc lg run. subst run.
    pose proof (loop_length sh body after Hb (py_range 1 (sh_max_retries sh + 2)) nil lc lg)
      as Hlen.
    split; [| split].
    - rewrite (loop_numbers sh body after Hb). now apply firstn_py_range.
    - rewrite py_range_length in Hlen.
      replace (sh_max_retries sh + 2 - 1) with (sh_max_retries sh + 1) in Hlen by lia.
      exact Hlen.
    - rewrite (loop_invocations sh body after Hb), length_app.
      rewrite py_range_length in Hlen.
      replace (sh_max_retries sh + 2 - 1) with (sh_max_retries sh + 1) in Hlen by lia.
      pose proof (Hcalls P (sh_config sh) (sh_system sh)
                    (run_attempts
                       (for_loop body after (py_range 1 (sh_max_retries sh + 2)) nil lc lg))).
      lia. }
  split.
  - intros self question lf. unfold PolarsAnalyst.analyze.
    destruct (_get_schema_info lf) as [schema_info | e].
    + rewrite analyst_loop_eq.
      exact (Hgen _ _ (analyst_shape env self question schema_info) _ _
               (analyst_body_ok env self question schema_info lf) "" log).
    + simpl. repeat split; lia.
  - intros self question df. unfold VizGenerator.generate. rewrite viz_loop_eq.
    exact (Hgen _ _ (viz_shape env self _) _ _ (viz_body_ok env self _ df) "" log).
Qed.

(** X8.  The record [PolarsAnalyst.analyze] returns, with a budget
    [R >= 0]: [attempts] is the number of iterations made, between 1 and
    R+1; a record with [success] true carries a table and no error; a
    record with [success] false carries no table, was returned after R+1
    iterations that all failed, and its [error] is the message of the
    exception of the last one. *)
Theorem analyze_result_record (env : Env) (self : PolarsAnalyst.t)
        (question : string) (lf : LazyFrame) (log : Log)
        (site : ReturnSite) (r : PolarsAnalyst.result) :
  0 <= PolarsAnalyst._max_retries self ->
  run_return (PolarsAnalyst.analyze env self question lf log) = Ok (site, r) ->
  let run := PolarsAnalyst.analyze env self question lf log in
  PolarsAnalyst.attempts r = Z.of_nat (List.length (run_attempts run))
  /\ 1 <= PolarsAnalyst.attempts r <= PolarsAnalyst._max_retries self + 1
  /\ if PolarsAnalyst.success r
     then (exists df, PolarsAnalyst.result_df r = Some df)
          /\ PolarsAnalyst.error r = None
     else PolarsAnalyst.result_df r = None
          /\ PolarsAnalyst.attempts r = PolarsAnalyst._max_retries self + 1
          /\ Forall is_failed (run_attempts run)
          /\ exists a kind e,
              List.last (run_attempts run) a = a
              /\ at_outcome a = Failed kind e
              /\ PolarsAnalyst.error r = Some (exn_msg e).
Proof.
  unfold PolarsAnalyst.analyze.
  destruct (_get_schema_info lf) as [schema_info | e0]; [| discriminate].
  rewrite analyst_loop_eq. intros Hm Hret.
  destruct (loop_returned (analyst_shape env self question schema_info) _ _
              (analyst_body_ok env self question schema_info lf) _ _ _ _ Hm Hret)
    as (Hn & [(_ & a & code & df & Hl & Ho & ->)
             | (_ & Hall & Hf & a & kind & e & lc & Hl & Ho & ->)]);
    cbn [sh_max_retries sh_success sh_exhausted analyst_shape viz_shape] in *;
    cbn [PolarsAnalyst.attempts PolarsAnalyst.success PolarsAnalyst.result_df
         PolarsAnalyst.error VizGenerator.attempts VizGenerator.success
         VizGenerator.figure VizGenerator.error].
  - split; [reflexivity |]. split; [exact Hn |]. split; [now exists df | reflexivity].
  - split; [reflexivity |]. split; [exact Hn |].
    split; [reflexivity |]. split; [exact Hall |]. split; [exact Hf |].
    exists a, kind, e. auto.
Qed.

Lemma analyze_result_record_witness :
  exists r,
    run_return (PolarsAnalyst.analyze Demo.careless PolarsAnalyst.__init__
                                      "Top 5 suppliers?" Demo.dataset nil)
    = Ok (InLoopExhausted, r)
    /\ PolarsAnalyst.attempts r = 4
    /\ PolarsAnalyst.result_df r = None.
Proof.
  eexists. split; [vm_compute; reflexivity |].
  pose proof (analyze_result_record Demo.careless PolarsAnalyst.__init__
                "Top 5 suppliers?" Demo.dataset nil InLoopExhausted _
                ltac:(simpl; lia) ltac:(vm_compute; reflexivity)) as H.
  cbv zeta in H. destruct H as (_ & _ & H). simpl in H.
  destruct H as (Hdf & Hn & _). split; [exact Hn | exact Hdf].
Defined.

(** X9.  The record [VizGenerator.generate] returns, with a budget
    [R >= 0]: [attempts] is the number of iterations made, between 1 and
    R+1; a record with [success] true carries no error; a record with
    [success] false has [None] as its figure, was returned after R+1
    iterations that all failed, and its [error] is the message of the
    exception of the last one.  (The function never raises after its first
    client was built, so this is every record it can return.) *)
Theorem viz_generate_result_record (env : Env) (self : VizGenerator.t)
        (question : string) (df : DataFrame) (log : Log)
        (site : ReturnSite) (r : VizGenerator.result) :
  0 <= VizGenerator._max_retries self ->
  run_return (VizGenerator.generate env self question df log) = Ok (site, r) ->
  let run := VizGenerator.generate env self question df log in
  VizGenerator.attempts r = Z.of_nat (List.length (run_attempts run))
  /\ 1 <= VizGenerator.attempts r <= VizGenerator._max_retries self + 1
  /\ if VizGenerator.success r
     then VizGenerator.error r = None
     else VizGenerator.figure r = PyNone
          /\ VizGenerator.attempts r = VizGenerator._max_retries self + 1
          /\ Forall is_failed (run_attempts run)
          /\ exists a kind e,
              List.last (run_attempts run) a = a
              /\ at_outcome a = Failed kind e
              /\ VizGenerator.error r = Some (exn_msg e).
Proof.
  unfold VizGenerator.generate. rewrite viz_loop_eq. intros Hm Hret.
  destruct (loop_returned (viz_shape env self _) _ _
              (viz_body_ok env self _ df) _ _ _ _ Hm Hret)
    as (Hn & [(_ & a & code & fig & Hl & Ho & ->)
             | (_ & Hall & Hf & a & kind & e & lc & Hl & Ho & ->)]);
    cbn [sh_max_retries sh_success sh_exhausted analyst_shape viz_shape] in *;
    cbn [PolarsAnalyst.attempts PolarsAnalyst.success PolarsAnalyst.result_df
         PolarsAnalyst.error VizGenerator.attempts VizGenerator.success
         VizGenerator.figure VizGenerator.error].
  - split; [reflexivity |]. split; [exact Hn |]. reflexivity.
  - split; [reflexivity |]. split; [exact Hn |].
    split; [reflexivity |]. split; [exact Hall |]. split; [exact Hf |].
    exists a, kind, e. auto.
Qed.

Lemma viz_generate_result_record_witness :
  exists r,
    run_return (VizGenerator.generate Demo.silent VizGenerator.__init__
                                      "Bar chart" Demo.table nil)
    = Ok (InLoopExhausted, r)
    /\ VizGenerator.attempts r = 4
    /\ VizGenerator.figure r = PyNone.
Proof.
  eexists. split; [vm_compute; reflexivity |].
  pose proof (viz_generate_result_record Demo.silent VizGenerator.__init__
                "Bar chart" Demo.table nil InLoopExhausted _
                ltac:(simpl; lia) ltac:(vm_compute; reflexivity)) as H.
  cbv zeta in H. destruct H as (_ & _ & H). simpl in H.
  destruct H as (Hfig & Hn & _). split; [exact Hn | exact Hfig].
Defined.



(** X11.  What the loops do to the outside world.  A run of
    [PolarsAnalyst.analyze] or of [VizGenerator.generate] only appends to
    the log, and what it appends is: model calls made with the system
    instruction of that generator, and executions of code that is not
    empty and has no whitespace at either end.  It runs no SQL query and
    calls the model with no other instruction. *)
Theorem retry_loops_effects (env : Env) (log : Log) :
  (forall (self : PolarsAnalyst.t) (question : string) (lf : LazyFrame),
      exists new,
        run_log (PolarsAnalyst.analyze env self question lf log) = log ++ new
        /\ Forall (loop_event POLARS_SYSTEM_PROMPT) new)
  /\ (forall (self : VizGenerator.t) (question : string) (df : DataFrame),
      exists new,
        run_log (VizGenerator.generate env self question df log) = log ++ new
        /\ Forall (loop_event VIZ_SYSTEM_PROMPT) new).
Proof.
  split; intros; [apply analyze_log | apply viz_generate_log].
Qed.

(** X12.  A code block that holds only whitespace counts as no code block.
    When the model's answer is ASCII text and its first [<code>] block is
    made of whitespace (space, tab, line feed and the other ASCII
    whitespace characters), the iteration of either loop ends in its
    [except] clause with the "no code block" error, and nothing is
    executed: the model call is all the iteration adds to the log. *)
Theorem blank_code_block_not_run (env : Env) (log : Log) (attempt : Z)
        (error_history : list string) (last_code : string) (llm : LLM)
        (response body : string) :
  isascii response = true ->
  search_tag response "code" = Some body ->
  all_space body = true ->
  (forall (self : PolarsAnalyst.t) (question schema_info : string) (lf : LazyFrame),
      let user_message :=
        PolarsAnalyst._build_prompt question schema_info error_history in
      let step :=
        PolarsAnalyst.loop_body env self question schema_info lf attempt
                                error_history last_code log in
      build_llm (settings env) (attempt >? PolarsAnalyst._max_retries self) = Ok llm ->
      llm_invoke env log llm POLARS_SYSTEM_PROMPT user_message = Ok response ->
      at_outcome (step_attempt step)
      = Failed ProtocolError
               (ValueError ("LLM did not return a <code> block. "
                            ++ "Raw response: " ++ Py.take 300 response)%string)
      /\ step_log step = log ++ EvInvoke llm POLARS_SYSTEM_PROMPT user_message :: nil)
  /\ (forall (self : VizGenerator.t) (base : string) (df : DataFrame),
      let prompt := VizGenerator.build_prompt base error_history in
      let step :=
        VizGenerator.loop_body env self base df attempt error_history last_code log in
      build_llm (settings env) (attempt >? VizGenerator._max_retries self) = Ok llm ->
      llm_invoke env log llm VIZ_SYSTEM_PROMPT prompt = Ok response ->
      at_outcome (step_attempt step)
      = Failed ProtocolError (ValueError "LLM returned no <code> block.")
      /\ step_log step = log ++ EvInvoke llm VIZ_SYSTEM_PROMPT prompt :: nil).
Proof.
  intros _ Hs Hb.
  assert (E : _extract_tag response "code" = ""%string).
  { unfold _extract_tag. rewrite Hs. now apply strip_all_space. }
  split.
  - intros self question schema_info lf user_message step Hllm Hinv.
    subst step user_message. unfold PolarsAnalyst.loop_body.
    rewrite Hllm. unfold PolarsAnalyst.try_block. rewrite Hinv, E. simpl.
    destruct (attempt >? _); split; reflexivity.
  - intros self base df prompt step Hllm Hinv.
    subst step prompt. unfold VizGenerator.loop_body.
    rewrite Hllm. unfold VizGenerator.try_block. rewrite Hinv, E. simpl.
    destruct (attempt >? _); split; reflexivity.
Qed.

Lemma blank_code_block_not_run_witness :
  let env := Demo.env_with Demo.config
               (Demo.scripted (Ok ("Here it is: <code>  " ++ Py.LF ++ " </code>")%string
                               :: nil)) in
  step_log (VizGenerator.loop_body env VizGenerator.__init__ "Chart request: bars"
                                   Demo.table 1 nil "" nil)
  = EvInvoke Demo.primary_llm VIZ_SYSTEM_PROMPT "Chart request: bars" :: nil.
Proof.
  intros env.
  refine (proj2 (proj2 (blank_code_block_not_run env nil 1 nil "" Demo.primary_llm
                          ("Here it is: <code>  " ++ Py.LF ++ " </code>")%string
                          ("  " ++ Py.LF ++ " ")%string _ _ _)
                       VizGenerator.__init__ "Chart request: bars"%string Demo.table _ _)).
  - vm_compute. reflexivity.
  - vm_compute. reflexivity.
  - vm_compute. reflexivity.
  - vm_compute. reflexivity.
  - vm_compute. reflexivity.
Defined.

(** ** The graph *)

Lemma walk_END (k : nat) (env : Env) (state : AgentState) (log : Log) :
  walk k env END state log = mkGraphRun (Ok state) nil log.
Proof. destruct k; reflexivity. Qed.

(** Every edge leads closer to [END]. *)
Lemma next_of_hops (n n' : Node) (state : AgentState) :
  n <> END -> next_of n state = Ok n' -> (hops n' < hops n)%nat.
Proof.
  intros Hn. destruct n; simpl; try contradiction.
  - intros H. inversion H; subst. simpl. lia.
  - destruct (_route_after_planner state) as [route | e]; [| discriminate].
    unfold after_planner_map.
    repeat (destruct (String.eqb route _);
            [intros H; inversion H; subst; simpl; lia |]).
    discriminate.
  - unfold after_executor_map.
    repeat (destruct (String.eqb (_route_after_executor state) _);
            [intros H; inversion H; subst; simpl; lia |]).
    discriminate.
  - intros H. inversion H; subst. simpl. lia.
  - intros H. inversion H; subst. simpl. lia.
  - intros H. inversion H; subst. simpl. lia.
Qed.

(** Every edge continues a path of the graph. *)
Lemma next_of_path (n n' : Node) (state : AgentState) (p : list Node) :
  n <> END -> next_of n state = Ok n' ->
  In p (paths_from n') -> In (n :: p) (paths_from n).
Proof.
  intros Hn. destruct n; simpl; try contradiction.
  - intros H. inversion H; subst. simpl. intuition (subst; auto 10).
  - destruct (_route_after_planner state) as [route | e]; [| discriminate].
    unfold after_planner_map.
    repeat (destruct (String.eqb route _);
            [intros H; inversion H; subst; simpl; intuition (subst; auto 10) |]).
    discriminate.
  - unfold after_executor_map.
    repeat (destruct (String.eqb (_route_after_executor state) _);
            [intros H; inversion H; subst; simpl; intuition (subst; auto 10) |]).
    discriminate.
  - intros H. inversion H; subst. simpl. intuition (subst; auto 10).
  - intros H. inversion H; subst. simpl. intuition (subst; auto 10).
  - intros H. inversion H; subst. simpl. intuition (subst; auto 10).
Qed.

Lemma paths_head (n : Node) :
  n <> END -> exists rest, In (n :: rest) (paths_from n).
Proof. destruct n; intros H; try contradiction; eexists; simpl; left; reflexivity. Qed.

Lemma Node_eq_dec (a b : Node) : {a = b} + {a <> b}.
Proof. decide equality. Defined.

(** Once the step budget covers the longest path, it has no influence. *)
Lemma walk_enough (env : Env) (steps : nat) :
  forall steps' n state log,
    (hops n <= steps)%nat -> (hops n <= steps')%nat ->
    walk steps env n state log = walk steps' env n state log.
Proof.
  induction steps as [| k IH]; intros steps' n state log H1 H2.
  - destruct n; simpl in H1; try lia. now rewrite !walk_END.
  - destruct (Node_eq_dec n END) as [-> | Hn]; [now rewrite !walk_END |].
    destruct steps' as [| k']; [destruct n; simpl in H2; try lia; contradiction |].
    rewrite !walk_step by assumption.
    destruct (node_fn env n state log) as [[u | e] log']; [| reflexivity].
    destruct (next_of n (apply_update state u)) as [n' | e] eqn:Hnext; [| reflexivity].
    pose proof (next_of_hops _ _ _ Hn Hnext) as Hh.
    rewrite (IH k' n' (apply_update state u) log') by lia. reflexivity.
Qed.

(** The nodes entered are the start of a path of the graph, and the whole
    of it when the run returns. *)
Lemma walk_paths (env : Env) (steps : nat) :
  forall n state log,
    (hops n <= steps)%nat ->
    exists more,
      In (gr_trace (walk steps env n state log) ++ more) (paths_from n)
      /\ forall final, gr_state (walk steps env n state log) = Ok final -> more = nil.
Proof.
  induction steps as [| k IH]; intros n state log Hh.
  - destruct n; simpl in Hh; try lia. exists nil. simpl. auto.
  - destruct (Node_eq_dec n END) as [-> | Hn].
    { rewrite walk_END. exists nil. simpl. auto. }
    rewrite walk_step by assumption.
    destruct (paths_head n Hn) as [rest Hrest].
    destruct (node_fn env n state log) as [[u | e] log'];
      [| exists rest; simpl; split; [exact Hrest | discriminate]].
    destruct (next_of n (apply_update state u)) as [n' | e] eqn:Hnext;
      [| exists rest; simpl; split; [exact Hrest | discriminate]].
    pose proof (next_of_hops _ _ _ Hn Hnext) as Hlt.
    destruct (IH n' (apply_update state u) log' ltac:(lia)) as (more & Hin & Hfin).
    exists more. simpl. split; [| exact Hfin].
    eapply next_of_path; eauto.
Qed.

(** X13.  The paths of the graph.  Whatever the nodes do, the nodes a run
    enters are the start of one of five paths (START and planner, then one
    of executor-viz_node-responder, executor-responder,
    sql_node-responder, viz_node-responder, responder), and the whole
    path when the run returns a state.  So a run enters at most five
    nodes and none of them twice, and the step limit is never what ends
    it: any limit of at least five steps gives the same run. *)
Theorem graph_paths (env : Env) (state : AgentState) (log : Log) (k : nat) :
  let run := invoke env state log in
  walk (5 + k) env START state log = run
  /\ (List.length (gr_trace run) <= 5)%nat
  /\ List.NoDup (gr_trace run)
  /\ exists more,
      In (gr_trace run ++ more) (paths_from START)
      /\ forall final, gr_state run = Ok final -> more = nil.
Proof.
  intros run. subst run. unfold invoke, recursion_limit.
  split; [apply walk_enough; simpl; lia |].
  destruct (walk_paths env 26 START state log ltac:(simpl; lia))
    as (more & Hin & Hfin).
  remember (walk 26 env START state log) as run eqn:Hrun. clear Hrun.
  assert (Hshape : (List.length (gr_trace run ++ more) <= 5)%nat
                   /\ List.NoDup (gr_trace run ++ more)).
  { unfold paths_from in Hin.
    destruct Hin as [H | [H | [H | [H | [H | []]]]]]; rewrite <- H;
      (split; [simpl; lia | repeat constructor; simpl; intuition discriminate]). }
  destruct Hshape as [Hlen Hnd].
  split; [rewrite length_app in Hlen; lia |].
  split; [eapply List.NoDup_app_remove_r; exact Hnd |].
  exists more. auto.
Qed.

Lemma graph_paths_witness :
  In (gr_trace (invoke Demo.tools_down
                       (initial_state "Bar chart of revenue by category"
                                      (Some Demo.dataset)) nil))
     (paths_from START).
Proof.
  destruct (graph_paths Demo.tools_down
              (initial_state "Bar chart of revenue by category" (Some Demo.dataset))
              nil 0) as (_ & _ & _ & more & Hin & Hfin).
  destruct (gr_state (invoke Demo.tools_down
                        (initial_state "Bar chart of revenue by category"
                                       (Some Demo.dataset)) nil))
    as [final | e] eqn:E.
  - rewrite (Hfin final eq_refl), List.app_nil_r in Hin. exact Hin.
  - vm_compute in E. discriminate.
Defined.

(** ** What the nodes add to the log *)

Lemma log_grows_nil (ok : Event -> Prop) (log : Log) :
  exists new, log = log ++ new /\ Forall ok new.
Proof. exists nil. rewrite List.app_nil_r. auto. Qed.

Lemma log_grows_one (ok : Event -> Prop) (log : Log) (ev : Event) :
  ok ev -> exists new, log ++ ev :: nil = log ++ new /\ Forall ok new.
Proof. intros H. exists (ev :: nil). auto. Qed.

Lemma log_grows_two (ok : Event -> Prop) (log : Log) (e1 e2 : Event) :
  ok e1 -> ok e2 ->
  exists new, (log ++ e1 :: nil) ++ e2 :: nil = log ++ new /\ Forall ok new.
Proof.
  intros H1 H2. exists (e1 :: e2 :: nil). rewrite <- List.app_assoc. auto.
Qed.

Lemma sql_generate_log (env : Env) (question : string) (lf : LazyFrame) (log : Log) :
  exists new,
    snd (SQLGenerator.generate env question lf log) = log ++ new
    /\ Forall (node_event sql_node) new.
Proof.
  unfold SQLGenerator.generate.
  destruct (build_llm (settings env) false) as [llm | e]; [| apply log_grows_nil].
  destruct (_get_schema_info lf) as [schema_info | e]; [| apply log_grows_nil].
  destruct (llm_invoke env log llm SQL_SYSTEM_PROMPT _) as [text | e];
    [| apply log_grows_one; reflexivity].
  destruct (String.eqb (_extract_tag text "sql") "") eqn:Hq;
    [apply log_grows_one; reflexivity |].
  destruct (collect lf) as [sc_data | e]; [| apply log_grows_one; reflexivity].
  assert (Hev : node_event sql_node (EvQuery (_extract_tag text "sql"))).
  { split; [now apply eqb_empty_false | apply extracted_is_stripped]. }
  destruct (duckdb_execute env _ _ sc_data);
    apply log_grows_two; solve [reflexivity | exact Hev].
Qed.

Lemma node_fn_log (env : Env) (n : Node) (state : AgentState) (log : Log) :
  exists new,
    snd (node_fn env n state log) = log ++ new
    /\ Forall (node_event n) new.
Proof.
  destruct n; simpl node_fn; try apply log_grows_nil.
  - unfold planner_node.
    destruct (build_llm (settings env) false) as [llm | e]; [| apply log_grows_nil].
    destruct (planner_schema_info (raw_dataframe state)) as [schema_info | e];
      [| apply log_grows_nil].
    destruct (llm_invoke env log llm PLANNER_PROMPT _) as [text | e];
      [| apply log_grows_one; simpl; eauto].
    destruct (parse_plan env (user_question state) text) as [v | e];
      [| apply log_grows_one; simpl; eauto].
    destruct v; apply log_grows_one; simpl; eauto.
  - unfold analysis_executor_node.
    destruct (raw_dataframe state) as [lf |]; [| apply log_grows_nil].
    destruct (analyze_log env PolarsAnalyst.__init__ (user_question state) lf log)
      as (new & Hn & Hok).
    exists new. split; [| exact Hok].
    destruct (run_return _) as [[site r] | e]; [| exact Hn].
    destruct (PolarsAnalyst.success r); exact Hn.
  - unfold sql_executor_node.
    destruct (raw_dataframe state) as [lf |]; [| apply log_grows_nil].
    destruct (sql_generate_log env (user_question state) lf log) as (new & Hn & Hok).
    exists new. split; [| exact Hok].
    destruct (SQLGenerator.generate env (user_question state) lf log)
      as [[r | e] log']; [| exact Hn].
    destruct (SQLGenerator.success r); exact Hn.
  - unfold viz_executor_node.
    assert (Hwith : forall q df,
               exists new,
                 snd (match run_return (VizGenerator.generate env VizGenerator.__init__
                                                              q df log) with
                      | Raise e =>
                          (Raise e,
                           run_log (VizGenerator.generate env VizGenerator.__init__
                                                          q df log))
                      | Ok (_, result) =>
                          if VizGenerator.success result then
                            (Ok (mkUpdate
                                   (("Chart created after "
                                     ++ Py.str_of_int (VizGenerator.attempts result)
                                     ++ " attempt(s).")%string :: nil)
                                   None (Some (JStr "responder")) None None None None
                                   (Some (VizGenerator.figure result)) (Some None) None),
                             run_log (VizGenerator.generate env VizGenerator.__init__
                                                            q df log))
                          else
                            (Ok (mkUpdate nil None (Some (JStr "responder")) None None
                                          None None None
                                          (Some (VizGenerator.error result)) None),
                             run_log (VizGenerator.generate env VizGenerator.__init__
                                                            q df log))
                      end) = log ++ new
                 /\ Forall (node_event viz_node) new).
    { intros q df.
      destruct (viz_generate_log env VizGenerator.__init__ q df log) as (new & Hn & Hok).
      exists new. split; [| exact Hok].
      destruct (run_return _) as [[site r] | e]; [| exact Hn].
      destruct (VizGenerator.success r); exact Hn. }
    destruct (analysis_result state) as [df |]; [apply Hwith |].
    destruct (raw_dataframe state) as [lf |]; [| apply log_grows_nil].
    destruct (collect lf) as [df | e]; [apply Hwith | apply log_grows_nil].
  - unfold responder_node.
    destruct (build_llm (settings env) false) as [llm | e]; [| apply log_grows_nil].
    destruct (llm_invoke env log llm RESPONDER_PROMPT _) as [text | e];
      apply log_grows_one; simpl; eauto.
Qed.

(** X14.  What each node does to the outside world.  A node only appends
    to the log, and what it appends is: for the planner and the responder,
    model calls with their own instruction; for the analysis and chart
    nodes, model calls with the instruction of their generator and
    executions of non-empty code; for the SQL node, model calls with the
    SQL instruction and queries whose text is not empty and has no
    whitespace at either end.  So only the SQL node queries the database,
    and only the analysis and chart nodes execute code. *)
Theorem node_effects (env : Env) (n : Node) (state : AgentState) (log : Log) :
  exists new,
    snd (node_fn env n state log) = log ++ new
    /\ Forall (node_event n) new.
Proof. apply node_fn_log. Qed.

(** What a run of the graph adds to the log comes from the nodes it
    entered. *)
Lemma walk_log (env : Env) (steps : nat) :
  forall n state log,
    exists new,
      gr_log (walk steps env n state log) = log ++ new
      /\ Forall (fun ev => exists m,
                     In m (gr_trace (walk steps env n state log)) /\ node_event m ev)
                new.
Proof.
  induction steps as [| k IH]; intros n state log.
  - destruct n; simpl; apply log_grows_nil.
  - destruct (Node_eq_dec n END) as [-> | Hn]; [simpl; apply log_grows_nil |].
    rewrite walk_step by assumption.
    destruct (node_fn_log env n state log) as (new & Hnew & Hok).
    assert (Hhere : Forall (fun ev => exists m, (n = m \/ False) /\ node_event m ev) new).
    { eapply List.Forall_impl; [| exact Hok]. intros ev Hev. exists n. auto. }
    destruct (node_fn env n state log) as [[u | e] log']; simpl in Hnew; subst log';
      [| exists new; simpl; auto].
    destruct (next_of n (apply_update state u)) as [n' | e];
      [| exists new; simpl; auto].
    destruct (IH n' (apply_update state u) (log ++ new)) as (new' & Hnew' & Hok').
    exists (new ++ new'). simpl. rewrite Hnew', <- List.app_assoc.
    split; [reflexivity |]. apply List.Forall_app. split.
    + eapply List.Forall_impl; [| exact Hok]. intros ev Hev. exists n. auto.
    + eapply List.Forall_impl; [| exact Hok'].
      intros ev (m & Hm & Hev). exists m. auto.
Qed.

(** X15.  What a run of the graph does to the outside world: it only
    appends to the log, and every event it appends is one that a node it
    entered may add.  A run that does not enter the SQL node runs no
    query; a run that enters neither the analysis nor the chart node
    executes no code. *)
Theorem graph_effects (env : Env) (state : AgentState) (log : Log) :
  let run := invoke env state log in
  exists new,
    gr_log run = log ++ new
    /\ Forall (fun ev => exists m, In m (gr_trace run) /\ node_event m ev) new
    /\ (~ In sql_node (gr_trace run) -> queries (gr_log run) = queries log)
    /\ (~ In executor (gr_trace run) -> ~ In viz_node (gr_trace run) ->
        executions (gr_log run) = executions log).
Proof.
  intros run. subst run. unfold invoke.
  destruct (walk_log env (S recursion_limit) START state log) as (new & Hnew & Hok).
  exists new. split; [exact Hnew |]. split; [exact Hok |].
  rewrite Hnew. unfold queries, executions. rewrite !List.filter_app.
  split.
  - intros Hno.
    assert (E : List.filter is_query new = nil); [| now rewrite E, List.app_nil_r].
    clear Hnew. induction Hok as [| ev new (m & Hm & Hev) _ IH]; [reflexivity |].
    simpl. rewrite IH.
    destruct ev as [llm s u | code | sql]; try reflexivity.
    exfalso. destruct m; simpl in Hev; try contradiction;
      try (destruct Hev as (? & ? & ?); discriminate).
  - intros Hno1 Hno2.
    assert (E : List.filter is_exec new = nil); [| now rewrite E, List.app_nil_r].
    clear Hnew. induction Hok as [| ev new (m & Hm & Hev) _ IH]; [reflexivity |].
    simpl. rewrite IH.
    destruct ev as [llm s u | code | sql]; try reflexivity.
    exfalso. destruct m; simpl in Hev; try contradiction;
      try (destruct Hev as (? & ? & ?); discriminate).
Qed.

Lemma graph_effects_witness :
  queries (gr_log (invoke Demo.rambling (initial_state "How many orders?" None) nil))
  = nil.
Proof.
  destruct (graph_effects Demo.rambling (initial_state "How many orders?" None) nil)
    as (new & _ & _ & Hq & _).
  apply Hq. vm_compute. intuition discriminate.
Defined.

(** ** The records of the generators and the updates of the nodes *)

Lemma analyze_record (env : Env) (self : PolarsAnalyst.t) (question : string)
      (lf : LazyFrame) (log : Log) (site : ReturnSite) (r : PolarsAnalyst.result) :
  run_return (PolarsAnalyst.analyze env self question lf log) = Ok (site, r) ->
  if PolarsAnalyst.success r
  then (exists df, PolarsAnalyst.result_df r = Some df) /\ PolarsAnalyst.error r = None
  else PolarsAnalyst.result_df r = None /\ exists msg, PolarsAnalyst.error r = Some msg.
Proof.
  unfold PolarsAnalyst.analyze.
  destruct (_get_schema_info lf) as [schema_info | e]; [| discriminate].
  rewrite analyst_loop_eq. intros H.
  match type of H with
  | run_return (for_loop ?b ?a ?rg _ _ _) = _ =>
      pose proof (loop_classify (analyst_shape env self question schema_info) b a
                    (analyst_body_ok env self question schema_info lf)
                    rg nil "" log) as Hc
  end.
  rewrite H in Hc. destruct site.
  - destruct Hc as (pre & a & code & df & _ & _ & _ & ->). simpl. eauto.
  - destruct Hc as (pre & a & kind & e & lc & _ & _ & _ & _ & ->). simpl. eauto.
  - destruct Hc as (_ & _ & _ & lc & ->). simpl. eauto.
Qed.

Lemma viz_record (env : Env) (self : VizGenerator.t) (question : string)
      (df : DataFrame) (log : Log) (site : ReturnSite) (r : VizGenerator.result) :
  run_return (VizGenerator.generate env self question df log) = Ok (site, r) ->
  if VizGenerator.success r
  then VizGenerator.figure r <> PyNone /\ VizGenerator.error r = None
  else VizGenerator.figure r = PyNone /\ exists msg, VizGenerator.error r = Some msg.
Proof.
  unfold VizGenerator.generate. rewrite viz_loop_eq. intros H.
  match type of H with
  | run_return (for_loop ?b ?a ?rg _ _ _) = _ =>
      pose proof (loop_classify
                    (viz_shape env self (VizGenerator.base_prompt question df)) b a
                    (viz_body_ok env self _ df) rg nil "" log) as Hc
  end.
  rewrite H in Hc. destruct site.
  - destruct Hc as (pre & a & code & fig & Hatt & _ & Ho & ->). simpl.
    split; [| reflexivity].
    assert (Hin : In a (run_attempts
                          (for_loop (VizGenerator.loop_body env self
                                       (VizGenerator.base_prompt question df) df)
                                    (fun last_code =>
                                       VizGenerator.mkResult false PyNone last_code
                                         (Some "Unexpected exit.")
                                         (VizGenerator._max_retries self + 1))
                                    (py_range 1 (VizGenerator._max_retries self + 2))
                                    nil "" log))).
    { rewrite Hatt. apply in_or_app. right. now left. }
    destruct (loop_attempt_step _ _ _ _ _ _ _ Hin) as (x & h & lc & log' & _ & <-).
    destruct (viz_step_success _ _ _ _ _ _ _ _ _ _ Ho)
      as (llm & response & ns & _ & _ & _ & _ & _ & _ & _ & Hfig).
    exact Hfig.
  - destruct Hc as (pre & a & kind & e & lc & _ & _ & _ & _ & ->). simpl. eauto.
  - destruct Hc as (_ & _ & _ & lc & ->). simpl. eauto.
Qed.



Lemma sql_record (env : Env) (question : string) (lf : LazyFrame)
      (log log' : Log) (r : SQLGenerator.result) :
  SQLGenerator.generate env question lf log = (Ok r, log') ->
  if SQLGenerator.success r
  then SQLGenerator.sql_query r <> ""%string
       /\ (exists df, SQLGenerator.result_df r = Some df)
       /\ SQLGenerator.error r = None
  else SQLGenerator.result_df r = None /\ exists msg, SQLGenerator.error r = Some msg.
Proof.
  unfold SQLGenerator.generate.
  destruct (build_llm (settings env) false) as [llm | e]; [| discriminate].
  destruct (_get_schema_info lf) as [schema_info | e]; [| discriminate].
  destruct (llm_invoke env log llm SQL_SYSTEM_PROMPT _) as [text | e];
    [| intros H; inversion H; subst; simpl; eauto].
  destruct (String.eqb (_extract_tag text "sql") "") eqn:Hq;
    [intros H; inversion H; subst; simpl; eauto |].
  destruct (collect lf) as [sc_data | e];
    [| intros H; inversion H; subst; simpl; eauto].
  destruct (duckdb_execute env _ _ sc_data) as [df | e];
    intros H; inversion H; subst; simpl; eauto.
  split; [now apply eqb_empty_false | eauto].
Qed.

(** Closing the two kinds of update. *)
Ltac failed_update :=
  split; [reflexivity |]; split; [reflexivity |];
  eexists; split; [reflexivity |]; simpl; repeat split.

Ltac passed_update :=
  split; [reflexivity |]; split; [reflexivity |];
  exists None; split; [reflexivity |]; split; [reflexivity |]; eauto 10.

(** The update of an executor node that returns. *)
Lemma executor_nodes_update (env : Env) (n : Node) (state : AgentState)
        (log log' : Log) (u : Update) :
  In n (executor :: sql_node :: viz_node :: nil) ->
  node_fn env n state log = (Ok u, log') ->
  u_plan u = None /\ u_final_answer u = None
  /\ exists err,
      u_error u = Some err
      /\ match err with
         | None =>
             List.length (u_messages u) = 1%nat
             /\ match n with
                | executor => exists df, u_analysis_result u = Some (Some df)
                | sql_node =>
                    (exists q, u_sql_query u = Some q /\ q <> ""%string)
                    /\ exists df, u_sql_result u = Some (Some df)
                | _ => exists fig, u_figure u = Some fig /\ fig <> PyNone
                end
         | Some _ =>
             u_messages u = nil /\ u_analysis_result u = None
             /\ u_sql_result u = None /\ u_figure u = None
         end.
Proof.
  intros [<- | [<- | [<- | []]]]; simpl node_fn.
  - unfold analysis_executor_node.
    destruct (raw_dataframe state) as [lf |];
      [| intros H; inversion H; subst; simpl; failed_update].
    destruct (run_return _) as [[site r] | e] eqn:Hrun; [| discriminate].
    pose proof (analyze_record _ _ _ _ _ _ _ Hrun) as Hrec.
    destruct (PolarsAnalyst.success r); intros H; inversion H; subst; simpl.
    + destruct Hrec as [[df Hdf] _]. rewrite Hdf. passed_update.
    + destruct Hrec as [_ [msg Hmsg]]. rewrite Hmsg. failed_update.
  - unfold sql_executor_node.
    destruct (raw_dataframe state) as [lf |];
      [| intros H; inversion H; subst; simpl; failed_update].
    destruct (SQLGenerator.generate env (user_question state) lf log)
      as [[r | e] lg] eqn:Hgen; [| discriminate].
    pose proof (sql_record _ _ _ _ _ _ Hgen) as Hrec.
    destruct (SQLGenerator.success r); intros H; inversion H; subst; simpl.
    + destruct Hrec as (Hq & [df Hdf] & _). rewrite Hdf. passed_update.
    + destruct Hrec as [_ [msg Hmsg]]. rewrite Hmsg. failed_update.
  - unfold viz_executor_node.
    assert (Hwith : forall q df,
               match run_return (VizGenerator.generate env VizGenerator.__init__
                                                       q df log) with
               | Raise e =>
                   (Raise e,
                    run_log (VizGenerator.generate env VizGenerator.__init__ q df log))
               | Ok (_, result) =>
                   if VizGenerator.success result then
                     (Ok (mkUpdate
                            (("Chart created after "
                              ++ Py.str_of_int (VizGenerator.attempts result)
                              ++ " attempt(s).")%string :: nil)
                            None (Some (JStr "responder")) None None None None
                            (Some (VizGenerator.figure result)) (Some None) None),
                      run_log (VizGenerator.generate env VizGenerator.__init__ q df log))
                   else
                     (Ok (mkUpdate nil None (Some (JStr "responder")) None None
                                   None None None
                                   (Some (VizGenerator.error result)) None),
                      run_log (VizGenerator.generate env VizGenerator.__init__ q df log))
               end = (Ok u, log') ->
               u_plan u = None /\ u_final_answer u = None
               /\ exists err,
                   u_error u = Some err
                   /\ match err with
                      | None =>
                          List.length (u_messages u) = 1%nat
                          /\ exists fig, u_figure u = Some fig /\ fig <> PyNone
                      | Some _ =>
                          u_messages u = nil /\ u_analysis_result u = None
                          /\ u_sql_result u = None /\ u_figure u = None
                      end).
    { intros q df.
      destruct (run_return _) as [[site r] | e] eqn:Hrun; [| discriminate].
      pose proof (viz_record _ _ _ _ _ _ _ Hrun) as Hrec.
      destruct (VizGenerator.success r); intros H; inversion H; subst; simpl.
      - destruct Hrec as [Hfig _]. passed_update.
      - destruct Hrec as [_ [msg Hmsg]]. rewrite Hmsg. failed_update. }
    destruct (analysis_result state) as [df |]; [apply Hwith |].
    destruct (raw_dataframe state) as [lf |];
      [| intros H; inversion H; subst; simpl; failed_update].
    destruct (collect lf) as [df | e]; [apply Hwith | discriminate].
Qed.

(** X18.  The update of an executor node.  When the analysis, SQL or chart
    node returns, its update always sets [error], and never [plan] or
    [final_answer].  Either [error] is set to [None], and then the update
    carries one message and the payload of its generator (a table for the
    analysis, a non-empty query and its table for SQL, a figure that is not
    [None] for the chart); or [error] is set to a text, and then the update
    carries no message, no table and no figure. *)
Theorem executor_update_protocol (env : Env) (n : Node) (state : AgentState)
        (log log' : Log) (u : Update) :
  In n (executor :: sql_node :: viz_node :: nil) ->
  node_fn env n state log = (Ok u, log') ->
  u_plan u = None /\ u_final_answer u = None
  /\ exists err,
      u_error u = Some err
      /\ match err with
         | None =>
             List.length (u_messages u) = 1%nat
             /\ match n with
                | executor => exists df, u_analysis_result u = Some (Some df)
                | sql_node =>
                    (exists q, u_sql_query u = Some q /\ q <> ""%string)
                    /\ exists df, u_sql_result u = Some (Some df)
                | _ => exists fig, u_figure u = Some fig /\ fig <> PyNone
                end
         | Some _ =>
             u_messages u = nil /\ u_analysis_result u = None
             /\ u_sql_result u = None /\ u_figure u = None
         end.
Proof. apply executor_nodes_update. Qed.

Lemma executor_update_protocol_witness :
  exists u log',
    node_fn Demo.good_sql sql_node
            (initial_state "All delayed orders" (Some Demo.dataset)) nil
    = (Ok u, log')
    /\ u_plan u = None /\ u_final_answer u = None.
Proof.
  eexists _, _. split; [vm_compute; reflexivity |].
  destruct (executor_update_protocol Demo.good_sql sql_node
              (initial_state "All delayed orders" (Some Demo.dataset)) nil _ _
              ltac:(simpl; auto) ltac:(vm_compute; reflexivity)) as (Hp & Hf & _).
  split; [exact Hp | exact Hf].
Defined.

(** ** The planner and the responder *)

(** X19.  The update of the planner.  When [planner_node] returns, it has
    called the model exactly once, with the planner's instruction; the
    update sets [plan], [next_node] and one message, and nothing else; and
    [next_node] is the plan's ["routing"] value (["executor"] when the plan
    has none), except that ["multi"] is replaced by ["executor"]: the
    routing signal is never ["multi"]. *)
Theorem planner_update (env : Env) (state : AgentState) (log log' : Log)
        (u : Update) :
  planner_node env state log = (Ok u, log') ->
  exists d llm user_prompt message,
    log' = log ++ EvInvoke llm PLANNER_PROMPT user_prompt :: nil
    /\ u = mkUpdate (message :: nil) (Some d)
                    (Some (if eq_str (dict_get d "routing" (JStr "executor")) "multi"
                           then JStr "executor"
                           else dict_get d "routing" (JStr "executor")))
                    None None None None None None None
    /\ u_next_node u <> Some (JStr "multi").
Proof.
  unfold planner_node.
  destruct (build_llm (settings env) false) as [llm | e]; [| discriminate].
  destruct (planner_schema_info (raw_dataframe state)) as [schema_info | e];
    [| discriminate].
  destruct (llm_invoke env log llm PLANNER_PROMPT _) as [text | e]; [| discriminate].
  destruct (parse_plan env (user_question state) text) as [v | e]; [| discriminate].
  destruct v; try discriminate.
  intros H. inversion H; subst. eexists _, _, _, _.
  split; [reflexivity |]. split; [reflexivity |]. simpl.
  destruct (dict_get d "routing" (JStr "executor")) as [| b | z | x | route | l | d'];
    simpl; try discriminate.
  destruct (String.eqb_spec route "multi") as [-> | Hne]; [discriminate |].
  intros E. inversion E. contradiction.
Qed.

Lemma planner_update_witness :
  exists u log',
    planner_node Demo.tools_down
                 (initial_state "Bar chart of revenue by category" (Some Demo.dataset)) nil
    = (Ok u, log')
    /\ u_next_node u = Some (JStr "executor").
Proof.
  eexists _, _. split; [vm_compute; reflexivity |].
  destruct (planner_update Demo.tools_down
              (initial_state "Bar chart of revenue by category" (Some Demo.dataset))
              nil _ _ ltac:(vm_compute; reflexivity))
    as (d & llm & up & msg & _ & Hu & _).
  inversion Hu; subst. vm_compute. reflexivity.
Defined.

(** X20.  What the planner tells the model.  Whenever [planner_node] gets
    as far as calling the model, its message is ["User Question: "]
    followed by the question and a schema text; the schema text is empty
    when no dataset is loaded, and otherwise holds a line
    ["  - column: dtype"] for every column of the dataset.  No row of the
    dataset is read. *)
Theorem planner_prompt_contents (env : Env) (state : AgentState) (log : Log) :
  snd (planner_node env state log) = log
  \/ exists llm schema_info,
      snd (planner_node env state log)
      = log ++ EvInvoke llm PLANNER_PROMPT
                        ("User Question: " ++ user_question state ++ schema_info)%string
               :: nil
      /\ match raw_dataframe state with
         | None => schema_info = ""%string
         | Some lf =>
             exists schema,
               collect_schema lf = Ok schema
               /\ Forall (fun cd => Py.contains ("  - " ++ fst cd ++ ": " ++ snd cd)%string
                                                schema_info = true)
                         schema
         end.
Proof.
  unfold planner_node.
  destruct (build_llm (settings env) false) as [llm | e]; [| now left].
  destruct (planner_schema_info (raw_dataframe state)) as [schema_info | e] eqn:Hs;
    [| now left].
  right. exists llm, schema_info. split.
  - destruct (llm_invoke env log llm PLANNER_PROMPT _) as [text | e]; [| reflexivity].
    destruct (parse_plan env (user_question state) text) as [v | e]; [| reflexivity].
    destruct v; reflexivity.
  - unfold planner_schema_info in Hs.
    destruct (raw_dataframe state) as [lf |]; [| now inversion Hs].
    destruct (collect_schema lf) as [schema | e]; [| discriminate].
    inversion Hs; subst. exists schema. split; [reflexivity |].
    apply List.Forall_forall. intros cd Hin.
    apply contains_app_r, contains_app_r, contains_app_r.
    apply contains_join. unfold schema_lines.
    apply (in_map (fun cd => "  - " ++ fst cd ++ ": " ++ snd cd)%string). exact Hin.
Qed.

(** X21.  The responder.  Whenever its client can be built,
    [responder_node] calls the model exactly once, with the responder's
    instruction and a context that starts with ["User Question: "] and the
    question; the context holds the error text when [error] is a non-empty
    text, and the query when [sql_query] is not empty.  When the call
    returns, the update sets [final_answer] to the model's answer, adds it
    as the one message, and sets the routing signal to ["end"]; when it
    raises, the node raises. *)
Theorem responder_reports (env : Env) (state : AgentState) (log : Log) (llm : LLM) :
  build_llm (settings env) false = Ok llm ->
  exists context,
    snd (responder_node env state log)
    = log ++ EvInvoke llm RESPONDER_PROMPT context :: nil
    /\ Py.startswith context ("User Question: " ++ user_question state) = true
    /\ (forall e, error state = Some e -> e <> ""%string ->
                  Py.contains ("Error: " ++ e) context = true)
    /\ (sql_query state <> ""%string ->
        Py.contains ("SQL Query:" ++ Py.LF ++ sql_query state) context = true)
    /\ fst (responder_node env state log)
       = match llm_invoke env log llm RESPONDER_PROMPT context with
         | Ok answer =>
             Ok (mkUpdate (answer :: nil) None (Some (JStr "end"))
                          None None None None None None (Some answer))
         | Raise e => Raise e
         end.
Proof.
  intros Hllm. unfold responder_node. rewrite Hllm.
  exists (Py.join (Py.LF ++ Py.LF)%string (context_parts state)).
  split; [destruct (llm_invoke env log llm RESPONDER_PROMPT _); reflexivity |].
  split.
  { unfold context_parts. simpl app.
    match goal with
    | |- Py.startswith (Py.join ?sep (?x :: ?rest)) _ = true =>
        destruct rest as [| y rest'];
          [ simpl Py.join; rewrite <- (str_app_nil_r x) at 1
          | change (Py.join sep (x :: y :: rest'))
              with (x ++ sep ++ Py.join sep (y :: rest'))%string ];
          apply startswith_app
    end. }
  split.
  { intros e He Hne. apply contains_join. unfold context_parts. rewrite He.
    destruct (String.eqb_spec e "") as [-> | _]; [contradiction |].
    simpl. right. now left. }
  split.
  { intros Hne. apply contains_join. unfold context_parts.
    destruct (String.eqb_spec (sql_query state) "") as [E | _]; [contradiction |].
    apply in_or_app. right. apply in_or_app. right. apply in_or_app. right.
    apply in_or_app. left. now left. }
  destruct (llm_invoke env log llm RESPONDER_PROMPT _); reflexivity.
Qed.

Lemma responder_reports_witness :
  exists context,
    snd (responder_node Demo.tools_down
           (initial_state "How many orders?" None) nil)
    = EvInvoke Demo.primary_llm RESPONDER_PROMPT context :: nil
    /\ Py.startswith context "User Question: How many orders?" = true.
Proof.
  destruct (responder_reports Demo.tools_down (initial_state "How many orders?" None)
              nil Demo.primary_llm ltac:(vm_compute; reflexivity))
    as (context & Hlog & Hstart & _).
  exists context. split; [exact Hlog | exact Hstart].
Defined.

(** ** The edges *)

(** X22.  The only way an edge can fail.  The path maps of [build_graph]
    cover everything the two routing functions return, so no lookup in
    them fails; following an edge raises only after the planner, with a
    [TypeError], when the routing signal is a list or an object (it cannot
    be looked up in a set).  Any other routing signal that is not one of
    the four node names leads to the analysis node. *)
Theorem edge_failure (n : Node) (state : AgentState) :
  match next_of n state with
  | Raise e =>
      n = planner /\ exn_type e = "TypeError"%string
      /\ ((exists l, next_node state = JList l) \/ (exists d, next_node state = JDict d))
  | Ok n' =>
      n = planner ->
      n' = executor
      \/ (n' = sql_node /\ next_node state = JStr "sql_node")
      \/ (n' = viz_node /\ next_node state = JStr "viz_node")
      \/ (n' = responder /\ next_node state = JStr "responder")
  end.
Proof.
  destruct n; simpl; try discriminate.
  - unfold _route_after_planner.
    destruct (next_node state) as [| b | z | x | route | l | d]; simpl; auto.
    + destruct (String.eqb_spec route "executor") as [-> | _]; [simpl; auto |].
      destruct (String.eqb_spec route "sql_node") as [-> | _]; [simpl; auto |].
      destruct (String.eqb_spec route "viz_node") as [-> | _]; [simpl; auto |].
      destruct (String.eqb_spec route "responder") as [-> | _]; simpl; auto 6.
    + repeat split; eauto.
    + repeat split; eauto.
  - unfold after_executor_map, _route_after_executor.
    destruct (eq_str (next_node state) "viz_node"); simpl; discriminate.
Qed.

Lemma edge_failure_witness :
  next_of planner
          (apply_update (initial_state "How many orders?" None)
             (mkUpdate nil None (Some (JStr "sql_node")) None None None None None
                       None None))
  = Ok sql_node.
Proof.
  pose proof (edge_failure planner
                (apply_update (initial_state "How many orders?" None)
                   (mkUpdate nil None (Some (JStr "sql_node")) None None None None None
                             None None))) as H.
  destruct (next_of planner _) as [n' | e] eqn:E.
  - destruct (H eq_refl) as [-> | [[-> _] | [[_ Hv] | [_ Hr]]]];
      [vm_compute in E; discriminate | reflexivity
      | vm_compute in Hv; discriminate | vm_compute in Hr; discriminate].
  - vm_compute in E. discriminate.
Defined.

(** ** The chart node and the dataset *)

(** X23.  The chart is drawn from the analysis result when there is one:
    with a table in [analysis_result], what [viz_executor_node] returns and
    logs does not depend on the dataset handle, which is not materialized
    (so the node cannot fail on it). *)
Theorem viz_uses_analysis_result (env : Env) (state : AgentState) (log : Log)
        (df : DataFrame) (lf : option LazyFrame) :
  analysis_result state = Some df ->
  viz_executor_node env (with_raw_dataframe state lf) log
  = viz_executor_node env state log.
Proof.
  intros H. unfold viz_executor_node, with_raw_dataframe. simpl. now rewrite H.
Qed.

Lemma viz_uses_analysis_result_witness :
  let state := apply_update (Demo.planned None)
                 (mkUpdate nil None None (Some (Some Demo.table)) None None None None
                           None None) in
  viz_executor_node Demo.second_time
    (with_raw_dataframe state
       (Some (mkLazyFrame (Raise (mkExn "ComputeError" "file not found"))
                          (Raise (mkExn "ComputeError" "file not found")))))
    nil
  = viz_executor_node Demo.second_time state nil.
Proof.
  intros state.
  apply (viz_uses_analysis_result Demo.second_time state nil Demo.table). reflexivity.
Defined.

(** ** A run without a dataset *)

Lemma responder_walk (env : Env) (k : nat) (state : AgentState) (log : Log) :
  gr_trace (walk (S k) env responder state log) = responder :: nil
  /\ exists new,
      gr_log (walk (S k) env responder state log) = log ++ new
      /\ Forall (node_event responder) new
      /\ (List.length new <= 1)%nat
      /\ forall final,
          gr_state (walk (S k) env responder state log) = Ok final ->
          analysis_result final = analysis_result state
          /\ sql_result final = sql_result state
          /\ figure final = figure state
          /\ generated_code final = generated_code state
          /\ sql_query final = sql_query state
          /\ error final = error state.
Proof.
  rewrite walk_step by discriminate. cbn [node_fn]. unfold responder_node.
  destruct (build_llm (settings env) false) as [llm | e].
  - destruct (llm_invoke env log llm RESPONDER_PROMPT _) as [text | e].
    + cbn [next_of]. rewrite walk_END. simpl. split; [reflexivity |].
      eexists (_ :: nil). split; [reflexivity |].
      split; [constructor; [simpl; eauto | constructor] |].
      split; [simpl; lia |].
      intros final H. inversion H; subst. simpl. auto 10.
    + simpl. split; [reflexivity |].
      eexists (_ :: nil). split; [reflexivity |].
      split; [constructor; [simpl; eauto | constructor] |].
      split; [simpl; lia | discriminate].
  - simpl. split; [reflexivity |].
    exists nil. rewrite List.app_nil_r. split; [reflexivity |].
    split; [constructor |]. split; [simpl; lia | discriminate].
Qed.

(** Without a dataset and without an analysis result, each executor node
    returns at once with its own message. *)
Lemma no_data_node (env : Env) (n : Node) (state : AgentState) (log : Log) :
  raw_dataframe state = None ->
  analysis_result state = None ->
  In n (executor :: sql_node :: viz_node :: nil) ->
  exists msg,
    node_fn env n state log
    = (Ok (mkUpdate nil None (Some (JStr "responder")) None None None None None
                    (Some (Some msg)) None),
       log)
    /\ In msg ("No dataset loaded. Please upload a CSV file first."%string
               :: "No dataset loaded."%string
               :: "No data available for visualization."%string :: nil).
Proof.
  intros Hd Ha [<- | [<- | [<- | []]]]; simpl node_fn.
  - unfold analysis_executor_node. rewrite Hd. eexists. split; [reflexivity |].
    simpl. auto.
  - unfold sql_executor_node. rewrite Hd. eexists. split; [reflexivity |].
    simpl. auto.
  - unfold viz_executor_node. rewrite Ha, Hd. eexists. split; [reflexivity |].
    simpl. auto.
Qed.

Lemma no_data_walk (env : Env) (k : nat) (n : Node) (state : AgentState) (log : Log) :
  raw_dataframe state = None ->
  analysis_result state = None ->
  In n (executor :: sql_node :: viz_node :: nil) ->
  gr_trace (walk (S (S k)) env n state log) = n :: responder :: nil
  /\ exists new,
      gr_log (walk (S (S k)) env n state log) = log ++ new
      /\ Forall (node_event responder) new
      /\ (List.length new <= 1)%nat
      /\ forall final,
          gr_state (walk (S (S k)) env n state log) = Ok final ->
          analysis_result final = None
          /\ sql_result final = sql_result state
          /\ figure final = figure state
          /\ generated_code final = generated_code state
          /\ sql_query final = sql_query state
          /\ exists msg,
              error final = Some msg
              /\ In msg ("No dataset loaded. Please upload a CSV file first."%string
                         :: "No dataset loaded."%string
                         :: "No data available for visualization."%string :: nil).
Proof.
  intros Hd Ha Hn.
  destruct (no_data_node env n state log Hd Ha Hn) as (msg & Hf & Hmsg).
  assert (Hne : n <> END) by (destruct Hn as [<- | [<- | [<- | []]]]; discriminate).
  rewrite walk_step by assumption. rewrite Hf.
  set (state' := apply_update state _).
  assert (Hnext : next_of n state' = Ok responder).
  { destruct Hn as [<- | [<- | [<- | []]]]; reflexivity. }
  rewrite Hnext.
  destruct (responder_walk env k state' log) as (Ht & new & Hlog & Hok & Hlen & Hfin).
  cbn [gr_trace gr_log gr_state]. rewrite Ht. split; [reflexivity |].
  exists new. split; [exact Hlog |]. split; [exact Hok |]. split; [exact Hlen |].
  intros final H. destruct (Hfin final H) as (H1 & H2 & H3 & H4 & H5 & H6).
  rewrite H1, H2, H3, H4, H5, H6. subst state'. simpl.
  repeat split; auto. exists msg. auto.
Qed.

Lemma planner_shape (env : Env) (state : AgentState) (log log' : Log) (u : Update) :
  planner_node env state log = (Ok u, log') ->
  exists d nn message llm user_prompt,
    u = mkUpdate (message :: nil) (Some d) (Some nn) None None None None None None None
    /\ log' = log ++ EvInvoke llm PLANNER_PROMPT user_prompt :: nil.
Proof.
  unfold planner_node.
  destruct (build_llm (settings env) false) as [llm | e]; [| discriminate].
  destruct (planner_schema_info (raw_dataframe state)) as [schema_info | e];
    [| discriminate].
  destruct (llm_invoke env log llm PLANNER_PROMPT _) as [text | e]; [| discriminate].
  destruct (parse_plan env (user_question state) text) as [v | e]; [| discriminate].
  destruct v; try discriminate.
  intros H. inversion H; subst. eexists _, _, _, _, _. split; reflexivity.
Qed.

Lemma planner_log (env : Env) (state : AgentState) (log : Log) :
  exists new,
    snd (planner_node env state log) = log ++ new
    /\ Forall (node_event planner) new
    /\ (List.length new <= 1)%nat.
Proof.
  assert (Hone : forall llm user,
             exists new,
               log ++ EvInvoke llm PLANNER_PROMPT user :: nil = log ++ new
               /\ Forall (node_event planner) new /\ (List.length new <= 1)%nat).
  { intros llm user. eexists (_ :: nil). split; [reflexivity |].
    split; [constructor; [simpl; eauto | constructor] | simpl; lia]. }
  assert (Hnil : exists new,
             log = log ++ new
             /\ Forall (node_event planner) new /\ (List.length new <= 1)%nat).
  { exists nil. rewrite List.app_nil_r. repeat split; [constructor | simpl; lia]. }
  unfold planner_node.
  destruct (build_llm (settings env) false) as [llm | e]; [| exact Hnil].
  destruct (planner_schema_info (raw_dataframe state)) as [schema_info | e];
    [| exact Hnil].
  destruct (llm_invoke env log llm PLANNER_PROMPT _) as [text | e]; [| apply Hone].
  destruct (parse_plan env (user_question state) text) as [v | e]; [| apply Hone].
  destruct v; apply Hone.
Qed.

Lemma after_planner_nodes (state : AgentState) (n : Node) :
  next_of planner state = Ok n ->
  n = responder \/ In n (executor :: sql_node :: viz_node :: nil).
Proof.
  simpl. destruct (_route_after_planner state) as [route | e]; [| discriminate].
  unfold after_planner_map.
  repeat (destruct (String.eqb route _);
          [intros H; inversion H; subst; simpl; auto |]).
  discriminate.
Qed.

(** The run without a dataset, for any step budget of at least four. *)
Lemma no_dataset_walk (env : Env) (k : nat) (state : AgentState) (log : Log) :
  raw_dataframe state = None ->
  analysis_result state = None ->
  let run := walk (S (S (S (S k)))) env START state log in
  exists new,
    gr_log run = log ++ new
    /\ Forall framing_event new
    /\ (List.length new <= 2)%nat
    /\ forall final,
        gr_state run = Ok final ->
        analysis_result final = None
        /\ sql_result final = sql_result state
        /\ figure final = figure state
        /\ generated_code final = generated_code state
        /\ sql_query final = sql_query state
        /\ ((exists msg,
               error final = Some msg
               /\ In msg ("No dataset loaded. Please upload a CSV file first."%string
                          :: "No dataset loaded."%string
                          :: "No data available for visualization."%string :: nil))
            \/ (gr_trace run = START :: planner :: responder :: nil
                /\ error final = error state)).
Proof.
  intros Hd Ha run. subst run.
  rewrite walk_step by discriminate. cbn [node_fn next_of].
  set (s0 := apply_update state no_update).
  assert (E0 : raw_dataframe s0 = None /\ analysis_result s0 = None
               /\ sql_result s0 = sql_result state /\ figure s0 = figure state
               /\ generated_code s0 = generated_code state
               /\ sql_query s0 = sql_query state /\ error s0 = error state).
  { subst s0. simpl. auto 10. }
  clearbody s0. destruct E0 as (Hd0 & Ha0 & E1 & E2 & E3 & E4 & E5).
  rewrite <- E1, <- E2, <- E3, <- E4, <- E5. clear E1 E2 E3 E4 E5 Hd Ha state.
  cbn [gr_log gr_state gr_trace].
  rewrite walk_step by discriminate. cbn [node_fn].
  destruct (planner_log env s0 log) as (new1 & Hl1 & Hok1 & Hlen1).
  assert (Hframe1 : Forall framing_event new1).
  { eapply List.Forall_impl; [| exact Hok1]. intros ev H. now left. }
  destruct (planner_node env s0 log) as [[u | e] log1] eqn:Hp; simpl in Hl1; subst log1;
    [| exists new1; cbn [gr_log gr_state];
       split; [reflexivity |]; split; [exact Hframe1 |];
       split; [lia | discriminate]].
  destruct (planner_shape _ _ _ _ _ Hp) as (d & nn & msg & llm & up & -> & _).
  set (s1 := apply_update s0 _).
  assert (E1 : raw_dataframe s1 = None /\ analysis_result s1 = None
               /\ sql_result s1 = sql_result s0 /\ figure s1 = figure s0
               /\ generated_code s1 = generated_code s0
               /\ sql_query s1 = sql_query s0 /\ error s1 = error s0).
  { subst s1. simpl. auto 10. }
  clearbody s1. destruct E1 as (Hd1 & Ha1 & F1 & F2 & F3 & F4 & F5).
  rewrite <- F1, <- F2, <- F3, <- F4, <- F5.
  destruct (next_of planner s1) as [n' | e] eqn:Hnext;
    [| exists new1; cbn [gr_log gr_state];
       split; [reflexivity |]; split; [exact Hframe1 |];
       split; [lia | discriminate]].
  cbn [gr_log gr_state gr_trace].
  destruct (after_planner_nodes _ _ Hnext) as [-> | Hin].
  - destruct (responder_walk env (S k) s1 (log ++ new1))
      as (Ht & new2 & Hl2 & Hok2 & Hlen2 & Hfin).
    exists (new1 ++ new2). rewrite Hl2, Ht, <- List.app_assoc.
    split; [reflexivity |]. split.
    { apply List.Forall_app. split; [exact Hframe1 |].
      eapply List.Forall_impl; [| exact Hok2]. intros ev H. now right. }
    split; [rewrite length_app; lia |].
    intros final H. destruct (Hfin final H) as (H1 & H2 & H3 & H4 & H5 & H6).
    rewrite H1, H2, H3, H4, H5, H6. repeat split; auto.
  - destruct (no_data_walk env k n' s1 (log ++ new1) Hd1 Ha1 Hin)
      as (Ht & new2 & Hl2 & Hok2 & Hlen2 & Hfin).
    exists (new1 ++ new2). rewrite Hl2, <- List.app_assoc.
    split; [reflexivity |]. split.
    { apply List.Forall_app. split; [exact Hframe1 |].
      eapply List.Forall_impl; [| exact Hok2]. intros ev H. now right. }
    split; [rewrite length_app; lia |].
    intros final H. destruct (Hfin final H) as (H1 & H2 & H3 & H4 & H5 & H6).
    rewrite H1, H2, H3, H4, H5. repeat split; auto.
Qed.


(** X24.  A run without a dataset.  Started on a state with no dataset
    and no analysis result, a run of the graph makes at most two model
    calls, the planner's and the responder's, and nothing else: no code is
    generated or executed and no query is run.  When it returns, the
    results are untouched ([analysis_result] is still [None]; [sql_result],
    [figure], [generated_code] and [sql_query] are what they were), and
    either [error] is one of the three "no dataset" messages, or the
    planner routed straight to the responder. *)
Theorem no_dataset_run (env : Env) (state : AgentState) (log : Log) :
  raw_dataframe state = None ->
  analysis_result state = None ->
  let run := invoke env state log in
  exists new,
    gr_log run = log ++ new
    /\ Forall framing_event new
    /\ (List.length new <= 2)%nat
    /\ forall final,
        gr_state run = Ok final ->
        analysis_result final = None
        /\ sql_result final = sql_result state
        /\ figure final = figure state
        /\ generated_code final = generated_code state
        /\ sql_query final = sql_query state
        /\ ((exists msg,
               error final = Some msg
               /\ In msg ("No dataset loaded. Please upload a CSV file first."%string
                          :: "No dataset loaded."%string
                          :: "No data available for visualization."%string :: nil))
            \/ (gr_trace run = START :: planner :: responder :: nil
                /\ error final = error state)).
Proof.
  intros Hd Ha. unfold invoke, recursion_limit.
  exact (no_dataset_walk env 22 state log Hd Ha).
Qed.

Lemma no_dataset_run_witness :
  exists new,
    gr_log (invoke Demo.tools_down (initial_state "How many orders?" None) nil)
    = nil ++ new
    /\ (List.length new <= 2)%nat.
Proof.
  destruct (no_dataset_run Demo.tools_down (initial_state "How many orders?" None) nil
              eq_refl eq_refl) as (new & Hlog & _ & Hlen & _).
  exists new. split; [exact Hlog | exact Hlen].
Defined.

(** ** [_get_schema_info] *)

(** X25.  The schema text.  [_get_schema_info] reads the schema of the
    dataset and nothing else: it raises exactly what reading the schema
    raises, and otherwise returns a text that starts with
    ["Dataset columns:"] and holds a line ["  - column: dtype"] for every
    column. *)
Theorem schema_info_contents (lf : LazyFrame) :
  match collect_schema lf, _get_schema_info lf with
  | Ok schema, Ok text =>
      Py.startswith text "Dataset columns:" = true
      /\ Forall (fun cd => Py.contains ("  - " ++ fst cd ++ ": " ++ snd cd)%string text
                           = true)
                schema
  | Raise e, Raise e' => e = e'
  | _, _ => False
  end.
Proof.
  unfold _get_schema_info. destruct (collect_schema lf) as [schema | e]; [| reflexivity].
  split; [apply startswith_app |].
  apply List.Forall_forall. intros cd Hin.
  apply contains_app_r, contains_app_r. apply contains_join. unfold schema_lines.
  apply (in_map (fun cd => "  - " ++ fst cd ++ ": " ++ snd cd)%string). exact Hin.
Qed.

(** ** C5: failures and the pipeline *)


(** Nor is the generated program: when it leaves through [SystemExit], the
    exception passes the [except Exception] clause of the analysis loop,
    and the graph raises after entering the executor. *)
Lemma generated_exit_leaves_graph :
  gr_state (invoke Demo.quitter (initial_state "Top 5 suppliers?" (Some Demo.dataset)) nil)
  = Raise (mkExn "SystemExit" "1")
  /\ gr_trace (invoke Demo.quitter
                      (initial_state "Top 5 suppliers?" (Some Demo.dataset)) nil)
     = START :: planner :: executor :: nil.
Proof. split; vm_compute; reflexivity. Qed.















